(** * Load generator: cleanup tracker, control plane, chaos transport, chat send

    A shallow embedding of the Go load generator
    (loadgen/internal/cleanup/cleanup.go, internal/web, internal/chaos,
    internal/behaviors/chat, internal/generator) and the properties of its
    specification that concern them.

    Go values are modelled as follows.
    - [int] is [Z]; lengths and indices are [nat].
    - [string] is [string]; [strings.HasPrefix] is [String.prefix].
    - [[]string] that is stored in a struct field ([Cleanup.users], the
      [TrackedUsers] field of a report) is a slice header over a store of
      backing arrays, so that aliasing is visible.  Slices that are local to
      one call are plain lists.
    - [map[string]int] is [gmap string Z].
    - the network and [math/rand] are oracles: the reply to the k-th request
      handed to [http.Client.Do] and the k-th raw random draw.
    - [url.Parse] is an oracle as well: the functions that build requests
      come twice, as the run in which every request is built and, in
      [Panicking], with the panic on a request that is not. *)

From stdpp Require Import gmap strings list fin_maps.
From Stdlib Require Import ZArith QArith.
From Stdlib Require DecimalString DecimalN.

Local Open Scope string_scope.
Local Open Scope list_scope.
Local Open Scope Z_scope.
Local Open Scope nat_scope.

(** ** JSON values, requests and replies *)

#[local] Unset Elimination Schemes.
Inductive JSON : Type :=
| JNull
| JBool (b : bool)
| JNumber (n : Z)
| JString (s : string)
| JArray (items : list JSON)
| JObject (fields : list (string * JSON)).
#[local] Set Elimination Schemes.

(** A decoded JSON object is a Go [map[string]interface{}]: when a key is
    repeated in the text the decoder keeps the last value. *)
Fixpoint obj_get (k : string) (fields : list (string * JSON)) : option JSON :=
  match fields with
  | [] => None
  | (k', v) :: rest =>
      match obj_get k rest with
      | Some v' => Some v'
      | None => if String.eqb k' k then Some v else None
      end
  end.

Inductive Method := GET | DELETE.

Record Request := mkRequest { r_method : Method; r_url : string }.

(** What [c.client.Do(req)] returns: an error, or a response with a status
    code and a body.  The body is [None] when no JSON value can be read
    from it. *)
Inductive Response :=
| TransportError
| Reply (status : Z) (body : option JSON).

#[global] Instance Method_eq_dec : EqDecision Method.
Proof. solve_decision. Defined.

#[global] Instance Request_eq_dec : EqDecision Request.
Proof. solve_decision. Defined.

(** ** Configuration (internal/config/config.go) *)

Record Service := { BaseURL : string; Timeout : string }.

Record Services := {
  UserService : Service;
  ChatService : Service;
  PostsService : Service;
  ProfileService : Service
}.

Record Chaos := { ErrorRate : Q; DelayRate : Q; MaxDelayMs : Z }.

Record Config := {
  services : Services;
  chaos : Chaos;
  WebPort : string;
  MetricsPort : string
}.

(** ** Slices over a store of backing arrays *)

Record slice := Slice { s_ptr : nat; s_len : nat; s_cap : nat }.

#[global] Instance slice_eq_dec : EqDecision slice.
Proof. solve_decision. Defined.

(** A backing array is the list of its cells; its length is its capacity.
    [next] is the first address never handed out. *)
Record Store := mkStore { arrays : gmap nat (list string); next : nat }.

Definition cells (st : Store) (p : nat) : list string :=
  default [] (arrays st !! p).

(** The contents seen through a slice header: cells [0 .. len). *)
Definition read (st : Store) (s : slice) : list string :=
  take (s_len s) (cells st s.(s_ptr)).

(** ** The state of the process seen by the tracker *)

Record World := mkWorld {
  users : slice;            (* Cleanup.users *)
  store : Store;            (* backing arrays of every slice *)
  wire : list Request;      (* requests handed to client.Do, oldest first *)
  draws : nat               (* raw random numbers consumed so far *)
}.

Definition set_users (s : slice) (w : World) : World :=
  mkWorld s (store w) (wire w) (draws w).
Definition set_store (st : Store) (w : World) : World :=
  mkWorld (users w) st (wire w) (draws w).
Definition set_wire (l : list Request) (w : World) : World :=
  mkWorld (users w) (store w) l (draws w).
Definition set_draws (n : nat) (w : World) : World :=
  mkWorld (users w) (store w) (wire w) n.

(** Commands thread the world. *)
Definition M (A : Type) : Type := World -> A * World.

Definition ret {A} (a : A) : M A := fun w => (a, w).
Definition bind {A B} (m : M A) (k : A -> M B) : M B :=
  fun w => let (a, w') := m w in k a w'.

Declare Scope cmd_scope.
Delimit Scope cmd_scope with cmd.
Notation "'do' x <~ m ; k" := (bind m (fun x => k))
  (at level 10, x name, m at level 99, k at level 200) : cmd_scope.
Notation "'do' ' p <~ m ; k" := (bind m (fun x => let 'p := x in k))
  (at level 10, p pattern, m at level 99, k at level 200) : cmd_scope.
Notation "m ;; k" := (bind m (fun _ => k))
  (at level 100, k at level 200, right associativity) : cmd_scope.
Local Open Scope cmd_scope.

Definition exec {A} (m : M A) (w : World) : World := snd (m w).
Definition eval {A} (m : M A) (w : World) : A := fst (m w).

(** [for _, u := range c.users] evaluates the slice once; the loops below
    never write to the array they range over, so the elements are read up
    front. *)
Definition rangeUsers : M (list string) :=
  fun w => (read (store w) (users w), w).

(** [c.users] as a value: the slice header, not its elements. *)
Definition GetTrackedUsers : M slice := fun w => (users w, w).

Definition assignUsers (s : slice) : M unit := fun w => (tt, set_users s w).

(** What the tracker's code takes from outside the repository. *)
Record Env := mkEnv {
  (** extra capacity the Go runtime adds when [append] has to move a slice
      whose capacity was [c] *)
  env_slack : nat -> nat;
  (** the loaded configuration *)
  env_cfg : Config;
  (** the network: the reply to [req] when it is the k-th request handed to
      the HTTP client (k counts from 0); a cancelled or expired context
      shows as [TransportError] *)
  env_srv : nat -> Request -> Response;
  (** [math/rand]: the k-th raw draw *)
  env_rnd : nat -> nat;
  (** [fmt]'s [%v] rendering of a decoded JSON value *)
  env_fmtv : JSON -> string
}.

Section Tracker.

Variable E : Env.

Local Abbreviation slack := (env_slack E).
Local Abbreviation cfg := (env_cfg E).
Local Abbreviation srv := (env_srv E).
Local Abbreviation rnd := (env_rnd E).
Local Abbreviation fmtv := (env_fmtv E).

(** [make([]string, 0)] *)
Definition make0 : M slice := fun w =>
  let st := store w in
  let p := next st in
  (Slice p 0 0, set_store (mkStore (<[p := []]> (arrays st)) (S p)) w).

(** [append(s, x)]: writes in place when there is room, otherwise moves the
    elements to a new array. *)
Definition append (s : slice) (x : string) : M slice := fun w =>
  let st := store w in
  let arr := cells st (s_ptr s) in
  if decide (s_len s < s_cap s) then
    (Slice (s_ptr s) (S (s_len s)) (s_cap s),
     set_store (mkStore (<[s_ptr s := <[s_len s := x]> arr]> (arrays st)) (next st)) w)
  else
    let p := next st in
    let extra := slack (s_cap s) in
    (Slice p (S (s_len s)) (S (s_len s) + extra),
     set_store (mkStore (<[p := take (s_len s) arr ++ x :: replicate extra ""]> (arrays st))
                        (S p)) w).

(** [c.client.Do(req)] for a request that [http.NewRequestWithContext]
    built; [Panicking.Do] below has the nil request as well. *)
Definition Do (req : Request) : M Response := fun w =>
  (srv (length (wire w)) req, set_wire (wire w ++ [req]) w).

(** [rand.Intn(n)] for [n > 0]. *)
Definition Intn (n : nat) : M nat := fun w =>
  (rnd (draws w) mod n, set_draws (S (draws w)) w).

(** [all[i], all[j] = all[j], all[i]] *)
Definition swap (l : list string) (i j : nat) : list string :=
  match l !! i, l !! j with
  | Some a, Some b => <[j := a]> (<[i := b]> l)
  | _, _ => l
  end.

(** [rand.Shuffle]: [for i := n-1; i > 0; i-- { j := Intn(i+1); swap(i, j) }];
    [shuffle_down i] runs the iterations [i, i-1, .., 1]. *)
Fixpoint shuffle_down (i : nat) (l : list string) : M (list string) :=
  match i with
  | 0 => ret l
  | S i' => do j <~ Intn (S i); shuffle_down i' (swap l i j)
  end.

Definition Shuffle (l : list string) : M (list string) :=
  shuffle_down (length l - 1) l.

(** ** Cleanup tracker (internal/cleanup/cleanup.go) *)

(** [New]: an empty tracker in a process that has issued nothing yet. *)
Definition New : World :=
  exec (do s <~ make0; assignUsers s) (mkWorld (Slice 0 0 0) (mkStore ∅ 0) [] 0).

(** The linear scan [for _, u := range l { if u == x { .. } }]. *)
Fixpoint contains (x : string) (l : list string) : bool :=
  match l with
  | [] => false
  | u :: rest => if String.eqb u x then true else contains x rest
  end.

Definition AddUser (username : string) : M unit :=
  do us <~ rangeUsers;
  if contains username us then ret tt
  else
    do s <~ GetTrackedUsers;
    do s' <~ append s username;
    assignUsers s'.

(** [Cleanup] has no lock, and [Generator.Run] calls [AddUser] from one
    goroutine per virtual user.  The statement
    [c.users = append(c.users, username)] reads the header [c.users],
    appends through it and stores the result; another goroutine can run
    between the read and the store.

    [AddUser_read] is [AddUser] up to and including the read of [c.users];
    [None] when the name is tracked already. *)
Definition AddUser_read (username : string) : M (option slice) :=
  do us <~ rangeUsers;
  if contains username us then ret None
  else do s <~ GetTrackedUsers; ret (Some s).

(** The rest of [AddUser]: the append through the header that was read, and
    the store into [c.users]. *)
Definition AddUser_write (s : slice) (username : string) : M unit :=
  do s' <~ append s username;
  assignUsers s'.

(** The loop that ends [ReduceLoad], [DeleteTestUsers] and [DeleteUser]:
    [remaining := make([]string, 0)];
    [for _, u := range c.users { if keep(u) { remaining = append(remaining, u) } }];
    [c.users = remaining]. *)
Fixpoint retain_loop (keep : string -> bool) (us : list string) (remaining : slice)
  : M slice :=
  match us with
  | [] => ret remaining
  | u :: rest =>
      if keep u then
        do remaining' <~ append remaining u; retain_loop keep rest remaining'
      else retain_loop keep rest remaining
  end.

Definition retain (keep : string -> bool) : M unit :=
  do remaining <~ make0;
  do us <~ rangeUsers;
  do remaining' <~ retain_loop keep us remaining;
  assignUsers remaining'.

Definition userURL (u : string) : string :=
  BaseURL (UserService (services cfg)) +:+ "/api/users/" +:+ u.

Definition acknowledged (code : Z) : bool := ((code =? 200) || (code =? 204))%Z.

(** The [for _, u := range users] loop of [cleanupUsers], in the run in
    which every request is built. *)
Fixpoint cleanupUsers_loop (us : list string)
    (deleted : list string) (failed : gmap string Z)
  : M (list string * gmap string Z) :=
  match us with
  | [] => ret (deleted, failed)
  | u :: rest =>
      do resp <~ Do (mkRequest DELETE (userURL u));
      match resp with
      | TransportError => cleanupUsers_loop rest deleted (<[u := 0%Z]> failed)
      | Reply code _ =>
          if acknowledged code
          then cleanupUsers_loop rest (deleted ++ [u]) failed
          else cleanupUsers_loop rest deleted (<[u := code]> failed)
      end
  end.

Definition cleanupUsers (us : list string) : M (list string * gmap string Z) :=
  cleanupUsers_loop us [] ∅.

(** [json.NewDecoder(body).Decode(&v)] for [v : []map[string]interface{}];
    the error is dropped by the callers, elements that are not objects are
    left as nil maps. *)
Definition decodeObjects (body : option JSON) : list (list (string * JSON)) :=
  match body with
  | Some (JArray items) =>
      map (fun it => match it with JObject f => f | _ => [] end) items
  | _ => []
  end.

(** The body shared by [cleanupChatMessagesFromUsers] and
    [cleanupPostsFromUsers]: delete every item whose [username] is one of
    [targets].  This is the run in which every request is built. *)
Fixpoint cascade_loop (base : string) (targets : list string)
    (items : list (list (string * JSON))) (deletedCount : Z) : M Z :=
  match items with
  | [] => ret deletedCount
  | item :: rest =>
      match obj_get "username" item with
      | Some (JString username) =>
          if contains username targets then
            match obj_get "id" item with
            | Some id =>
                do resp <~ Do (mkRequest DELETE (base +:+ "/" +:+ fmtv id));
                match resp with
                | TransportError => cascade_loop base targets rest deletedCount
                | Reply _ _ => cascade_loop base targets rest (deletedCount + 1)%Z
                end
            | None => cascade_loop base targets rest deletedCount
            end
          else cascade_loop base targets rest deletedCount
      | _ => cascade_loop base targets rest deletedCount
      end
  end.

Definition cascade (base : string) (targets : list string) : M Z :=
  do resp <~ Do (mkRequest GET base);
  match resp with
  | TransportError => ret 0%Z
  | Reply _ body => cascade_loop base targets (decodeObjects body) 0%Z
  end.

Definition cleanupChatMessagesFromUsers (targets : list string) : M Z :=
  cascade (BaseURL (ChatService (services cfg)) +:+ "/api/messages") targets.

Definition cleanupPostsFromUsers (targets : list string) : M Z :=
  cascade (BaseURL (PostsService (services cfg)) +:+ "/api/posts") targets.

(** [usersToDelete] after the guard at the head of [ReduceLoad]. *)
Definition clampCount (usersToDelete : Z) (n : nat) : nat :=
  if ((usersToDelete <=? 0) || (usersToDelete >? Z.of_nat n))%Z
  then n else Z.to_nat usersToDelete.

Definition ReduceLoad (usersToDelete : Z) : M Z :=
  do us <~ rangeUsers;
  let usersToDelete := clampCount usersToDelete (length us) in
  do all <~ Shuffle us;
  let selectedUsers :=
    if decide (usersToDelete < length all) then take usersToDelete all else all in
  do '(deletedList, _) <~ cleanupUsers selectedUsers;
  cleanupChatMessagesFromUsers selectedUsers ;;
  cleanupPostsFromUsers selectedUsers ;;
  retain (fun user => negb (contains user selectedUsers)) ;;
  ret (Z.of_nat (length deletedList)).

(** [json.NewDecoder(body).Decode(&data)] for
    [data : map[string]interface{}]: [None] is a decoding error. *)
Definition decodeObject (body : option JSON) : option (list (string * JSON)) :=
  match body with
  | Some (JObject f) => Some f
  | Some JNull => Some []
  | _ => None
  end.

Definition testPrefix : string := "user_".

(** The candidates read from the dashboard reply. *)
Definition dashboardCandidates (data : list (string * JSON)) : list string :=
  match obj_get "users" data with
  | Some (JArray arr) =>
      flat_map (fun v =>
        match v with
        | JString it => if String.prefix testPrefix it then [it] else []
        | JObject it =>
            match obj_get "username" it with
            | Some (JString uname) =>
                if String.prefix testPrefix uname then [uname] else []
            | _ => []
            end
        | _ => []
        end) arr
  | _ => []
  end.

(** The fallback: the tracked users that carry the prefix. *)
Definition trackedCandidates (us : list string) : list string :=
  List.filter (String.prefix testPrefix) us.

Definition flag (m : gmap string bool) (k : string) : bool :=
  default false (m !! k).

Fixpoint uniq_loop (cands : list string) (seen : gmap string bool)
    (uniq : list string) : list string :=
  match cands with
  | [] => uniq
  | s :: rest =>
      if flag seen s then uniq_loop rest seen uniq
      else uniq_loop rest (<[s := true]> seen) (uniq ++ [s])
  end.

Definition delSet (deleted : list string) : gmap string bool :=
  fold_left (fun m d => <[d := true]> m) deleted ∅.

(** Dedupe, shuffle and truncate to [count]; [None] is the early
    [return []string{}, map[string]int{}] taken when there is no candidate. *)
Definition pickCandidates (candidates : list string) (count : Z)
  : M (option (list string)) :=
  match candidates with
  | [] => ret None
  | _ =>
      do uniq <~ Shuffle (uniq_loop candidates ∅ []);
      ret (Some (if decide (count < Z.of_nat (length uniq))%Z
                 then take (Z.to_nat count) uniq else uniq))
  end.

Definition dashboardRequest : Request :=
  mkRequest GET (BaseURL (UserService (services cfg)) +:+ "/api/users/dashboard").

(** Candidate selection shared by [DeleteTestUsers] and
    [DeleteRandomTestUsersConcurrent]. *)
Definition selectTestUsers (count : Z) : M (option (list string)) :=
  do resp <~ Do dashboardRequest;
  match resp with
  | TransportError => ret None
  | Reply _ body =>
      match decodeObject body with
      | None => ret None
      | Some data =>
          do us <~ rangeUsers;
          pickCandidates
            (match dashboardCandidates data with
             | [] => trackedCandidates us
             | candidates => candidates
             end) count
      end
  end.

(** The tail of [DeleteTestUsers]: delete the selection, then drop the
    deleted users from the tracked list. *)
Definition deleteSelected (sel : option (list string))
  : M (list string * gmap string Z) :=
  match sel with
  | None => ret ([], ∅)
  | Some toDelete =>
      do '(deleted, failed) <~ cleanupUsers toDelete;
      let del := delSet deleted in
      retain (fun u => negb (flag del u)) ;;
      ret (deleted, failed)
  end.

Definition DeleteTestUsers (count : Z) : M (list string * gmap string Z) :=
  if (count <=? 0)%Z then ret ([], ∅)
  else do sel <~ selectTestUsers count; deleteSelected sel.

Definition DeleteUser (username : string) : M (bool * Z) :=
  if String.eqb username "" || negb (String.prefix testPrefix username)
  then ret (false, 400%Z)
  else
    do '(deleted, failed) <~ cleanupUsers [username];
    if decide (length deleted = 1) then
      retain (fun u => negb (String.eqb u username)) ;;
      ret (true, 200%Z)
    else
      match failed !! username with
      | Some code => ret (false, code)
      | None => ret (false, 0%Z)
      end.

(** *** The launch loop of [DeleteRandomTestUsersConcurrent] *)

(** What a statement hands to the statement around it: it ended normally,
    or it ran a [break]. *)
Inductive Signal := Normal | Break.

(** The case the [select] in the loop takes: [case <-ctx.Done(): break]
    when the context is done, [default:] (empty) otherwise. *)
Definition selectCase (ctxDone : bool) : Signal :=
  if ctxDone then Break else Normal.

(** A [break] refers to the innermost [for], [switch] or [select] around
    it.  Here that is the [select]: the [break] ends the [select], and the
    statement after it runs. *)
Definition endSelect (s : Signal) : Signal :=
  match s with
  | Break => Normal
  | Normal => Normal
  end.

(** The [for _, u := range toDelete] loop.  [ctxDone i] tells whether
    [ctx.Done()] is closed when iteration [i] polls it.  The goroutines are
    run under the schedule in which each one finishes before the next is
    launched, so the semaphore never blocks; [launched] lists the
    usernames a goroutine was started for. *)
Fixpoint launch_loop (ctxDone : nat -> bool) (i : nat) (toDelete : list string)
    (launched deleted : list string) (failed : gmap string Z)
  : M (list string * list string * gmap string Z) :=
  match toDelete with
  | [] => ret (launched, deleted, failed)
  | u :: rest =>
      match endSelect (selectCase (ctxDone i)) with
      | Break => ret (launched, deleted, failed)
      | Normal =>
          do '(d, code) <~ DeleteUser u;
          if d : bool
          then launch_loop ctxDone (S i) rest (launched ++ [u]) (deleted ++ [u]) failed
          else launch_loop ctxDone (S i) rest (launched ++ [u]) deleted (<[u := code]> failed)
      end
  end.

Definition poolSize (concurrency : Z) (n : nat) : Z :=
  let concurrency := if (concurrency <=? 0)%Z then 5%Z else concurrency in
  if (concurrency >? Z.of_nat n)%Z then Z.of_nat n else concurrency.

Definition DeleteRandomTestUsersConcurrent (ctxDone : nat -> bool)
    (count concurrency : Z) : M (list string * list string * gmap string Z) :=
  if (count <=? 0)%Z then ret ([], [], ∅)
  else
    do sel <~ selectTestUsers count;
    match sel with
    | None => ret ([], [], ∅)
    | Some toDelete =>
        let concurrency := poolSize concurrency (length toDelete) in
        launch_loop ctxDone 0 toDelete [] [] ∅
    end.

(** The operations a caller can run on the tracker. *)
Inductive TrackerOp :=
| OpAddUser (username : string)
| OpDeleteUser (username : string)
| OpReduceLoad (usersToDelete : Z)
| OpDeleteTestUsers (count : Z)
| OpDeleteConcurrent (ctxDone : nat -> bool) (count concurrency : Z).

Definition step (op : TrackerOp) : World -> World :=
  match op with
  | OpAddUser u => exec (AddUser u)
  | OpDeleteUser u => exec (DeleteUser u)
  | OpReduceLoad n => exec (ReduceLoad n)
  | OpDeleteTestUsers n => exec (DeleteTestUsers n)
  | OpDeleteConcurrent d n k => exec (DeleteRandomTestUsersConcurrent d n k)
  end.

Definition run (ops : list TrackerOp) (w : World) : World :=
  fold_left (fun w op => step op w) ops w.

End Tracker.

(** The JSON object [handleReduceLoad] answers with. *)
Record ReduceReply := mkReduceReply {
  deleted_count : Z;
  deleted_users : list string;
  failed_users : gmap string Z;
  remaining : Z;
  reply_status : string
}.

(** ** Requests that cannot be built

    The tracker builds each request with
    [req, _ := http.NewRequestWithContext(ctx, method, url, nil)] and hands
    [req] to [c.client.Do] without looking at the error.  When [url.Parse]
    rejects the URL, [req] is nil and [Do] dereferences it: the call
    panics.  The commands of the section above are the runs in which every
    request is built; [Panicking] has the same functions with the other
    case written out. *)

(** How a call ends: it returns a value, or it panics; [s] is the state at
    that moment. *)
Inductive Outcome (S A : Type) : Type :=
| Returns (a : A) (s : S)
| PanicsIn (s : S).

Arguments Returns {S A} a s.
Arguments PanicsIn {S A} s.

(** Commands that can panic. *)
Definition P (A : Type) : Type := World → Outcome World A.

Definition retP {A} (a : A) : P A := fun w => Returns a w.

Definition bindP {A B} (m : P A) (k : A → P B) : P B := fun w =>
  match m w with
  | Returns a w' => k a w'
  | PanicsIn w' => PanicsIn w'
  end.

(** A command that cannot panic. *)
Definition lift {A} (m : M A) : P A := fun w => let (a, w') := m w in Returns a w'.

Declare Scope panic_scope.
Delimit Scope panic_scope with panic.
Notation "'do' x <~ m ; k" := (bindP m (fun x => k))
  (at level 10, x name, m at level 99, k at level 200) : panic_scope.
Notation "'do' ' p <~ m ; k" := (bindP m (fun x => let 'p := x in k))
  (at level 10, p pattern, m at level 99, k at level 200) : panic_scope.
Notation "m ;; k" := (bindP m (fun _ => k))
  (at level 100, k at level 200, right associativity) : panic_scope.

Module Panicking.

Section Tracker.

Local Open Scope panic_scope.

Variable E : Env.

(** [url.Parse(rawURL)] returns no error. *)
Variable parses : string → bool.

Local Abbreviation cfg := (env_cfg E).
Local Abbreviation fmtv := (env_fmtv E).

(** [http.NewRequestWithContext(ctx, method, url, nil)]; [None] is the nil
    request that comes with an error.  The method is one of the constants
    [GET] and [DELETE] and the context is never nil, so the only error is
    that of [url.Parse]. *)
Definition NewRequestWithContext (method : Method) (url : string) : option Request :=
  if parses url then Some (mkRequest method url) else None.

(** [c.client.Do(req)]: a nil request is dereferenced. *)
Definition Do (req : option Request) : P Response :=
  match req with
  | Some r => lift (Do E r)
  | None => fun w => PanicsIn w
  end.

Fixpoint cleanupUsers_loop (us : list string)
    (deleted : list string) (failed : gmap string Z)
  : P (list string * gmap string Z) :=
  match us with
  | [] => retP (deleted, failed)
  | u :: rest =>
      let req := NewRequestWithContext DELETE (userURL E u) in
      do resp <~ Do req;
      match resp with
      | TransportError => cleanupUsers_loop rest deleted (<[u := 0%Z]> failed)
      | Reply code _ =>
          if acknowledged code
          then cleanupUsers_loop rest (deleted ++ [u]) failed
          else cleanupUsers_loop rest deleted (<[u := code]> failed)
      end
  end.

Definition cleanupUsers (us : list string) : P (list string * gmap string Z) :=
  cleanupUsers_loop us [] ∅.

Fixpoint cascade_loop (base : string) (targets : list string)
    (items : list (list (string * JSON))) (deletedCount : Z) : P Z :=
  match items with
  | [] => retP deletedCount
  | item :: rest =>
      match obj_get "username" item with
      | Some (JString username) =>
          if contains username targets then
            match obj_get "id" item with
            | Some id =>
                let deleteReq :=
                  NewRequestWithContext DELETE (base +:+ "/" +:+ fmtv id) in
                do resp <~ Do deleteReq;
                match resp with
                | TransportError => cascade_loop base targets rest deletedCount
                | Reply _ _ => cascade_loop base targets rest (deletedCount + 1)%Z
                end
            | None => cascade_loop base targets rest deletedCount
            end
          else cascade_loop base targets rest deletedCount
      | _ => cascade_loop base targets rest deletedCount
      end
  end.

Definition cascade (base : string) (targets : list string) : P Z :=
  let req := NewRequestWithContext GET base in
  do resp <~ Do req;
  match resp with
  | TransportError => retP 0%Z
  | Reply _ body => cascade_loop base targets (decodeObjects body) 0%Z
  end.

Definition cleanupChatMessagesFromUsers (targets : list string) : P Z :=
  cascade (BaseURL (ChatService (services cfg)) +:+ "/api/messages") targets.

Definition cleanupPostsFromUsers (targets : list string) : P Z :=
  cascade (BaseURL (PostsService (services cfg)) +:+ "/api/posts") targets.

Definition ReduceLoad (usersToDelete : Z) : P Z :=
  do us <~ lift rangeUsers;
  let usersToDelete := clampCount usersToDelete (length us) in
  do all <~ lift (Shuffle E us);
  let selectedUsers :=
    if decide (usersToDelete < length all) then take usersToDelete all else all in
  do '(deletedList, _) <~ cleanupUsers selectedUsers;
  cleanupChatMessagesFromUsers selectedUsers ;;
  cleanupPostsFromUsers selectedUsers ;;
  do _ <~ lift (retain E (fun user => negb (contains user selectedUsers)));
  retP (Z.of_nat (length deletedList)).

Definition selectTestUsers (count : Z) : P (option (list string)) :=
  let dashboardURL := BaseURL (UserService (services cfg)) +:+ "/api/users/dashboard" in
  let req := NewRequestWithContext GET dashboardURL in
  do resp <~ Do req;
  match resp with
  | TransportError => retP None
  | Reply _ body =>
      match decodeObject body with
      | None => retP None
      | Some data =>
          do us <~ lift rangeUsers;
          lift (pickCandidates E
                  (match dashboardCandidates data with
                   | [] => trackedCandidates us
                   | candidates => candidates
                   end) count)
      end
  end.

Definition deleteSelected (sel : option (list string))
  : P (list string * gmap string Z) :=
  match sel with
  | None => retP ([], ∅)
  | Some toDelete =>
      do '(deleted, failed) <~ cleanupUsers toDelete;
      let del := delSet deleted in
      do _ <~ lift (retain E (fun u => negb (flag del u)));
      retP (deleted, failed)
  end.

Definition DeleteTestUsers (count : Z) : P (list string * gmap string Z) :=
  if (count <=? 0)%Z then retP ([], ∅)
  else do sel <~ selectTestUsers count; deleteSelected sel.

Definition DeleteUser (username : string) : P (bool * Z) :=
  if String.eqb username "" || negb (String.prefix testPrefix username)
  then retP (false, 400%Z)
  else
    do '(deleted, failed) <~ cleanupUsers [username];
    if decide (length deleted = 1) then
      do _ <~ lift (retain E (fun u => negb (String.eqb u username)));
      retP (true, 200%Z)
    else
      match failed !! username with
      | Some code => retP (false, code)
      | None => retP (false, 0%Z)
      end.

(** [handleReduceLoad]; a panic of the handler is recovered by the server,
    which closes the connection without a reply. *)
Definition handleReduceLoad (method : string) (body : option Z)
  : P (Z * option ReduceReply) :=
  if negb (String.eqb method "POST") then retP (405%Z, None)
  else
    match body with
    | None => retP (400%Z, None)
    | Some count =>
        do '(deletedUsers, failed) <~ DeleteTestUsers count;
        do tracked <~ lift GetTrackedUsers;
        retP (200%Z,
              Some (mkReduceReply (Z.of_nat (length deletedUsers)) deletedUsers failed
                      (Z.of_nat (s_len tracked)) "completed"))
    end.

End Tracker.

End Panicking.

(** A request [http.NewRequestWithContext] accepts. *)
Definition buildable (parses : string → bool) (r : Request) : Prop :=
  parses (r_url r) = true.

(** The requests a command hands to the client in the run in which every
    one of them is built. *)
Definition handed {A} (m : M A) (w : World) : list Request :=
  drop (length (wire w)) (wire (exec m w)).

(** A command that hands nothing to the client. *)
Definition silent {A} (m : M A) : Prop := ∀ w, wire (snd (m w)) = wire w.

(** [p] is [m] with the panics written out: when [p] returns, [m] is the
    same run and every request of it was built; when [p] panics, it does
    so at the first request of [m] that cannot be built, before the
    tracker has been touched. *)
Definition refines (parses : string → bool) {A} (p : P A) (m : M A) : Prop :=
  ∀ w, wire w `prefix_of` wire (exec m w)
       ∧ match p w with
         | Returns a w' => m w = (a, w') ∧ Forall (buildable parses) (handed m w)
         | PanicsIn w' =>
             store w' = store w ∧ users w' = users w
             ∧ ∃ pre r, wire w' = wire w ++ pre
                        ∧ (wire w ++ pre ++ [r]) `prefix_of` wire (exec m w)
                        ∧ Forall (buildable parses) pre
                        ∧ parses (r_url r) = false
         end.

(** ** Control plane (internal/web) *)

Record TestRun := mkTestRun {
  Users : Z;
  Duration : string;
  Ramp : string;
  Status : string;
  StartTime : Z;
  cancel : nat            (* the context its cancel function cancels *)
}.

Record TestReport := mkTestReport {
  ID : Z;
  rUsers : Z;
  rDuration : string;
  rRamp : string;
  rStartTime : Z;
  rEndTime : Z;
  rStatus : string;
  Metrics : list (string * JSON);
  TrackedUsers : slice
}.

(** [WebServer] together with what its goroutines share: the contexts that
    have been cancelled and the [runTest] goroutines still alive, each named
    by the context it was started with. *)
Record WebServer := mkWebServer {
  currentTest : option TestRun;
  reports : list TestReport;
  cancelled : list nat;
  nextCtx : nat;
  alive : list nat
}.

Definition NewWebServer : WebServer := mkWebServer None [] [] 0 [].

(** [handleStart]; [body] is the decoded JSON request, [None] when it does
    not decode.  Returns the HTTP status. *)
Definition handleStart (method : string) (body : option TestRun) (now : Z)
    (ws : WebServer) : Z * WebServer :=
  if negb (String.eqb method "POST") then (405%Z, ws)
  else
    match body with
    | None => (400%Z, ws)
    | Some req =>
        let cancelled' :=
          match currentTest ws with
          | Some r => if String.eqb (Status r) "running"
                      then cancelled ws ++ [cancel r] else cancelled ws
          | None => cancelled ws
          end in
        let ctx := nextCtx ws in
        (200%Z,
         mkWebServer
           (Some (mkTestRun (Users req) (Duration req) (Ramp req) "running" now ctx))
           (reports ws) cancelled' (S ctx) (alive ws ++ [ctx]))
    end.

(** [handleStop]; [metrics] is what [collectMetrics] returns and [w] the
    tracker's world at that moment. *)
Definition handleStop (method : string) (now : Z) (metrics : list (string * JSON))
    (w : World) (ws : WebServer) : Z * WebServer :=
  if negb (String.eqb method "POST") then (405%Z, ws)
  else
    match currentTest ws with
    | Some r =>
        if String.eqb (Status r) "running" then
          let report :=
            mkTestReport (Z.of_nat (length (reports ws)) + 1) (Users r) (Duration r)
              (Ramp r) (StartTime r) now "stopped" metrics (eval GetTrackedUsers w) in
          (200%Z,
           mkWebServer None (reports ws ++ [report]) (cancelled ws ++ [cancel r])
             (nextCtx ws) (alive ws))
        else (200%Z, ws)
    | None => (200%Z, ws)
    end.

(** [handleReports]: the slice that is encoded into the response. *)
Definition handleReports (ws : WebServer) : list TestReport :=
  let reports := reports ws in
  if decide (5 < length reports) then drop (length reports - 5) reports
  else reports.

Section RunTest.

(** [time.ParseDuration]: [None] is an error. *)
Variable ParseDuration : string -> option Z.

(** What the [runTest] goroutine started with context [ctx] does to the
    server.  Both of its accesses to the server sit in one critical
    section, taken either right after a parse error or after [gen.Run]
    has returned; [startTime] and [endTime] are the clock readings around
    [gen.Run], [metrics] is [collectMetrics()] and [w] the tracker's world
    when the report is built. *)
Definition runTest (ctx : nat) (req : TestRun) (startTime endTime : Z)
    (metrics : list (string * JSON)) (w : World) (ws : WebServer) : WebServer :=
  let alive' := List.filter (fun c => negb (Nat.eqb c ctx)) (alive ws) in
  match ParseDuration (Duration req) with
  | None =>
      mkWebServer
        (match currentTest ws with
         | Some r => Some (mkTestRun (Users r) (Duration r) (Ramp r) "error"
                             (StartTime r) (cancel r))
         | None => None
         end)
        (reports ws) (cancelled ws) (nextCtx ws) alive'
  | Some duration =>
      let status :=
        match currentTest ws with
        | Some r => if String.eqb (Status r) "stopped" then "stopped" else "completed"
        | None => "completed"
        end in
      let report :=
        mkTestReport (Z.of_nat (length (reports ws)) + 1) (Users req) (Duration req)
          (Ramp req) startTime endTime status metrics (eval GetTrackedUsers w) in
      mkWebServer None (reports ws ++ [report]) (cancelled ws) (nextCtx ws) alive'
  end.

End RunTest.

(** ** Chaos transport (internal/chaos) *)

Module ChaosTransport.

(** A Go computation either panics or finishes with a value. *)
Inductive Go (A : Type) : Type :=
| Panics
| Finishes (a : A).
Arguments Panics {A}.
Arguments Finishes {A} a.

(** [rand.Intn(n)] panics when [n <= 0]; [raw] is the non-negative raw
    draw it reduces. *)
Definition Intn (raw n : Z) : Go Z :=
  if (n <=? 0)%Z then Panics else Finishes (raw mod n)%Z.

(** [int64] arithmetic wraps around. *)
Definition wrap64 (z : Z) : Z := ((z + 2 ^ 63) mod 2 ^ 64 - 2 ^ 63)%Z.

(** [time.Duration(k) * time.Millisecond], in nanoseconds. *)
Definition milliseconds (k : Z) : Z := wrap64 (k * 1000000).

Inductive Woken := TimerFired | ContextDone.

(** [select { case <-time.After(delay): case <-req.Context().Done(): .. }].
    [cancelAfter] is the time, in nanoseconds from the start of the select,
    at which the request's context is done ([None]: never); a timer with a
    delay that is not positive fires at once.  [tie] picks the case when
    both are ready together.  Returns the case taken and the time waited. *)
Definition selectDelay (delay : Z) (cancelAfter : option Z) (tie : bool)
  : Woken * Z :=
  let d := Z.max 0 delay in
  match cancelAfter with
  | None => (TimerFired, d)
  | Some t =>
      let t := Z.max 0 t in
      if (d <? t)%Z then (TimerFired, d)
      else if (t <? d)%Z then (ContextDone, t)
      else if tie then (TimerFired, d) else (ContextDone, t)
  end.

Record HttpResponse := mkHttpResponse {
  StatusCode : Z;
  StatusLine : string;
  Header : list (string * string);
  Body : string
}.

Inductive Returned :=
| ContextErr                              (* [nil, req.Context().Err()] *)
| FromBase (resp : option HttpResponse).  (* [resp, err]; [None] is [err != nil] *)

(** [u < rate] on the reals the two [float64] denote. *)
Definition below (u rate : Q) : bool := negb (Qle_bool rate u).

(** The error injection after the delegate call; [u2] is the second
    [rand.Float64()], drawn only when [err == nil]. *)
Definition inject (c : Chaos) (base : option HttpResponse) (u2 : Q) : Returned :=
  match base with
  | None => FromBase None
  | Some resp =>
      if below u2 (ErrorRate c)
      then FromBase (Some (mkHttpResponse 500 "500 Internal Server Error"
                             (Header resp) (Body resp)))
      else FromBase (Some resp)
  end.

(** [chaosTransport.RoundTrip].  [u1] is the first [rand.Float64()], [raw]
    the raw draw behind [rand.Intn], [base] what [ct.base.RoundTrip(req)]
    returns.  The result carries the injected wait, if any. *)
Definition RoundTrip (c : Chaos) (u1 : Q) (raw : Z) (cancelAfter : option Z)
    (tie : bool) (base : option HttpResponse) (u2 : Q) : Go (option Z * Returned) :=
  if below u1 (DelayRate c) then
    match Intn raw (MaxDelayMs c) with
    | Panics => Panics
    | Finishes k =>
        match selectDelay (milliseconds k) cancelAfter tie with
        | (ContextDone, t) => Finishes (Some t, ContextErr)
        | (TimerFired, t) => Finishes (Some t, inject c base u2)
        end
    end
  else Finishes (None, inject c base u2).

End ChaosTransport.

(** ** Chat behaviour (internal/behaviors/chat.go) *)

Module Chat.

Record ChatBehavior := mkChatBehavior {
  baseURL : string;
  conn : option nat;        (* the *websocket.Conn, [None] is nil *)
  token : string;
  username : string
}.

(** The metrics registry and the network as [SendMessage] sees them. *)
Record Registry := mkRegistry {
  RequestsTotal : gmap (string * string * string) nat;
  RequestDuration : list (string * string);   (* labels observed, oldest first *)
  written : list (nat * string);              (* text frames handed to WriteMessage *)
  dialed : nat                                (* calls to dialer.DialContext *)
}.

Definition Inc (labels : string * string * string) (e : Registry) : Registry :=
  mkRegistry (<[labels := S (default 0 (RequestsTotal e !! labels))]> (RequestsTotal e))
        (RequestDuration e) (written e) (dialed e).

Definition Observe (labels : string * string) (e : Registry) : Registry :=
  mkRegistry (RequestsTotal e) (RequestDuration e ++ [labels]) (written e) (dialed e).

(** [c.conn.WriteMessage(websocket.TextMessage, frame)]; [fails] tells
    whether it returns an error. *)
Definition WriteMessage (k : nat) (frame : string) (fails : bool) (e : Registry)
  : bool * Registry :=
  (fails, mkRegistry (RequestsTotal e) (RequestDuration e) (written e ++ [(k, frame)])
            (dialed e)).

(** The double quote character. *)
Definition dq : string := String (Ascii.ascii_of_nat 34) EmptyString.

(** [fmt.Sprintf] of the Socket.IO frame
    42[<q>message<q>,{<q>message<q>:<q>%s<q>,<q>room<q>:<q>general<q>,<q>isPrivate<q>:false}]
    where <q> is the double quote. *)
Definition socketIOMsg (message : string) : string :=
  "42[" +:+ dq +:+ "message" +:+ dq +:+ ",{" +:+ dq +:+ "message" +:+ dq +:+ ":"
    +:+ dq +:+ message +:+ dq +:+ "," +:+ dq +:+ "room" +:+ dq +:+ ":" +:+ dq
    +:+ "general" +:+ dq +:+ "," +:+ dq +:+ "isPrivate" +:+ dq +:+ ":false}]".

(** [ChatBehavior.SendMessage]; the deferred duration observation runs
    last on every path.  The tracing span around the call is
    instrumentation and is left out. *)
Definition SendMessage (message : string) (writeFails : bool)
    (c : ChatBehavior) (e : Registry) : ChatBehavior * Registry :=
  let deferred := Observe ("chat", "send_message") in
  match conn c with
  | None =>
      (c, deferred (Inc ("chat", "send_message", "no_connection") e))
  | Some k =>
      let (err, e1) := WriteMessage k (socketIOMsg message) writeFails e in
      if err then
        (mkChatBehavior (baseURL c) None (token c) (username c),
         deferred (Inc ("chat", "send_message", "error") e1))
      else
        (c, deferred (Inc ("chat", "send_message", "200") e1))
  end.

End Chat.

(** ** Invariants and reference notions *)

(** A slice header is valid in a store when its array has been allocated
    and holds exactly [cap] cells. *)
Definition valid (st : Store) (s : slice) : Prop :=
  s_ptr s < next st ∧ s_len s ≤ s_cap s ∧ s_cap s = length (cells st (s_ptr s)).

(** The tracker's invariant: [c.users] is a valid slice. *)
Definition wf (w : World) : Prop := valid (store w) (users w).

(** What a caller of [GetTrackedUsers] sees when it reads the result. *)
Definition tracked_list (w : World) : list string := read (store w) (users w).

(** A slice header [r] taken earlier can live next to the tracker: its array
    is allocated and, when it is the array [c.users] points to, [r] does
    not reach beyond [c.users]. *)
Definition snapshot (r : slice) (w : World) : Prop :=
  s_ptr r < next (store w) ∧ (s_ptr r = s_ptr (users w) → s_len r ≤ s_len (users w)).

(** Each distinct name once, in the order of first appearance. *)
Fixpoint first_seen (l : list string) : list string :=
  match l with
  | [] => []
  | u :: rest => u :: List.filter (fun v => negb (String.eqb v u)) (first_seen rest)
  end.

(** A command that only talks to the network or draws random numbers. *)
Definition net_only {A} (m : M A) : Prop :=
  ∀ w, store (snd (m w)) = store w ∧ users (snd (m w)) = users w
       ∧ wire w `prefix_of` wire (snd (m w)).

(** A command under which the tracker's invariant holds and an earlier
    slice header keeps showing the same elements. *)
Definition preserves (r : slice) {A} (m : M A) : Prop :=
  ∀ w, wf w → snapshot r w →
       wf (snd (m w)) ∧ snapshot r (snd (m w))
       ∧ read (store (snd (m w))) r = read (store w) r
       ∧ wire w `prefix_of` wire (snd (m w)).

(** *** A concrete environment, used to run the model *)

Definition demoService (url : string) : Service := Build_Service url "10s".

Definition demoConfig : Config :=
  Build_Config
    (Build_Services (demoService "http://user") (demoService "http://chat")
       (demoService "http://posts") (demoService "http://profile"))
    (Build_Chaos (1 # 10) (15 # 100) 1000) "3002" "9090".

(** The runtime doubles the capacity of a full slice. *)
Definition doubling (c : nat) : nat := c - 1.

(** Every request fails in transport. *)
Definition unreachable : nat → Request → Response := fun _ _ => TransportError.

(** Every request is answered with the status [code] and an empty object. *)
Definition answering (code : Z) : nat → Request → Response :=
  fun _ _ => Reply code (Some (JObject [])).

Definition demoEnv (srv : nat → Request → Response) : Env :=
  mkEnv doubling demoConfig srv (fun _ => 0) (fun _ => "id").

(** A tracker holding [user_1] and [user_2]. *)
Definition twoUsers : World :=
  exec (AddUser (demoEnv unreachable) "user_2")
    (exec (AddUser (demoEnv unreachable) "user_1") New).

(** One of the checks of [url.Parse], enough to run the examples: a [%]
    must be followed by two hexadecimal digits. *)
Definition isHex (c : Ascii.ascii) : bool :=
  let n := Ascii.nat_of_ascii c in
  ((48 <=? n) && (n <=? 57)) || ((65 <=? n) && (n <=? 70))
  || ((97 <=? n) && (n <=? 102)).

Fixpoint validEscapes (s : string) : bool :=
  match s with
  | EmptyString => true
  | String c rest =>
      if String.eqb (String c EmptyString) "%" then
        match rest with
        | String a (String b _) => isHex a && isHex b && validEscapes rest
        | _ => false
        end
      else validEscapes rest
  end.

(** [%v] of a decoded JSON string is the string itself. *)
Definition renderString (v : JSON) : string :=
  match v with
  | JString s => s
  | _ => "id"
  end.

(** The chat service lists one message of [user_2], with an id that makes
    no URL; every other request is answered with status 200. *)
Definition badChatItem : nat → Request → Response := fun _ req =>
  if decide (req = mkRequest GET "http://chat/api/messages")
  then Reply 200 (Some (JArray [JObject [("username", JString "user_2");
                                         ("id", JString "50%")]]))
  else Reply 200 (Some (JObject [])).

Definition badChatEnv : Env :=
  mkEnv doubling demoConfig badChatItem (fun _ => 0) renderString.

(** The dashboard lists one user, whose name makes no URL. *)
Definition saleDashboard : nat → Request → Response := fun _ _ =>
  Reply 200 (Some (JObject [("users", JArray [JString "user_50%off"])])).

(** * Properties *)

(** ** Commands *)

Lemma net_only_ret {A} (a : A) : net_only (ret a).
Proof. intros w. by cbn. Qed.

Lemma net_only_bind {A B} (m : M A) (k : A → M B) :
  net_only m → (∀ a, net_only (k a)) → net_only (bind m k).
Proof.
  intros Hm Hk w. unfold bind.
  destruct (m w) as [a w1] eqn:Hw1.
  specialize (Hm w). rewrite Hw1 in Hm. cbn in Hm.
  destruct Hm as (Hs & Hu & Hp).
  destruct (Hk a w1) as (Hs' & Hu' & Hp').
  split_and!; [congruence | congruence | by etrans].
Qed.

Lemma preserves_ret r {A} (a : A) : preserves r (ret a).
Proof. intros w Hwf Hsn. by cbn. Qed.

Lemma preserves_bind r {A B} (m : M A) (k : A → M B) :
  preserves r m → (∀ a, preserves r (k a)) → preserves r (bind m k).
Proof.
  intros Hm Hk w Hwf Hsn. unfold bind.
  destruct (m w) as [a w1] eqn:Hw1.
  specialize (Hm w Hwf Hsn). rewrite Hw1 in Hm. cbn in Hm.
  destruct Hm as (Hwf1 & Hsn1 & Hr1 & Hp1).
  destruct (Hk a w1 Hwf1 Hsn1) as (Hwf2 & Hsn2 & Hr2 & Hp2).
  split_and!; [done | done | congruence | by etrans].
Qed.

Lemma net_only_preserves r {A} (m : M A) : net_only m → preserves r m.
Proof.
  intros Hm w Hwf Hsn. destruct (Hm w) as (Hs & Hu & Hp).
  unfold wf, snapshot in *. rewrite Hs, Hu. done.
Qed.

(** ** Slices *)

Section SliceFacts.

Variable E : Env.

Lemma make0_spec w :
  let s := fst (make0 w) in
  let w' := snd (make0 w) in
  valid (store w') s ∧ read (store w') s = [] ∧ s_ptr s = next (store w)
  ∧ next (store w') = S (next (store w))
  ∧ users w' = users w ∧ wire w' = wire w ∧ draws w' = draws w
  ∧ ∀ r, s_ptr r < next (store w) → read (store w') r = read (store w) r.
Proof.
  cbn. unfold valid, read, cells. cbn.
  rewrite lookup_insert_eq. cbn.
  split_and!; try done; try lia.
  intros r Hr. rewrite lookup_insert_ne by lia. done.
Qed.

Lemma append_spec s x w :
  valid (store w) s →
  let s' := fst (append E s x w) in
  let w' := snd (append E s x w) in
  valid (store w') s' ∧ read (store w') s' = read (store w) s ++ [x]
  ∧ s_len s' = S (s_len s)
  ∧ (s_ptr s' = s_ptr s ∨ next (store w) ≤ s_ptr s')
  ∧ next (store w) ≤ next (store w')
  ∧ users w' = users w ∧ wire w' = wire w ∧ draws w' = draws w.
Proof.
  intros (Hp & Hlen & Hcap). unfold append.
  destruct (decide (s_len s < s_cap s)) as [Hroom|Hfull]; cbn.
  - unfold valid, read, cells in *. cbn. rewrite lookup_insert_eq. cbn.
    split_and!; try done; try lia.
    + by rewrite length_insert.
    + rewrite (take_S_r _ _ x) by (rewrite list_lookup_insert_eq; [done|lia]).
      by rewrite take_insert_ge by lia.
  - unfold valid, read, cells in *. cbn. rewrite lookup_insert_eq. cbn.
    assert (Hl : length (take (s_len s) (default [] (arrays (store w) !! s_ptr s)))
                 = s_len s) by (rewrite length_take; lia).
    split_and!; try done; try lia.

    + rewrite length_app, Hl. cbn. rewrite length_replicate. lia.
    + rewrite take_app_ge by lia. rewrite Hl.
      replace (S (s_len s) - s_len s) with 1 by lia. done.
Qed.

Lemma append_frame s x w r :
  s_ptr r < next (store w) →
  (s_ptr r = s_ptr s → s_len r ≤ s_len s) →
  read (store (snd (append E s x w))) r = read (store w) r.
Proof.
  intros Hr Hal. unfold append.
  destruct (decide (s_len s < s_cap s)) as [Hroom|Hfull]; cbn;
    unfold read, cells; cbn.
  - destruct (decide (s_ptr r = s_ptr s)) as [Heq|Hne].
    + rewrite Heq, lookup_insert_eq. cbn. rewrite take_insert_ge; [done|].
      apply Hal, Heq.
    + by rewrite lookup_insert_ne.
  - rewrite lookup_insert_ne by lia. done.
Qed.

End SliceFacts.

(** ** Scans and filters *)

Lemma contains_spec x l : contains x l = true ↔ x ∈ l.
Proof.
  induction l as [|u l IH]; cbn.
  - split; [done | by intros ?%elem_of_nil].
  - destruct (String.eqb u x) eqn:Hux.
    + apply String.eqb_eq in Hux as ->. split; [intros _; left | done].
    + apply String.eqb_neq in Hux. rewrite IH, elem_of_cons.
      split; [by right | by intros [->|?]].
Qed.

Lemma contains_false x l : contains x l = false ↔ x ∉ l.
Proof. rewrite <-contains_spec. by destruct (contains x l). Qed.

Lemma contains_app x l k : contains x (l ++ k) = contains x l || contains x k.
Proof.
  induction l as [|u l IH]; cbn; [done|]. by destruct (String.eqb u x).
Qed.


Lemma filter_everything (keep : string → bool) l :
  (∀ u, u ∈ l → keep u = true) → List.filter keep l = l.
Proof.
  induction l as [|u l IH]; cbn; intros H; [done|].
  rewrite (H u) by left. f_equal. apply IH. intros v Hv. apply H. by right.
Qed.

Lemma elem_of_List_filter (keep : string → bool) l u :
  u ∈ List.filter keep l ↔ u ∈ l ∧ keep u = true.
Proof. rewrite !list_elem_of_In. apply filter_In. Qed.

(** ** The tracked list under [AddUser] and [retain] *)

Section ListFacts.

Variable E : Env.

Lemma AddUser_spec u w :
  wf w →
  let w' := exec (AddUser E u) w in
  wf w'
  ∧ tracked_list w' = (if contains u (tracked_list w) then tracked_list w
                       else tracked_list w ++ [u])
  ∧ wire w' = wire w ∧ draws w' = draws w
  ∧ (contains u (tracked_list w) = true → w' = w).
Proof.
  intros Hwf. unfold exec, AddUser, bind, rangeUsers, GetTrackedUsers, tracked_list.
  cbn. destruct (contains u (read (store w) (users w))) eqn:Hc; cbn; [done|].
  destruct (append_spec E (users w) u w Hwf) as (Hv & Hr & _ & _ & _ & _ & Hw & Hd).
  destruct (append E (users w) u w) as [s' w1]. cbn in *.
  unfold wf. cbn. done.
Qed.

Lemma AddUser_preserves r u : preserves r (AddUser E u).
Proof.
  intros w Hwf [Hr Hal].
  destruct (AddUser_spec u w Hwf) as (Hwf' & _ & Hwire & _ & _).
  fold (exec (AddUser E u) w). split; [done|]. rewrite Hwire.
  revert Hwf'. unfold exec, AddUser, bind, rangeUsers, GetTrackedUsers. cbn.
  destruct (contains u (read (store w) (users w))); cbn; [done|]. intros _.
  pose proof (append_frame E (users w) u w r Hr Hal) as Hfr.
  destruct (append_spec E (users w) u w Hwf) as (_ & _ & Hl & Hptr & Hn & _).
  destruct (append E (users w) u w) as [s' w1]. cbn in *.
  split_and!; [|done|done]. unfold snapshot. cbn. split; [lia|].
  intros Heq. destruct Hptr as [Hsame|Hnew]; [|lia].
  rewrite Hl. specialize (Hal (eq_trans Heq Hsame)). lia.
Qed.

Lemma retain_loop_spec keep us : ∀ rem w n0,
  valid (store w) rem → n0 ≤ s_ptr rem →
  let rem' := fst (retain_loop E keep us rem w) in
  let w' := snd (retain_loop E keep us rem w) in
  valid (store w') rem'
  ∧ read (store w') rem' = read (store w) rem ++ List.filter keep us
  ∧ n0 ≤ s_ptr rem' ∧ next (store w) ≤ next (store w')
  ∧ users w' = users w ∧ wire w' = wire w ∧ draws w' = draws w
  ∧ ∀ r, s_ptr r < n0 → read (store w') r = read (store w) r.
Proof.
  induction us as [|u us IH]; intros rem w n0 Hv Hn0; cbn.
  - rewrite app_nil_r. done.
  - destruct (keep u); [|by apply IH]. unfold bind.
    destruct (append_spec E rem u w Hv) as (Hv1 & Hr1 & _ & Hptr & Hn & Hu & Hw & Hd).
    pose proof (append_frame E rem u w) as Hfr.
    destruct (append E rem u w) as [rem1 w1]. cbn in *.
    assert (Hn1 : n0 ≤ s_ptr rem1) by (destruct Hptr; destruct Hv; lia).
    destruct (IH rem1 w1 n0 Hv1 Hn1) as (Hv2 & Hr2 & Hp2 & Hnx2 & Hu2 & Hw2 & Hd2 & Hfr2).
    split_and!; try done; try lia; try congruence.
    + rewrite Hr2, Hr1, <-app_assoc. done.
    + intros r Hr. rewrite Hfr2 by done. apply Hfr; destruct Hv; lia.
Qed.

Lemma retain_spec keep w :
  wf w →
  let w' := exec (retain E keep) w in
  wf w'
  ∧ tracked_list w' = List.filter keep (tracked_list w)
  ∧ wire w' = wire w ∧ draws w' = draws w
  ∧ ∀ r, snapshot r w → snapshot r w' ∧ read (store w') r = read (store w) r.
Proof.
  intros Hwf. unfold exec, retain, bind, rangeUsers, assignUsers, tracked_list.
  destruct (make0_spec w) as (Hv0 & Hr0 & Hp0 & Hn0 & Hu0 & Hw0 & Hd0 & Hfr0).
  destruct (make0 w) as [rem0 w0]. cbn in *.
  rewrite Hu0, (Hfr0 (users w)) by apply Hwf.
  destruct (retain_loop_spec keep (read (store w) (users w)) rem0 w0
              (next (store w)) Hv0 ltac:(lia))
    as (Hv1 & Hr1 & Hp1 & Hn1 & Hu1 & Hw1 & Hd1 & Hfr1).
  destruct (retain_loop E keep (read (store w) (users w)) rem0 w0) as [rem1 w1].
  cbn in *. unfold wf. cbn. rewrite Hr1, Hr0. cbn.
  split_and!; try done; try congruence.
  intros r [Hr Hal]. split.
  - unfold snapshot. cbn. split; [lia|]. intros Heq. lia.
  - rewrite Hfr1 by done. by apply Hfr0.
Qed.

Lemma retain_preserves r keep : preserves r (retain E keep).
Proof.
  intros w Hwf Hsn.
  destruct (retain_spec keep w Hwf) as (Hwf' & _ & Hwire & _ & Hfr).
  destruct (Hfr r Hsn) as [Hsn' Hr'].
  unfold exec in *. rewrite Hwire. done.
Qed.

End ListFacts.

(** ** The network side of the tracker *)

Section NetFacts.

Variable E : Env.

Lemma rangeUsers_net_only : net_only rangeUsers.
Proof. intros w. by cbn. Qed.

Lemma Do_net_only req : net_only (Do E req).
Proof. intros w. cbn. split_and!; [done | done | by apply prefix_app_r]. Qed.

Lemma Intn_net_only n : net_only (Intn E n).
Proof. intros w. by cbn. Qed.

Lemma shuffle_down_net_only i : ∀ l, net_only (shuffle_down E i l).
Proof.
  induction i as [|i IH]; intros l; cbn.
  - apply net_only_ret.
  - apply net_only_bind; [apply Intn_net_only | intros j; apply IH].
Qed.

Lemma Shuffle_net_only l : net_only (Shuffle E l).
Proof. apply shuffle_down_net_only. Qed.

Lemma swap_perm l i j : swap l i j ≡ₚ l.
Proof.
  unfold swap. destruct (l !! i) as [a|] eqn:Hi; [|done].
  destruct (l !! j) as [b|] eqn:Hj; [|done].
  by apply Permutation_insert_swap.
Qed.

Lemma shuffle_down_perm i : ∀ l w, fst (shuffle_down E i l w) ≡ₚ l.
Proof.
  induction i as [|i IH]; intros l w; cbn; [done|].
  unfold bind. cbn. rewrite IH. apply swap_perm.
Qed.

(** [rand.Shuffle] returns a rearrangement of its input. *)
Lemma Shuffle_perm l w : fst (Shuffle E l w) ≡ₚ l.
Proof. apply shuffle_down_perm. Qed.

Lemma cleanupUsers_loop_net_only us : ∀ deleted failed,
  net_only (cleanupUsers_loop E us deleted failed).
Proof.
  induction us as [|u us IH]; intros deleted failed; cbn.
  - apply net_only_ret.
  - apply net_only_bind; [apply Do_net_only|].
    intros [|code body]; [apply IH|]. destruct (acknowledged code); apply IH.
Qed.

Lemma cleanupUsers_net_only us : net_only (cleanupUsers E us).
Proof. apply cleanupUsers_loop_net_only. Qed.

(** [cleanupUsers] hands one DELETE per user to the client, in order. *)
Lemma cleanupUsers_loop_wire us : ∀ deleted failed w,
  wire (snd (cleanupUsers_loop E us deleted failed w))
  = wire w ++ map (fun u => mkRequest DELETE (userURL E u)) us.
Proof.
  induction us as [|u us IH]; intros deleted failed w; cbn.
  - by rewrite app_nil_r.
  - unfold bind. cbn.
    destruct (env_srv E (length (wire w)) (mkRequest DELETE (userURL E u)))
      as [|code body]; [|destruct (acknowledged code)];
      rewrite IH; cbn; by rewrite <-app_assoc.
Qed.

Lemma cascade_loop_net_only base targets items : ∀ n,
  net_only (cascade_loop E base targets items n).
Proof.
  induction items as [|item items IH]; intros n; cbn.
  - apply net_only_ret.
  - destruct (obj_get "username" item) as [[| | |username| |]|]; try apply IH.
    destruct (contains username targets); [|apply IH].
    destruct (obj_get "id" item) as [id|]; [|apply IH].
    apply net_only_bind; [apply Do_net_only|]. intros [|? ?]; apply IH.
Qed.

Lemma cascade_net_only base targets : net_only (cascade E base targets).
Proof.
  apply net_only_bind; [apply Do_net_only|].
  intros [|? body]; [apply net_only_ret | apply cascade_loop_net_only].
Qed.

Lemma pickCandidates_net_only candidates count :
  net_only (pickCandidates E candidates count).
Proof.
  destruct candidates as [|c cs]; cbn -[uniq_loop]; [apply net_only_ret|].
  apply net_only_bind; [apply Shuffle_net_only | intros; apply net_only_ret].
Qed.

Lemma selectTestUsers_net_only count : net_only (selectTestUsers E count).
Proof.
  apply net_only_bind; [apply Do_net_only|].
  intros [|? body]; [apply net_only_ret|].
  destruct (decodeObject body) as [data|]; [|apply net_only_ret].
  apply net_only_bind; [apply rangeUsers_net_only|].
  intros us. apply pickCandidates_net_only.
Qed.

End NetFacts.

(** ** Every tracker operation keeps earlier slice headers intact *)

Section Frozen.

Variable E : Env.
Variable r : slice.

Lemma DeleteUser_preserves u : preserves r (DeleteUser E u).
Proof.
  unfold DeleteUser.
  destruct (String.eqb u "" || negb (String.prefix testPrefix u));
    [apply preserves_ret|].
  apply preserves_bind; [apply net_only_preserves, cleanupUsers_net_only|].
  intros [deleted failed]. destruct (decide (length deleted = 1)).
  - apply preserves_bind; [apply retain_preserves | intros; apply preserves_ret].
  - destruct (failed !! u); apply preserves_ret.
Qed.

Lemma ReduceLoad_preserves n : preserves r (ReduceLoad E n).
Proof.
  unfold ReduceLoad.
  apply preserves_bind; [apply net_only_preserves, rangeUsers_net_only|]. intros us.
  apply preserves_bind; [apply net_only_preserves, Shuffle_net_only|]. intros all.
  apply preserves_bind; [apply net_only_preserves, cleanupUsers_net_only|].
  intros [deletedList failed].
  apply preserves_bind; [apply net_only_preserves, cascade_net_only|]. intros _.
  apply preserves_bind; [apply net_only_preserves, cascade_net_only|]. intros _.
  apply preserves_bind; [apply retain_preserves | intros; apply preserves_ret].
Qed.

Lemma deleteSelected_preserves sel : preserves r (deleteSelected E sel).
Proof.
  destruct sel as [toDelete|]; cbn; [|apply preserves_ret].
  apply preserves_bind; [apply net_only_preserves, cleanupUsers_net_only|].
  intros [deleted failed].
  apply preserves_bind; [apply retain_preserves | intros; apply preserves_ret].
Qed.

Lemma DeleteTestUsers_preserves count : preserves r (DeleteTestUsers E count).
Proof.
  unfold DeleteTestUsers. destruct (count <=? 0)%Z; [apply preserves_ret|].
  apply preserves_bind; [apply net_only_preserves, selectTestUsers_net_only|].
  apply deleteSelected_preserves.
Qed.

Lemma launch_loop_preserves ctxDone toDelete : ∀ i launched deleted failed,
  preserves r (launch_loop E ctxDone i toDelete launched deleted failed).
Proof.
  induction toDelete as [|u us IH]; intros i launched deleted failed; cbn.
  - apply preserves_ret.
  - destruct (endSelect (selectCase (ctxDone i))); [|apply preserves_ret].
    apply preserves_bind; [apply DeleteUser_preserves|].
    intros [[] code]; apply IH.
Qed.

Lemma DeleteRandomTestUsersConcurrent_preserves ctxDone count concurrency :
  preserves r (DeleteRandomTestUsersConcurrent E ctxDone count concurrency).
Proof.
  unfold DeleteRandomTestUsersConcurrent.
  destruct (count <=? 0)%Z; [apply preserves_ret|].
  apply preserves_bind; [apply net_only_preserves, selectTestUsers_net_only|].
  intros [toDelete|]; [apply launch_loop_preserves | apply preserves_ret].
Qed.

Lemma step_preserves op w :
  wf w → snapshot r w →
  wf (step E op w) ∧ snapshot r (step E op w)
  ∧ read (store (step E op w)) r = read (store w) r.
Proof.
  intros Hwf Hsn. destruct op as [u|u|n|n|d n k]; cbn; unfold exec.
  - by destruct (AddUser_preserves E r u w Hwf Hsn) as (? & ? & ? & _).
  - by destruct (DeleteUser_preserves u w Hwf Hsn) as (? & ? & ? & _).
  - by destruct (ReduceLoad_preserves n w Hwf Hsn) as (? & ? & ? & _).
  - by destruct (DeleteTestUsers_preserves n w Hwf Hsn) as (? & ? & ? & _).
  - by destruct (DeleteRandomTestUsersConcurrent_preserves d n k w Hwf Hsn)
      as (? & ? & ? & _).
Qed.

Lemma run_preserves ops : ∀ w,
  wf w → snapshot r w →
  wf (run E ops w) ∧ snapshot r (run E ops w)
  ∧ read (store (run E ops w)) r = read (store w) r.
Proof.
  induction ops as [|op ops IH]; intros w Hwf Hsn; [done|].
  change (run E (op :: ops) w) with (run E ops (step E op w)).
  destruct (step_preserves op w Hwf Hsn) as (Hwf1 & Hsn1 & Hr1).
  destruct (IH _ Hwf1 Hsn1) as (Hwf2 & Hsn2 & Hr2).
  split_and!; [done | done | congruence].
Qed.

End Frozen.

Lemma wf_New : wf New.
Proof. unfold wf, valid. split_and!; vm_compute; first [reflexivity | lia]. Qed.

Lemma snapshot_users w : wf w → snapshot (users w) w.
Proof. intros (Hp & _). split; [done | lia]. Qed.

(** ** [AddUser]: duplicates are rejected, first-seen order is kept *)

Lemma eqb_flip (a b : string) : String.eqb a b = String.eqb b a.
Proof. apply String.eqb_sym. Qed.

Lemma first_seen_elem l v : v ∈ first_seen l ↔ v ∈ l.
Proof.
  induction l as [|u l IH]; cbn; [done|].
  rewrite !elem_of_cons, elem_of_List_filter, IH.
  destruct (String.eqb v u) eqn:Hvu.
  - apply String.eqb_eq in Hvu. split; [by intros [?|[? ?]]; left | by left].
  - apply String.eqb_neq in Hvu. split; [intros [?|[? _]]; [done | by right]|].
    intros [?|?]; [done | by right].
Qed.

Lemma first_seen_NoDup l : NoDup (first_seen l).
Proof.
  induction l as [|u l IH]; cbn; constructor.
  - rewrite elem_of_List_filter, String.eqb_refl. by intros [_ ?].
  - apply NoDup_ListNoDup, List.NoDup_filter. by apply NoDup_ListNoDup.
Qed.

Lemma filter_filter_and (f g : string → bool) l :
  List.filter f (List.filter g l) = List.filter (fun v => g v && f v) l.
Proof.
  induction l as [|x l IH]; cbn; [done|].
  destruct (g x); cbn; [destruct (f x)|]; by rewrite IH.
Qed.

Lemma filter_ext_elem (f g : string → bool) l :
  (∀ v, v ∈ l → f v = g v) → List.filter f l = List.filter g l.
Proof.
  intros H. apply List.filter_ext_in. intros v Hv. apply H. by apply list_elem_of_In.
Qed.

(** The list-level effect of a run of [AddUser] calls. *)
Lemma add_all_first_seen l : ∀ us,
  fold_left (fun us u => if contains u us then us else us ++ [u]) l us
  = us ++ List.filter (fun v => negb (contains v us)) (first_seen l).
Proof.
  induction l as [|u l IH]; intros us; cbn; [by rewrite app_nil_r|].
  rewrite IH. destruct (contains u us) eqn:Hu; cbn.
  - f_equal. rewrite filter_filter_and. apply filter_ext_elem. intros v _.
    destruct (String.eqb v u) eqn:Hvu; cbn; [|done].
    apply String.eqb_eq in Hvu as ->. by rewrite Hu.
  - rewrite <-app_assoc. cbn. do 2 f_equal.
    rewrite filter_filter_and. apply filter_ext_elem. intros v _.
    rewrite contains_app. cbn. rewrite (eqb_flip u v).
    destruct (String.eqb v u), (contains v us); done.
Qed.

Lemma AddUser_run E l : ∀ w,
  wf w →
  let w' := fold_left (fun w u => exec (AddUser E u) w) l w in
  wf w'
  ∧ tracked_list w'
    = fold_left (fun us u => if contains u us then us else us ++ [u]) l (tracked_list w).
Proof.
  induction l as [|u l IH]; intros w Hwf; cbn; [done|].
  destruct (AddUser_spec E u w Hwf) as (Hwf1 & Hl1 & _).
  destruct (IH _ Hwf1) as (Hwf2 & Hl2). cbn in Hl2. by rewrite Hl2, Hl1.
Qed.

(** C8. [AddUser] is idempotent and order-preserving: after any sequence
    of [AddUser] calls on a new tracker the tracked list holds each
    distinct username exactly once, in first-seen order; and in every
    state of the tracker, adding the same username twice leaves exactly
    the state a single add leaves. *)
Theorem AddUser_idempotent_first_seen (E : Env) (l : list string) (u : string)
    (w : World) :
  wf w →
  tracked_list (fold_left (fun w u => exec (AddUser E u) w) l New) = first_seen l
  ∧ NoDup (first_seen l)
  ∧ (∀ v, v ∈ first_seen l ↔ v ∈ l)
  ∧ exec (AddUser E u) (exec (AddUser E u) w) = exec (AddUser E u) w.
Proof.
  intros Hwf. split_and!.
  - destruct (AddUser_run E l New wf_New) as [_ ->].
    rewrite add_all_first_seen. change (tracked_list New) with (@nil string). cbn.
    apply filter_everything. done.
  - apply first_seen_NoDup.
  - apply first_seen_elem.
  - destruct (AddUser_spec E u w Hwf) as (Hwf1 & Hl1 & _).
    destruct (AddUser_spec E u _ Hwf1) as (_ & _ & _ & _ & Hsame).
    apply Hsame. rewrite Hl1. destruct (contains u (tracked_list w)) eqn:Hc; [done|].
    rewrite contains_app. cbn. by rewrite String.eqb_refl, orb_true_r.
Qed.

Lemma AddUser_idempotent_first_seen_witness :
  wf twoUsers
  ∧ tracked_list (fold_left (fun w u => exec (AddUser (demoEnv unreachable) u) w)
                    ["user_1"; "user_2"; "user_1"] New)
    = first_seen ["user_1"; "user_2"; "user_1"]
  ∧ exec (AddUser (demoEnv unreachable) "user_1")
      (exec (AddUser (demoEnv unreachable) "user_1") twoUsers)
    = exec (AddUser (demoEnv unreachable) "user_1") twoUsers.
Proof.
  assert (H : wf twoUsers)
    by (unfold wf, valid; split_and!; vm_compute; first [reflexivity | lia]).
  destruct (AddUser_idempotent_first_seen (demoEnv unreachable)
              ["user_1"; "user_2"; "user_1"] "user_1" twoUsers H) as (H1 & _ & _ & H2).
  split_and!; [exact H | exact H1 | exact H2].
Defined.

Example first_seen_demo :
  first_seen ["user_1"; "user_2"; "user_1"; "user_3"; "user_2"]
  = ["user_1"; "user_2"; "user_3"].
Proof. reflexivity. Qed.

(** ** What is handed to the client by the parts that send nothing *)

Lemma shuffle_down_wire E i : ∀ l w, wire (snd (shuffle_down E i l w)) = wire w.
Proof.
  induction i as [|i IH]; intros l w; cbn; [done|].
  unfold bind. cbn. by rewrite IH.
Qed.

(** Selecting among candidates sends nothing. *)
Lemma pickCandidates_wire E candidates count w :
  wire (snd (pickCandidates E candidates count w)) = wire w.
Proof.
  unfold pickCandidates. destruct candidates as [|c cs]; [done|].
  unfold bind, Shuffle.
  pose proof (shuffle_down_wire E (length (uniq_loop (c :: cs) ∅ []) - 1)
                (uniq_loop (c :: cs) ∅ []) w) as Hw.
  by destruct (shuffle_down E _ _ w) as [uniq w1].
Qed.

(** [retain] sends nothing. *)
Lemma retain_net_wire E keep w : wire (snd (retain E keep w)) = wire w.
Proof.
  unfold retain, bind, assignUsers.
  destruct (make0_spec w) as (Hv0 & _ & _ & _ & _ & Hw0 & _).
  destruct (make0 w) as [rem0 w0]. cbn [fst snd] in *. cbn [rangeUsers].
  destruct (retain_loop_spec E keep (read (store w0) (users w0)) rem0 w0 0 Hv0
              ltac:(lia)) as (_ & _ & _ & _ & _ & Hw1 & _).
  destruct (retain_loop E keep (read (store w0) (users w0)) rem0 w0) as [rem1 w1].
  cbn in *. congruence.
Qed.

(** ** The panicking commands against the commands in which every request
    is built *)

Lemma handed_app {A} (m : M A) w :
  wire w `prefix_of` wire (exec m w) → wire (exec m w) = wire w ++ handed m w.
Proof. intros [k Hk]. unfold handed. by rewrite Hk, drop_app_length. Qed.

Lemma silent_handed {A} (m : M A) w : silent m → handed m w = [].
Proof. intros Hm. unfold handed, exec. rewrite Hm. apply drop_all. Qed.

Section Refinement.

Variable E : Env.
Variable parses : string → bool.

Lemma refines_ret {A} (a : A) : refines parses (retP a) (ret a).
Proof.
  intros w. split; [done|]. cbn. split; [done|].
  unfold handed, exec. cbn. by rewrite drop_all.
Qed.

Lemma refines_lift {A} (m : M A) : silent m → refines parses (lift m) m.
Proof.
  intros Hm w. unfold exec. split; [by rewrite Hm|]. unfold lift.
  pose proof (silent_handed m w Hm) as Hh.
  destruct (m w) as [a w1] eqn:Hmw. split; [done|]. by rewrite Hh.
Qed.

Lemma refines_bind_gen {A B} (p : P A) (m : M A) (kp : A → P B) (k : A → M B) :
  refines parses p m → (∀ a, refines parses (kp a) (k a)) →
  (∀ w a w1 w', m w = (a, w1) → kp a w1 = PanicsIn w' →
                store w1 = store w ∧ users w1 = users w) →
  refines parses (bindP p kp) (bind m k).
Proof.
  intros Hp Hk Hfr w.
  destruct (Hp w) as [Hpre Hcase]. specialize (Hfr w).
  unfold bindP, bind, handed, exec in *.
  destruct (m w) as [a w1] eqn:Hmw. cbn [fst snd] in *.
  destruct (Hk a w1) as [Hpre1 Hcase1]. unfold handed, exec in *.
  destruct Hpre as [n1 Hn1]. destruct Hpre1 as [n2 Hn2].
  assert (D1 : drop (length (wire w)) (wire w1) = n1)
    by (by rewrite Hn1, drop_app_length).
  assert (D2 : drop (length (wire w1)) (wire (snd (k a w1))) = n2)
    by (by rewrite Hn2, drop_app_length).
  assert (D3 : drop (length (wire w)) (wire (snd (k a w1))) = n1 ++ n2)
    by (by rewrite Hn2, Hn1, <-app_assoc, drop_app_length).
  rewrite D1 in Hcase. rewrite D2 in Hcase1. rewrite D3.
  split; [exists (n1 ++ n2); by rewrite Hn2, Hn1, <-app_assoc|].
  destruct (p w) as [a' w1'|w'].
  - destruct Hcase as [[= <- <-] Hall].
    destruct (kp a w1) as [b w2|w'] eqn:Hkp.
    + destruct Hcase1 as [Hkw Hall1]. split; [done|]. apply Forall_app. by split.
    + destruct Hcase1 as (Hst1 & Hus1 & pre & r & Hw' & Hpr & Hall1 & Hr).
      destruct (Hfr a w1 w' eq_refl Hkp) as [Hst Hus].
      split; [congruence|]. split; [congruence|].
      exists (n1 ++ pre), r. split_and!; [| | | done].
      * by rewrite Hw', Hn1, <-app_assoc.
      * rewrite Hn1 in Hpr. by rewrite <-!app_assoc in *.
      * apply Forall_app. by split.
  - destruct Hcase as (Hst1 & Hus1 & pre & r & Hw' & Hpr & Hall1 & Hr).
    split; [done|]. split; [done|]. exists pre, r. split_and!; try done.
    etrans; [exact Hpr|]. by exists n2.
Qed.

(** Sequencing after a command that leaves the tracker alone. *)
Lemma refines_bind {A B} (p : P A) (m : M A) (kp : A → P B) (k : A → M B) :
  refines parses p m → net_only m → (∀ a, refines parses (kp a) (k a)) →
  refines parses (bindP p kp) (bind m k).
Proof.
  intros Hp Hnet Hk. apply refines_bind_gen; [done | done |].
  intros w a w1 w' Hmw _. destruct (Hnet w) as (Hst & Hus & _).
  rewrite Hmw in Hst, Hus. done.
Qed.

(** Sequencing before a command that cannot panic. *)
Lemma refines_bind_total {A B} (p : P A) (m : M A) (kp : A → P B) (k : A → M B) :
  refines parses p m → (∀ a, refines parses (kp a) (k a)) →
  (∀ a w, ∃ b w', kp a w = Returns b w') →
  refines parses (bindP p kp) (bind m k).
Proof.
  intros Hp Hk Htot. apply refines_bind_gen; [done | done |].
  intros w a w1 w' _ Hpanic. destruct (Htot a w1) as (b & w2 & Hb). congruence.
Qed.

(** A command that cannot panic, followed by a [return]. *)
Lemma refines_lift_ret {A B} (m : M A) (b : B) :
  silent m →
  refines parses (bindP (lift m) (fun _ => retP b)) (bind m (fun _ => ret b)).
Proof.
  intros Hm w. unfold exec, bindP, lift, bind, handed, exec.
  pose proof (Hm w) as Hw. destruct (m w) as [a w1]. cbn in *.
  rewrite Hw. split; [done|]. split; [done|]. by rewrite drop_all.
Qed.

Lemma refines_Do method url :
  refines parses (Panicking.Do E (Panicking.NewRequestWithContext parses method url))
    (Do E (mkRequest method url)).
Proof.
  intros w. unfold exec, handed, exec. cbn. split; [by apply prefix_app_r|].
  unfold Panicking.NewRequestWithContext.
  destruct (parses url) eqn:Hurl; cbn.
  - split; [done|]. rewrite drop_app_length. by apply Forall_singleton.
  - split; [done|]. split; [done|]. exists [], (mkRequest method url).
    rewrite app_nil_r. by split_and!.
Qed.

Lemma refines_cleanupUsers_loop us : ∀ deleted failed,
  refines parses (Panicking.cleanupUsers_loop E parses us deleted failed)
    (cleanupUsers_loop E us deleted failed).
Proof.
  induction us as [|u us IH]; intros deleted failed; cbn.
  - apply refines_ret.
  - apply refines_bind; [apply refines_Do | apply Do_net_only |].
    intros [|code body]; [apply IH|]. destruct (acknowledged code); apply IH.
Qed.

Lemma refines_cleanupUsers us :
  refines parses (Panicking.cleanupUsers E parses us) (cleanupUsers E us).
Proof. apply refines_cleanupUsers_loop. Qed.

Lemma refines_cascade_loop base targets items : ∀ n,
  refines parses (Panicking.cascade_loop E parses base targets items n)
    (cascade_loop E base targets items n).
Proof.
  induction items as [|item items IH]; intros n; cbn.
  - apply refines_ret.
  - destruct (obj_get "username" item) as [[| | |username| |]|]; try apply IH.
    destruct (contains username targets); [|apply IH].
    destruct (obj_get "id" item) as [id|]; [|apply IH].
    apply refines_bind; [apply refines_Do | apply Do_net_only |].
    intros [|? ?]; apply IH.
Qed.

Lemma refines_cascade base targets :
  refines parses (Panicking.cascade E parses base targets) (cascade E base targets).
Proof.
  apply refines_bind; [apply refines_Do | apply Do_net_only |].
  intros [|? body]; [apply refines_ret | apply refines_cascade_loop].
Qed.

Lemma rangeUsers_silent : silent rangeUsers.
Proof. by intros w. Qed.

Lemma Shuffle_silent l : silent (Shuffle E l).
Proof. intros w. apply shuffle_down_wire. Qed.

Lemma retain_silent keep : silent (retain E keep).
Proof. intros w. apply retain_net_wire. Qed.

Lemma pickCandidates_silent candidates count : silent (pickCandidates E candidates count).
Proof. intros w. apply pickCandidates_wire. Qed.

Lemma refines_ReduceLoad n :
  refines parses (Panicking.ReduceLoad E parses n) (ReduceLoad E n).
Proof.
  unfold Panicking.ReduceLoad, ReduceLoad.
  apply refines_bind;
    [apply refines_lift, rangeUsers_silent | apply rangeUsers_net_only |].
  intros us.
  apply refines_bind; [apply refines_lift, Shuffle_silent | apply Shuffle_net_only |].
  intros all.
  apply refines_bind; [apply refines_cleanupUsers | apply cleanupUsers_net_only |].
  intros [deletedList failed].
  apply refines_bind; [apply refines_cascade | apply cascade_net_only |]. intros _.
  apply refines_bind; [apply refines_cascade | apply cascade_net_only |]. intros _.
  apply refines_lift_ret, retain_silent.
Qed.

Lemma refines_selectTestUsers count :
  refines parses (Panicking.selectTestUsers E parses count) (selectTestUsers E count).
Proof.
  unfold Panicking.selectTestUsers, selectTestUsers, dashboardRequest.
  apply refines_bind; [apply refines_Do | apply Do_net_only |].
  intros [|? body]; [apply refines_ret|].
  destruct (decodeObject body) as [data|]; [|apply refines_ret].
  apply refines_bind;
    [apply refines_lift, rangeUsers_silent | apply rangeUsers_net_only |].
  intros us. apply refines_lift, pickCandidates_silent.
Qed.

Lemma refines_deleteSelected sel :
  refines parses (Panicking.deleteSelected E parses sel) (deleteSelected E sel).
Proof.
  destruct sel as [toDelete|]; cbn; [|apply refines_ret].
  apply refines_bind; [apply refines_cleanupUsers | apply cleanupUsers_net_only |].
  intros [deleted failed]. apply refines_lift_ret, retain_silent.
Qed.

Lemma refines_DeleteTestUsers count :
  refines parses (Panicking.DeleteTestUsers E parses count) (DeleteTestUsers E count).
Proof.
  unfold Panicking.DeleteTestUsers, DeleteTestUsers.
  destruct (count <=? 0)%Z; [apply refines_ret|].
  apply refines_bind;
    [apply refines_selectTestUsers | apply selectTestUsers_net_only |].
  apply refines_deleteSelected.
Qed.

Lemma refines_DeleteUser u :
  refines parses (Panicking.DeleteUser E parses u) (DeleteUser E u).
Proof.
  unfold Panicking.DeleteUser, DeleteUser.
  destruct (String.eqb u "" || negb (String.prefix testPrefix u));
    [apply refines_ret|].
  apply refines_bind; [apply refines_cleanupUsers | apply cleanupUsers_net_only |].
  intros [deleted failed]. destruct (decide (length deleted = 1)).
  - apply refines_lift_ret, retain_silent.
  - destruct (failed !! u); apply refines_ret.
Qed.

(** What a refinement gives for one run. *)
Lemma refines_returns {A} (p : P A) (m : M A) w a w' :
  refines parses p m → p w = Returns a w' → m w = (a, w').
Proof. intros H Hp. destruct (H w) as [_ Hc]. rewrite Hp in Hc. by destruct Hc. Qed.

Lemma refines_panics {A} (p : P A) (m : M A) w w' :
  refines parses p m → p w = PanicsIn w' →
  tracked_list w' = tracked_list w ∧ (wf w → wf w')
  ∧ wire w `prefix_of` wire w'
  ∧ ∃ r, r ∈ handed m w ∧ parses (r_url r) = false.
Proof.
  intros H Hp. destruct (H w) as [Hpre Hc]. rewrite Hp in Hc.
  destruct Hc as (Hst & Hus & pre & r & Hw' & Hpr & _ & Hr).
  unfold tracked_list, wf. rewrite Hst, Hus. split_and!; [done | done | |].
  - rewrite Hw'. by apply prefix_app_r.
  - exists r. split; [|done]. rewrite (handed_app m w Hpre) in Hpr.
    apply prefix_app_inv in Hpr. eapply elem_of_prefix; [|exact Hpr].
    rewrite elem_of_app, list_elem_of_singleton. by right.
Qed.

(** A command returns exactly when every request of the run can be built. *)
Lemma refines_returns_iff {A} (p : P A) (m : M A) w :
  refines parses p m →
  Forall (buildable parses) (handed m w) ↔ ∃ a w', p w = Returns a w'.
Proof.
  intros H. split.
  - intros Hall. destruct (p w) as [a w'|w'] eqn:Hp; [by exists a, w'|].
    destruct (refines_panics p m w w' H Hp) as (_ & _ & _ & r & Hin & Hr).
    rewrite Forall_forall in Hall. specialize (Hall r Hin).
    unfold buildable in Hall. congruence.
  - intros (a & w' & Hp). destruct (H w) as [_ Hc]. rewrite Hp in Hc. by destruct Hc.
Qed.

End Refinement.

(** ** [ReduceLoad] *)

(** The users [ReduceLoad] selects in world [w]. *)
Definition reduceSelection (E : Env) (n : Z) (w : World) : list string :=
  let us := tracked_list w in
  let all := fst (Shuffle E us w) in
  let k := clampCount n (length us) in
  if decide (k < length all) then take k all else all.


Lemma net_only_tracked_list {A} (m : M A) w :
  net_only m → wf w →
  wf (snd (m w)) ∧ tracked_list (snd (m w)) = tracked_list w.
Proof.
  intros Hm Hwf. destruct (Hm w) as (Hs & Hu & _).
  unfold wf, tracked_list. by rewrite Hs, Hu.
Qed.

(** [ReduceLoad] hands a DELETE for every selected user to the client and
    then drops every selected user from the tracked list, whatever the
    replies were. *)
Lemma ReduceLoad_spec E n w :
  wf w →
  let w' := exec (ReduceLoad E n) w in
  wf w'
  ∧ tracked_list w'
    = List.filter (fun u => negb (contains u (reduceSelection E n w))) (tracked_list w)
  ∧ ∀ u, u ∈ reduceSelection E n w → mkRequest DELETE (userURL E u) ∈ wire w'.
Proof.
  intros Hwf. unfold exec, ReduceLoad, reduceSelection, bind, rangeUsers.
  fold (tracked_list w).
  cbn -[Shuffle cleanupUsers retain cleanupChatMessagesFromUsers
        cleanupPostsFromUsers].
  set (us := tracked_list w).
  destruct (net_only_tracked_list (Shuffle E us) w (Shuffle_net_only E us) Hwf)
    as [Hwf1 Hl1].
  destruct (Shuffle E us w) as [all w1]. cbn [fst snd] in *.
  set (sel := if decide (clampCount n (length us) < length all)
              then take (clampCount n (length us)) all else all).
  destruct (net_only_tracked_list (cleanupUsers E sel) w1
              (cleanupUsers_net_only E sel) Hwf1) as [Hwf2 Hl2].
  pose proof (cleanupUsers_loop_wire E sel [] ∅ w1) as Hwire2.
  fold (cleanupUsers E sel) in Hwire2.
  destruct (cleanupUsers E sel w1) as [[deletedList failed] w2]. cbn [fst snd] in *.
  destruct (net_only_tracked_list (cleanupChatMessagesFromUsers E sel) w2
              (cascade_net_only E _ sel) Hwf2) as [Hwf3 Hl3].
  destruct (cascade_net_only E (BaseURL (ChatService (services (env_cfg E)))
                                +:+ "/api/messages") sel w2) as (_ & _ & Hp3).
  fold (cleanupChatMessagesFromUsers E sel) in Hp3.
  destruct (cleanupChatMessagesFromUsers E sel w2) as [c3 w3]. cbn [fst snd] in *.
  destruct (net_only_tracked_list (cleanupPostsFromUsers E sel) w3
              (cascade_net_only E _ sel) Hwf3) as [Hwf4 Hl4].
  destruct (cascade_net_only E (BaseURL (PostsService (services (env_cfg E)))
                                +:+ "/api/posts") sel w3) as (_ & _ & Hp4).
  fold (cleanupPostsFromUsers E sel) in Hp4.
  destruct (cleanupPostsFromUsers E sel w3) as [c4 w4]. cbn [fst snd] in *.
  destruct (retain_spec E (fun user => negb (contains user sel)) w4 Hwf4)
    as (Hwf5 & Hl5 & Hwire5 & _).
  unfold exec in *.
  destruct (retain E (fun user => negb (contains user sel)) w4) as [[] w5].
  cbn [fst snd] in *.
  unfold ret. cbn [fst snd].
  split_and!; [done | by rewrite Hl5, Hl4, Hl3, Hl2, Hl1 |].
  intros u Hu. rewrite Hwire5.
  eapply elem_of_prefix; [|exact Hp4]. eapply elem_of_prefix; [|exact Hp3].
  rewrite Hwire2, elem_of_app. right. apply list_elem_of_fmap. by exists u.
Qed.







(** ** Removal from the tracked list and acknowledged deletions *)

Lemma flag_delSet_gen deleted : ∀ m u,
  flag (fold_left (fun m d => <[d := true]> m) deleted m) u
  = contains u deleted || flag m u.
Proof.
  induction deleted as [|d deleted IH]; intros m u; cbn; [done|].
  rewrite IH. unfold flag. destruct (String.eqb d u) eqn:Hdu.
  - apply String.eqb_eq in Hdu as ->. rewrite lookup_insert_eq. cbn.
    by rewrite orb_true_r.
  - apply String.eqb_neq in Hdu. by rewrite lookup_insert_ne.
Qed.

Lemma flag_delSet deleted u : flag (delSet deleted) u = contains u deleted.
Proof.
  unfold delSet. rewrite flag_delSet_gen. unfold flag.
  rewrite lookup_empty. cbn. by rewrite orb_false_r.
Qed.

(** The users [cleanupUsers] reports as deleted are those whose DELETE was
    answered with 200 or 204. *)
Lemma cleanupUsers_loop_deleted E us : ∀ deleted failed w u,
  u ∈ fst (fst (cleanupUsers_loop E us deleted failed w))
  ↔ u ∈ deleted
    ∨ ∃ i code body,
        us !! i = Some u
        ∧ env_srv E (length (wire w) + i) (mkRequest DELETE (userURL E u))
          = Reply code body
        ∧ acknowledged code = true.
Proof.
  induction us as [|v us IH]; intros deleted failed w u; cbn.
  - split; [by left | intros [?|(i & ? & ? & Hi & _)]; [done|]].
    by rewrite lookup_nil in Hi.
  - unfold bind. cbn.
    assert (Hshift : ∀ (P : nat → Z → option JSON → Prop),
      (∃ i code body, (v :: us) !! i = Some u ∧ P i code body)
      ↔ (v = u ∧ ∃ code body, P 0 code body)
        ∨ ∃ i code body, us !! i = Some u ∧ P (S i) code body).
    { intros P. split.
      - intros ([|i] & code & body & Hi & HP); cbn in Hi.
        + left. split; [congruence | eauto].
        + right. eauto 6.
      - intros [[-> (code & body & HP)]|(i & code & body & Hi & HP)].
        + by exists 0, code, body.
        + by exists (S i), code, body. }
    rewrite (Hshift (fun i code body =>
      env_srv E (length (wire w) + i) (mkRequest DELETE (userURL E u)) = Reply code body
      ∧ acknowledged code = true)).
    rewrite Nat.add_0_r.
    destruct (env_srv E (length (wire w)) (mkRequest DELETE (userURL E v)))
      as [|code body] eqn:Hsrv; [|destruct (acknowledged code) eqn:Hack];
      rewrite IH; cbn; rewrite length_app; cbn;
      setoid_rewrite <-Nat.add_assoc; cbn.
    + split; [intros [?|?]; [by left | by right; right]|].
      intros [?|[[Hv (c & b & Hc & _)]|?]]; [by left | congruence | by right].
    + rewrite elem_of_app, list_elem_of_singleton.
      split; [intros [[?| ->]|?]; [by left | right; left; eauto | by right; right]|].
      intros [?|[[Hv _]|?]]; [by left; left | by left; right | by right].
    + split; [intros [?|?]; [by left | by right; right]|].
      intros [?|[[Hv (c & b & Hc & Ha)]|?]]; [by left | congruence | by right].
Qed.

(** The path taken by [DeleteTestUsers]: a tracked user leaves the tracked
    list exactly when the user service acknowledged its deletion. *)
Lemma deleteSelected_removes_acknowledged E toDelete w u :
  wf w → u ∈ tracked_list w →
  u ∉ tracked_list (exec (deleteSelected E (Some toDelete)) w)
  ↔ ∃ i code body,
      toDelete !! i = Some u
      ∧ env_srv E (length (wire w) + i) (mkRequest DELETE (userURL E u))
        = Reply code body
      ∧ acknowledged code = true.
Proof.
  intros Hwf Hu. unfold exec, deleteSelected, bind.
  pose proof (cleanupUsers_loop_deleted E toDelete [] ∅ w u) as Hdel.
  fold (cleanupUsers E toDelete) in Hdel.
  destruct (net_only_tracked_list (cleanupUsers E toDelete) w
              (cleanupUsers_net_only E toDelete) Hwf) as [Hwf1 Hl1].
  destruct (cleanupUsers E toDelete w) as [[deleted failed] w1]. cbn [fst snd] in *.
  destruct (retain_spec E (fun v => negb (flag (delSet deleted) v)) w1 Hwf1)
    as (_ & Hl2 & _).
  unfold exec in Hl2.
  destruct (retain E (fun v => negb (flag (delSet deleted) v)) w1) as [[] w2].
  cbn [fst snd] in *. unfold ret. cbn [snd].
  rewrite Hl2, Hl1, elem_of_List_filter, flag_delSet.
  transitivity (u ∈ deleted).
  - destruct (contains u deleted) eqn:Hc; cbn.
    + apply contains_spec in Hc. split; [done | by intros _ [_ ?]].
    + apply contains_false in Hc. split; [intros H; by destruct H | done].
  - rewrite Hdel. split; [intros [?%elem_of_nil|?]; done | by right].
Qed.

(** C2, at the failing input.  The tracker holds [user_1] and [user_2] and
    the user service answers every DELETE with 500.  [ReduceLoad] with
    count 1 selects [user_2], reports no deletion, and still drops
    [user_2] from the tracked list; [DeleteTestUsers] on the same input
    keeps it and reports the failure. *)
Theorem ReduceLoad_drops_failed_user :
  let E := demoEnv (answering 500) in
  tracked_list twoUsers = ["user_1"; "user_2"]
  ∧ reduceSelection E 1 twoUsers = ["user_2"]
  ∧ env_srv E 0 (mkRequest DELETE (userURL E "user_2")) = Reply 500 (Some (JObject []))
  ∧ eval (ReduceLoad E 1) twoUsers = 0%Z
  ∧ tracked_list (exec (ReduceLoad E 1) twoUsers) = ["user_1"]
  ∧ eval (DeleteTestUsers E 1) twoUsers = ([], {["user_2" := 500%Z]})
  ∧ tracked_list (exec (DeleteTestUsers E 1) twoUsers) = ["user_1"; "user_2"].
Proof. cbn zeta. split_and!; vm_compute; reflexivity. Qed.

(** ** The launch loop of [DeleteRandomTestUsersConcurrent] *)

(** The loop starts a goroutine for every candidate, whatever the context
    says when polled. *)
Lemma launch_loop_launches_all E ctxDone toDelete : ∀ i launched deleted failed w,
  fst (fst (fst (launch_loop E ctxDone i toDelete launched deleted failed w)))
  = launched ++ toDelete.
Proof.
  induction toDelete as [|u us IH]; intros i launched deleted failed w; cbn.
  - by rewrite app_nil_r.
  - unfold endSelect, selectCase, bind.
    destruct (ctxDone i); destruct (DeleteUser E u w) as [[[] code] w1];
      rewrite IH, <-app_assoc; done.
Qed.

(** Cancellation has no influence on the loop. *)
Lemma launch_loop_ignores_context E done1 done2 toDelete :
  ∀ i j launched deleted failed w,
  launch_loop E done1 i toDelete launched deleted failed w
  = launch_loop E done2 j toDelete launched deleted failed w.
Proof.
  induction toDelete as [|u us IH]; intros i j launched deleted failed w; cbn;
    [done|].
  unfold endSelect, selectCase. destruct (done1 i), (done2 j); unfold bind;
    destruct (DeleteUser E u w) as [[[] code] w1]; cbn; apply IH.
Qed.

(** The dashboard lists [user_1] and [user_2]. *)
Definition twoUserDashboard : JSON :=
  JObject [("users", JArray [JString "user_1"; JObject [("username", JString "user_2")]])].

(** The dashboard request, the first one, is answered; the context is
    cancelled before anything else is sent, so every later request fails. *)
Definition cancelledAfterDashboard : nat → Request → Response :=
  fun k _ => match k with
             | 0 => Reply 200 (Some twoUserDashboard)
             | _ => TransportError
             end.

(** C3, at the failing input.  The context is already cancelled when the
    launch loop starts: every poll of [ctx.Done()] finds it closed.  The
    loop still starts a deletion for both candidates; each hands its
    DELETE to the HTTP client and ends up in the failed map. *)
Theorem DeleteConcurrent_launches_after_cancellation :
  let E := demoEnv cancelledAfterDashboard in
  let out := DeleteRandomTestUsersConcurrent E (fun _ => true) 5 10 twoUsers in
  fst (fst (fst out)) = ["user_2"; "user_1"]
  ∧ snd (fst (fst out)) = []
  ∧ snd (fst out) = {["user_1" := 0%Z; "user_2" := 0%Z]}
  ∧ wire (snd out)
    = [mkRequest GET "http://user/api/users/dashboard";
       mkRequest DELETE "http://user/api/users/user_2";
       mkRequest DELETE "http://user/api/users/user_1"]
  ∧ out = DeleteRandomTestUsersConcurrent E (fun _ => false) 5 10 twoUsers.
Proof. cbn zeta. split_and!; vm_compute; reflexivity. Qed.

(** ** [DeleteTestUsers] and the dashboard *)

(** The fallback the specification describes: select among the tracked
    users that carry the prefix, then delete the selection. *)
Definition fallbackDelete (E : Env) (count : Z) : M (list string * gmap string Z) :=
  do us <~ rangeUsers;
  do sel <~ pickCandidates E (trackedCandidates us) count;
  deleteSelected E sel.

(** C4, as the code has it.  For a positive count: when the dashboard
    request fails in transport or its body does not decode,
    [DeleteTestUsers] returns the empty result after that one request,
    with no deletion attempted and the tracker untouched; when the reply
    decodes and holds no candidate with the prefix, it goes on with the
    tracked users that carry the prefix. *)
Theorem DeleteTestUsers_dashboard_outcomes (E : Env) (count : Z) (w : World) :
  (0 < count)%Z →
  let reply := env_srv E (length (wire w)) (dashboardRequest E) in
  let w1 := set_wire (wire w ++ [dashboardRequest E]) w in
  (reply = TransportError → DeleteTestUsers E count w = (([], ∅), w1))
  ∧ (∀ code body, reply = Reply code body → decodeObject body = None →
       DeleteTestUsers E count w = (([], ∅), w1))
  ∧ (∀ code body data, reply = Reply code body → decodeObject body = Some data →
       dashboardCandidates data = [] →
       DeleteTestUsers E count w = fallbackDelete E count w1).
Proof.
  intros Hc. cbn zeta. unfold DeleteTestUsers.
  rewrite (proj2 (Z.leb_gt count 0) Hc).
  unfold selectTestUsers, fallbackDelete, bind, Do, rangeUsers.
  split_and!.
  - intros ->. done.
  - intros code body -> ->. done.
  - intros code body data -> -> Hd. by rewrite Hd.
Qed.

Lemma DeleteTestUsers_dashboard_outcomes_witness :
  (0 < 1)%Z
  ∧ DeleteTestUsers (demoEnv unreachable) 1 twoUsers
    = (([], ∅), set_wire [dashboardRequest (demoEnv unreachable)] twoUsers)
  ∧ DeleteTestUsers (demoEnv (answering 200)) 1 twoUsers
    = fallbackDelete (demoEnv (answering 200)) 1
        (set_wire [dashboardRequest (demoEnv (answering 200))] twoUsers).
Proof.
  assert (H : (0 < 1)%Z) by lia.
  split_and!; [exact H | |].
  - exact (proj1 (DeleteTestUsers_dashboard_outcomes (demoEnv unreachable) 1
                    twoUsers H) eq_refl).
  - exact (proj2 (proj2 (DeleteTestUsers_dashboard_outcomes (demoEnv (answering 200))
                           1 twoUsers H)) 200%Z (Some (JObject [])) [] eq_refl eq_refl
             eq_refl).
Defined.

(** C4, as the specification states it, fails: with [user_1] and [user_2]
    tracked and an unreachable user service, [DeleteTestUsers] with count 1
    stops after the dashboard request and returns the empty result, where
    the fallback would have handed a DELETE for a tracked user to the
    client. *)
Lemma DeleteTestUsers_no_fallback_on_transport_error :
  let E := demoEnv unreachable in
  let w1 := set_wire [dashboardRequest E] twoUsers in
  env_srv E 0 (dashboardRequest E) = TransportError
  ∧ trackedCandidates (tracked_list twoUsers) = ["user_1"; "user_2"]
  ∧ DeleteTestUsers E 1 twoUsers = (([], ∅), w1)
  ∧ wire (exec (fallbackDelete E 1) w1)
    = [dashboardRequest E; mkRequest DELETE "http://user/api/users/user_2"]
  ∧ DeleteTestUsers E 1 twoUsers ≠ fallbackDelete E 1 w1.
Proof.
  cbn zeta. split_and!; try (vm_compute; reflexivity).
  intros Heq. apply (f_equal (fun x => wire (snd x))) in Heq.
  vm_compute in Heq. discriminate.
Qed.

(** ** Reports *)

(** A tracker holding three users, with room for a fourth in the same
    backing array. *)
Definition threeUsers : World :=
  exec (AddUser (demoEnv unreachable) "user_3") twoUsers.

(** Durations as the control page sends them. *)
Definition demoParseDuration (s : string) : option Z :=
  if String.eqb s "2m" then Some 120000000000%Z
  else if String.eqb s "30s" then Some 30000000000%Z
  else None.

Definition demoRequest : TestRun := mkTestRun 10 "2m" "5/s" EmptyString 0 0.

Lemma snapshot_frozen E ops w :
  wf w → read (store (run E ops w)) (users w) = tracked_list w.
Proof.
  intros Hwf.
  by destruct (run_preserves E (users w) ops w Hwf (snapshot_users w Hwf))
    as (_ & _ & ->).
Qed.

(** The report that [runTest] appends takes the tracked users as the
    tracker shows them at that moment, and no sequence of tracker calls
    that are run one after another ([AddUser], [DeleteUser], [ReduceLoad],
    [DeleteTestUsers], [DeleteRandomTestUsersConcurrent]) changes what its
    [TrackedUsers] field shows. *)
Lemma report_unchanged_by_later_calls (E : Env) (ParseDuration : string → option Z)
    (ctx : nat) (req : TestRun) (t0 t1 : Z) (metrics : list (string * JSON))
    (ws : WebServer) (w : World) (d : Z) (ops : list TrackerOp) :
  wf w → ParseDuration (Duration req) = Some d →
  ∃ rep,
    reports (runTest ParseDuration ctx req t0 t1 metrics w ws) = reports ws ++ [rep]
    ∧ read (store w) (TrackedUsers rep) = tracked_list w
    ∧ read (store (run E ops w)) (TrackedUsers rep) = tracked_list w.
Proof.
  intros Hwf Hd. unfold runTest. rewrite Hd. cbn.
  eexists. split; [reflexivity|]. cbn. split; [done|].
  by apply snapshot_frozen.
Qed.


(** The same holds for the report [handleStop] appends. *)
Lemma handleStop_report_frozen E now metrics ws w r ops :
  wf w → currentTest ws = Some r → Status r = "running" →
  ∃ rep,
    reports (snd (handleStop "POST" now metrics w ws)) = reports ws ++ [rep]
    ∧ read (store (run E ops w)) (TrackedUsers rep) = tracked_list w.
Proof.
  intros Hwf Hc Hs. unfold handleStop. cbn. rewrite Hc, Hs. cbn.
  eexists. split; [reflexivity|]. cbn. by apply snapshot_frozen.
Qed.

(** The handlers and [runTest] only ever append to the list of reports. *)
Lemma reports_only_grow ParseDuration method body now metrics ctx req t0 t1 w ws :
  reports ws `prefix_of` reports (snd (handleStart method body now ws))
  ∧ reports ws `prefix_of` reports (snd (handleStop method now metrics w ws))
  ∧ reports ws `prefix_of` reports (runTest ParseDuration ctx req t0 t1 metrics w ws).
Proof.
  split_and!.
  - unfold handleStart. destruct (negb _); [done|]. by destruct body.
  - unfold handleStop. destruct (negb _); [done|].
    destruct (currentTest ws) as [r|]; [|done].
    destruct (String.eqb (Status r) "running"); [|done]. cbn. by apply prefix_app_r.
  - unfold runTest. destruct (ParseDuration (Duration req)); cbn; [|done].
    by apply prefix_app_r.
Qed.

(** The report does share its backing array with the tracker: a later
    [AddUser] writes the next cell of that very array, beyond the cells
    the report's header covers. *)
Example report_shares_backing_array :
  let rep := eval GetTrackedUsers threeUsers in
  let w' := exec (AddUser (demoEnv unreachable) "user_4") threeUsers in
  rep = Slice 3 3 4
  ∧ users w' = Slice 3 4 4
  ∧ cells (store threeUsers) 3 = ["user_1"; "user_2"; "user_3"; EmptyString]
  ∧ cells (store w') 3 = ["user_1"; "user_2"; "user_3"; "user_4"]
  ∧ read (store w') rep = ["user_1"; "user_2"; "user_3"].
Proof. cbn zeta. split_and!; vm_compute; reflexivity. Qed.

(** The two halves make up [AddUser]. *)
Lemma AddUser_read_write E username w :
  AddUser E username w
  = match AddUser_read username w with
    | (Some s, w1) => AddUser_write E s username w1
    | (None, w1) => (tt, w1)
    end.
Proof.
  unfold AddUser, AddUser_read, AddUser_write, bind, rangeUsers, GetTrackedUsers, ret.
  by destruct (contains username (read (store w) (users w))).
Qed.

(** C6 fails on the code.  The report holds the tracker's slice header,
    not a copy.  Two goroutines are in [AddUser] and both have read
    [c.users] when the first one stores; [runTest] appends its report; then
    the second goroutine appends through the header it read.  The report
    showed [user_4] in its last cell when it was appended and shows
    [user_5] afterwards. *)
Theorem report_rewritten_by_overlapping_AddUser :
  let E := demoEnv unreachable in
  let h := Slice 3 3 4 in
  AddUser_read "user_4" threeUsers = (Some h, threeUsers)
  ∧ AddUser_read "user_5" threeUsers = (Some h, threeUsers)
  ∧ let w1 := exec (AddUser_write E h "user_4") threeUsers in
    let ws := runTest demoParseDuration 0 demoRequest 5 125 [] w1 NewWebServer in
    let w2 := exec (AddUser_write E h "user_5") w1 in
    ∃ rep,
      reports ws = [rep]
      ∧ TrackedUsers rep = users w1
      ∧ read (store w1) (TrackedUsers rep) = ["user_1"; "user_2"; "user_3"; "user_4"]
      ∧ read (store w2) (TrackedUsers rep) = ["user_1"; "user_2"; "user_3"; "user_5"].
Proof.
  cbn zeta. split_and!; [reflexivity | reflexivity |].
  eexists. split_and!; [reflexivity | reflexivity | |]; vm_compute; reflexivity.
Qed.

(** C7, as the code has it.  [handleReports] returns the last five
    reports, or all of them when there are at most five, in the order in
    which they were appended: the oldest of them first, the newest last. *)
Theorem handleReports_last_five_in_append_order (ws : WebServer) :
  handleReports ws = drop (length (reports ws) - 5) (reports ws)
  ∧ length (handleReports ws) = Nat.min 5 (length (reports ws))
  ∧ (∀ i, handleReports ws !! i = reports ws !! (length (reports ws) - 5 + i))
  ∧ last (handleReports ws) = last (reports ws).
Proof.
  assert (H : handleReports ws = drop (length (reports ws) - 5) (reports ws)).
  { unfold handleReports. cbn zeta. destruct (decide _) as [Hlt|Hge]; [done|].
    replace (length (reports ws) - 5) with 0 by lia. done. }
  rewrite H. split_and!; [done | | |].
  - rewrite length_drop. lia.
  - intros i. apply lookup_drop.
  - destruct (decide (length (reports ws) = 0)) as [H0|Hn].
    + apply length_zero_iff_nil in H0. by rewrite H0.
    + rewrite !last_lookup, lookup_drop, length_drop. f_equal. lia.
Qed.

(** Two runs that completed one after the other. *)
Definition twoReports : WebServer :=
  let ws1 := snd (handleStart "POST" (Some demoRequest) 0 NewWebServer) in
  let ws2 := runTest demoParseDuration 0 demoRequest 1 121 [] New ws1 in
  let ws3 := snd (handleStart "POST" (Some demoRequest) 200 ws2) in
  runTest demoParseDuration 1 demoRequest 201 321 [] New ws3.

(** C7, as the claim states it, fails: with two reports the query
    returns them oldest first, not newest first. *)
Lemma handleReports_is_not_newest_first :
  map ID (reports twoReports) = [1%Z; 2%Z]
  ∧ map rEndTime (reports twoReports) = [121%Z; 321%Z]
  ∧ map ID (handleReports twoReports) = [1%Z; 2%Z]
  ∧ handleReports twoReports ≠ rev (reports twoReports).
Proof.
  split_and!; try (vm_compute; reflexivity).
  intros Heq. apply (f_equal (map ID)) in Heq. vm_compute in Heq. discriminate.
Qed.

(** ** The current run *)

(** Contexts are numbered in the order [handleStart] creates them: those
    the server knows are older than the next one. *)
Definition contexts_fresh (ws : WebServer) : Prop :=
  Forall (fun c => c < nextCtx ws) (cancelled ws)
  ∧ ∀ r, currentTest ws = Some r → cancel r < nextCtx ws.

(** C10. When [runTest] reaches its end after a duration that parses, it
    appends a report and sets the current run to nil, whatever the current
    run is.  In particular, when a second start request has replaced the
    run in the meantime, the record of the newer run is dropped although
    its own goroutine is alive and its context has not been cancelled. *)
Theorem runTest_completion_clears_current_run (ParseDuration : string → option Z)
    (req req2 : TestRun) (t0 t1 now1 now2 d : Z) (metrics : list (string * JSON))
    (w : World) (ws : WebServer) (ctx : nat) :
  ParseDuration (Duration req) = Some d →
  contexts_fresh ws →
  (let ws' := runTest ParseDuration ctx req t0 t1 metrics w ws in
   currentTest ws' = None
   ∧ length (reports ws') = S (length (reports ws))
   ∧ ∃ status,
       reports ws'
       = reports ws
         ++ [mkTestReport (Z.of_nat (length (reports ws)) + 1) (Users req)
               (Duration req) (Ramp req) t0 t1 status metrics (users w)])
  ∧ (let ctx1 := nextCtx ws in
     let ctx2 := S (nextCtx ws) in
     let ws1 := snd (handleStart "POST" (Some req) now1 ws) in
     let ws2 := snd (handleStart "POST" (Some req2) now2 ws1) in
     let ws3 := runTest ParseDuration ctx1 req t0 t1 metrics w ws2 in
     currentTest ws2
     = Some (mkTestRun (Users req2) (Duration req2) (Ramp req2) "running" now2 ctx2)
     ∧ currentTest ws3 = None
     ∧ ctx2 ∈ alive ws3
     ∧ ctx2 ∉ cancelled ws3).
Proof.
  intros Hd Hfresh. split.
  - unfold runTest. rewrite Hd. cbn. split_and!; [done | |].
    + rewrite length_app. cbn. lia.
    + eexists. reflexivity.
  - cbn zeta. unfold runTest. rewrite Hd. cbn. split_and!; [done | done | |].
    + rewrite list_elem_of_In, filter_In, <-list_elem_of_In.
      split; [set_solver|]. apply negb_true_iff, Nat.eqb_neq. lia.
    + destruct Hfresh as [Hc Hr]. rewrite Forall_forall in Hc.
      rewrite elem_of_app, list_elem_of_singleton. intros [Hin|?]; [|lia].
      destruct (currentTest ws) as [r0|] eqn:Hr0;
        [destruct (String.eqb (Status r0) "running")|].
      * apply elem_of_app in Hin as [Hin|Hin%list_elem_of_singleton].
        -- specialize (Hc _ Hin). lia.
        -- specialize (Hr r0 eq_refl). lia.
      * specialize (Hc _ Hin). lia.
      * specialize (Hc _ Hin). lia.
Qed.

Lemma runTest_completion_clears_current_run_witness :
  let ws1 := snd (handleStart "POST" (Some demoRequest) 0 NewWebServer) in
  let ws2 := snd (handleStart "POST" (Some demoRequest) 60 ws1) in
  let ws3 := runTest demoParseDuration 0 demoRequest 1 121 [] New ws2 in
  demoParseDuration (Duration demoRequest) = Some 120000000000%Z
  ∧ contexts_fresh NewWebServer
  ∧ currentTest ws2 = Some (mkTestRun 10 "2m" "5/s" "running" 60 1)
  ∧ currentTest ws3 = None
  ∧ 1 ∈ alive ws3
  ∧ 1 ∉ cancelled ws3.
Proof.
  cbn zeta.
  assert (Hd : demoParseDuration (Duration demoRequest) = Some 120000000000%Z)
    by reflexivity.
  assert (Hf : contexts_fresh NewWebServer)
    by (split; [apply Forall_nil_2 | intros r Hr; cbn in Hr; discriminate]).
  destruct (runTest_completion_clears_current_run demoParseDuration demoRequest
              demoRequest 1 121 0 60 _ [] New NewWebServer 0 Hd Hf)
    as (_ & H1 & H2 & H3 & H4).
  split_and!; [exact Hd | exact Hf | exact H1 | exact H2 | exact H3 | exact H4].
Defined.

(** Freshness of contexts is kept by the handlers and by [runTest]. *)
Lemma handleStart_contexts_fresh method body now ws :
  contexts_fresh ws → contexts_fresh (snd (handleStart method body now ws)).
Proof.
  intros [Hc Hr]. unfold handleStart.
  destruct (negb _); [done|]. destruct body as [req|]; [|done]. cbn.
  split.
  - assert (Hc' : Forall (fun c => c < S (nextCtx ws)) (cancelled ws))
      by (eapply Forall_impl; [exact Hc | intros; cbn in *; lia]).
    destruct (currentTest ws) as [r0|] eqn:Hr0;
      [destruct (String.eqb (Status r0) "running")|]; cbn; try done.
    rewrite Forall_app, Forall_singleton. split; [done|].
    specialize (Hr r0 eq_refl). lia.
  - intros r [= <-]. cbn. lia.
Qed.

Lemma runTest_contexts_fresh ParseDuration ctx req t0 t1 metrics w ws :
  contexts_fresh ws →
  contexts_fresh (runTest ParseDuration ctx req t0 t1 metrics w ws).
Proof.
  intros [Hc Hr]. unfold runTest.
  destruct (ParseDuration (Duration req)); cbn; split; cbn; try done.
  destruct (currentTest ws) as [r0|]; [|done].
  intros r [= <-]. cbn. by apply Hr.
Qed.

(** ** The chaos transport *)

Import ChaosTransport.

Lemma Intn_in_range raw n :
  (0 < n)%Z → ∃ k, Intn raw n = Finishes k ∧ (0 ≤ k < n)%Z.
Proof.
  intros Hn. unfold Intn. rewrite (proj2 (Z.leb_gt n 0) Hn).
  eexists. split; [done|]. by apply Z.mod_pos_bound.
Qed.

(** With a positive bound the delay branch never panics. *)
Lemma RoundTrip_finishes c u1 raw cancelAfter tie base u2 :
  (0 < MaxDelayMs c)%Z →
  ∃ out, RoundTrip c u1 raw cancelAfter tie base u2 = Finishes out.
Proof.
  intros Hn. unfold RoundTrip. destruct (below u1 (DelayRate c)); [|by eexists].
  destruct (Intn_in_range raw _ Hn) as (k & -> & _).
  destruct (selectDelay _ _ _) as [[] t]; by eexists.
Qed.

(** When nothing cancels the request, the injected wait is a whole number
    of milliseconds below the bound. *)
Lemma RoundTrip_delay_bounded c u1 raw tie base u2 :
  (0 < MaxDelayMs c ≤ 1000000000)%Z → below u1 (DelayRate c) = true →
  ∃ k, (0 ≤ k < MaxDelayMs c)%Z
       ∧ RoundTrip c u1 raw None tie base u2
         = Finishes (Some (k * 1000000)%Z, inject c base u2).
Proof.
  intros [Hn Hmax] Hu. unfold RoundTrip. rewrite Hu.
  destruct (Intn_in_range raw _ Hn) as (k & -> & Hk).
  exists k. split; [done|]. unfold selectDelay, milliseconds, wrap64.
  replace ((k * 1000000 + 2 ^ 63) mod 2 ^ 64 - 2 ^ 63)%Z with (k * 1000000)%Z.
  - by rewrite Z.max_r by lia.
  - rewrite Z.mod_small by lia. lia.
Qed.

(** A context that is done before the timer fires aborts the wait. *)
Lemma RoundTrip_honours_cancellation c u1 raw t tie base u2 k :
  below u1 (DelayRate c) = true → Intn raw (MaxDelayMs c) = Finishes k →
  (0 ≤ t < milliseconds k)%Z →
  RoundTrip c u1 raw (Some t) tie base u2 = Finishes (Some t, ContextErr).
Proof.
  intros Hu Hk Ht. unfold RoundTrip. rewrite Hu, Hk. unfold selectDelay.
  rewrite !Z.max_r by lia.
  rewrite (proj2 (Z.ltb_ge _ _)) by lia.
  by rewrite (proj2 (Z.ltb_lt _ _)) by lia.
Qed.

(** Whenever the delay branch is entered with a bound that is not
    positive, [rand.Intn] panics. *)
Lemma RoundTrip_panics c u1 raw cancelAfter tie base u2 :
  (MaxDelayMs c ≤ 0)%Z → below u1 (DelayRate c) = true →
  RoundTrip c u1 raw cancelAfter tie base u2 = Panics.
Proof.
  intros Hn Hu. unfold RoundTrip, Intn.
  by rewrite Hu, (proj2 (Z.leb_le _ _) Hn).
Qed.

(** C5, at the failing input.  With [max_delay_ms = 0] and
    [delay_rate = 1], both inside the ranges the configuration allows,
    every request enters the delay branch and [rand.Intn(0)] panics,
    whatever is drawn and whatever the context does. *)
Theorem RoundTrip_panics_on_zero_max_delay (raw : Z) (cancelAfter : option Z)
    (tie : bool) (base : option HttpResponse) (u2 : Q) :
  RoundTrip (Build_Chaos (1 # 10) 1 0) (1 # 2) raw cancelAfter tie base u2 = Panics
  ∧ RoundTrip (Build_Chaos (1 # 10) 1 0) 0 raw cancelAfter tie base u2 = Panics.
Proof. split; reflexivity. Qed.

(** ** Chat send without a connection *)

Import Chat.

(** C9. When the connection field is nil, [SendMessage] increments
    [requests_total] for the labels (chat, send_message, no_connection)
    once and touches no other counter, hands no frame to the socket, dials
    nothing, and leaves the connection field nil. *)
Theorem SendMessage_without_connection (message : string) (writeFails : bool)
    (c : ChatBehavior) (e : Registry) :
  conn c = None →
  let c' := fst (SendMessage message writeFails c e) in
  let e' := snd (SendMessage message writeFails c e) in
  let labels := ("chat", "send_message", "no_connection") in
  c' = c
  ∧ conn c' = None
  ∧ written e' = written e
  ∧ dialed e' = dialed e
  ∧ RequestsTotal e' !! labels = Some (S (default 0 (RequestsTotal e !! labels)))
  ∧ (∀ other, other ≠ labels → RequestsTotal e' !! other = RequestsTotal e !! other)
  ∧ RequestDuration e' = RequestDuration e ++ [("chat", "send_message")].
Proof.
  intros Hc. unfold SendMessage. rewrite Hc. cbn.
  split_and!; try done.
  - by rewrite lookup_insert_eq.
  - intros other Hne. by rewrite lookup_insert_ne.
Qed.

Lemma SendMessage_without_connection_witness :
  let c := mkChatBehavior "http://chat" None "token" "loadtest_user_7" in
  let e := mkRegistry ∅ [] [] 0 in
  conn c = None
  ∧ fst (SendMessage "hello" false c e) = c
  ∧ written (snd (SendMessage "hello" false c e)) = []
  ∧ RequestsTotal (snd (SendMessage "hello" false c e))
      !! ("chat", "send_message", "no_connection") = Some 1.
Proof.
  cbn zeta.
  assert (H : conn (mkChatBehavior "http://chat" None "token" "loadtest_user_7") = None)
    by reflexivity.
  destruct (SendMessage_without_connection "hello" false _ (mkRegistry ∅ [] [] 0) H)
    as (H1 & _ & H2 & _ & H3 & _).
  split_and!; [exact H | exact H1 | exact H2 | exact H3].
Defined.

(** With a connection the frame is handed to the socket. *)
Example SendMessage_with_connection :
  let c := mkChatBehavior "http://chat" (Some 4) "token" "loadtest_user_7" in
  written (snd (SendMessage "hi" false c (mkRegistry ∅ [] [] 0)))
  = [(4, socketIOMsg "hi")].
Proof. reflexivity. Qed.

(** * Further properties of the tracker *)

(** A command that may only take users off the tracked list, keeping the
    order of those that stay. *)
Definition only_removes {A} (m : M A) : Prop :=
  ∀ w, wf w →
       wf (snd (m w)) ∧ tracked_list (snd (m w)) `sublist_of` tracked_list w.

Lemma List_filter_sublist (keep : string → bool) l : List.filter keep l `sublist_of` l.
Proof.
  induction l as [|x l IH]; cbn; [constructor|].
  destruct (keep x); by constructor.
Qed.

Lemma only_removes_ret {A} (a : A) : only_removes (ret a).
Proof. intros w Hwf. by cbn. Qed.

Lemma only_removes_bind {A B} (m : M A) (k : A → M B) :
  only_removes m → (∀ a, only_removes (k a)) → only_removes (bind m k).
Proof.
  intros Hm Hk w Hwf. unfold bind.
  destruct (m w) as [a w1] eqn:Hw1.
  specialize (Hm w Hwf). rewrite Hw1 in Hm. cbn in Hm. destruct Hm as [Hwf1 Hs1].
  destruct (Hk a w1 Hwf1) as [Hwf2 Hs2]. split; [done | by etrans].
Qed.

Lemma net_only_only_removes {A} (m : M A) : net_only m → only_removes m.
Proof.
  intros Hm w Hwf. destruct (net_only_tracked_list m w Hm Hwf) as [Hwf1 ->]. done.
Qed.

Section OnlyRemoves.

Variable E : Env.

Lemma retain_only_removes keep : only_removes (retain E keep).
Proof.
  intros w Hwf. destruct (retain_spec E keep w Hwf) as (Hwf1 & Hl & _).
  unfold exec in *. rewrite Hl. split; [done | apply List_filter_sublist].
Qed.

Lemma DeleteUser_only_removes u : only_removes (DeleteUser E u).
Proof.
  unfold DeleteUser.
  destruct (String.eqb u "" || negb (String.prefix testPrefix u));
    [apply only_removes_ret|].
  apply only_removes_bind; [apply net_only_only_removes, cleanupUsers_net_only|].
  intros [deleted failed]. destruct (decide (length deleted = 1)).
  - apply only_removes_bind; [apply retain_only_removes|].
    intros; apply only_removes_ret.
  - destruct (failed !! u); apply only_removes_ret.
Qed.

Lemma ReduceLoad_only_removes n : only_removes (ReduceLoad E n).
Proof.
  unfold ReduceLoad.
  apply only_removes_bind; [apply net_only_only_removes, rangeUsers_net_only|].
  intros us.
  apply only_removes_bind; [apply net_only_only_removes, Shuffle_net_only|].
  intros all.
  apply only_removes_bind; [apply net_only_only_removes, cleanupUsers_net_only|].
  intros [deletedList failed].
  apply only_removes_bind; [apply net_only_only_removes, cascade_net_only|]. intros _.
  apply only_removes_bind; [apply net_only_only_removes, cascade_net_only|]. intros _.
  apply only_removes_bind; [apply retain_only_removes|].
  intros; apply only_removes_ret.
Qed.

Lemma deleteSelected_only_removes sel : only_removes (deleteSelected E sel).
Proof.
  destruct sel as [toDelete|]; cbn; [|apply only_removes_ret].
  apply only_removes_bind; [apply net_only_only_removes, cleanupUsers_net_only|].
  intros [deleted failed].
  apply only_removes_bind; [apply retain_only_removes|].
  intros; apply only_removes_ret.
Qed.

Lemma DeleteTestUsers_only_removes count : only_removes (DeleteTestUsers E count).
Proof.
  unfold DeleteTestUsers. destruct (count <=? 0)%Z; [apply only_removes_ret|].
  apply only_removes_bind; [apply net_only_only_removes, selectTestUsers_net_only|].
  apply deleteSelected_only_removes.
Qed.

Lemma launch_loop_only_removes ctxDone toDelete : ∀ i launched deleted failed,
  only_removes (launch_loop E ctxDone i toDelete launched deleted failed).
Proof.
  induction toDelete as [|u us IH]; intros i launched deleted failed; cbn.
  - apply only_removes_ret.
  - destruct (endSelect (selectCase (ctxDone i))); [|apply only_removes_ret].
    apply only_removes_bind; [apply DeleteUser_only_removes|].
    intros [[] code]; apply IH.
Qed.

Lemma DeleteRandomTestUsersConcurrent_only_removes ctxDone count concurrency :
  only_removes (DeleteRandomTestUsersConcurrent E ctxDone count concurrency).
Proof.
  unfold DeleteRandomTestUsersConcurrent.
  destruct (count <=? 0)%Z; [apply only_removes_ret|].
  apply only_removes_bind; [apply net_only_only_removes, selectTestUsers_net_only|].
  intros [toDelete|]; [apply launch_loop_only_removes | apply only_removes_ret].
Qed.

End OnlyRemoves.

(** X1. The four deletion entry points never add a user to the tracked
    list and never reorder it: what is tracked afterwards is what was
    tracked before with some users taken out. *)
Theorem deletions_only_remove (E : Env) (w : World) (u : string) (n count k : Z)
    (ctxDone : nat → bool) :
  wf w →
  tracked_list (exec (DeleteUser E u) w) `sublist_of` tracked_list w
  ∧ tracked_list (exec (ReduceLoad E n) w) `sublist_of` tracked_list w
  ∧ tracked_list (exec (DeleteTestUsers E count) w) `sublist_of` tracked_list w
  ∧ tracked_list (exec (DeleteRandomTestUsersConcurrent E ctxDone count k) w)
    `sublist_of` tracked_list w.
Proof.
  intros Hwf. unfold exec. split_and!.
  - apply (DeleteUser_only_removes E u w Hwf).
  - apply (ReduceLoad_only_removes E n w Hwf).
  - apply (DeleteTestUsers_only_removes E count w Hwf).
  - apply (DeleteRandomTestUsersConcurrent_only_removes E ctxDone count k w Hwf).
Qed.

Lemma deletions_only_remove_witness :
  wf twoUsers
  ∧ tracked_list (exec (ReduceLoad (demoEnv (answering 200)) 1) twoUsers)
    `sublist_of` tracked_list twoUsers.
Proof.
  assert (H : wf twoUsers)
    by (unfold wf, valid; split_and!; vm_compute; first [reflexivity | lia]).
  split; [exact H|].
  exact (proj1 (proj2 (deletions_only_remove (demoEnv (answering 200)) twoUsers
                         "user_1" 1 1 1 (fun _ => false) H))).
Defined.

Lemma step_NoDup E op w :
  wf w → NoDup (tracked_list w) →
  wf (step E op w) ∧ NoDup (tracked_list (step E op w)).
Proof.
  intros Hwf Hnd. destruct op as [u|u|n|n|d n k]; cbn; unfold exec.
  - destruct (AddUser_spec E u w Hwf) as (Hwf1 & Hl & _). unfold exec in *.
    split; [done|]. rewrite Hl.
    destruct (contains u (tracked_list w)) eqn:Hc; [done|].
    apply contains_false in Hc. apply NoDup_app. split_and!; [done | | apply NoDup_singleton].
    intros x Hx ->%list_elem_of_singleton. done.
  - destruct (DeleteUser_only_removes E u w Hwf) as [? Hs].
    split; [done | by eapply sublist_NoDup].
  - destruct (ReduceLoad_only_removes E n w Hwf) as [? Hs].
    split; [done | by eapply sublist_NoDup].
  - destruct (DeleteTestUsers_only_removes E n w Hwf) as [? Hs].
    split; [done | by eapply sublist_NoDup].
  - destruct (DeleteRandomTestUsersConcurrent_only_removes E d n k w Hwf) as [? Hs].
    split; [done | by eapply sublist_NoDup].
Qed.

(** X2. Whatever operations are run on a new tracker, in whatever order
    and against whatever user service, the tracked list holds no
    username twice. *)
Theorem tracked_list_never_has_duplicates (E : Env) (ops : list TrackerOp) :
  NoDup (tracked_list (run E ops New)).
Proof.
  assert (H : ∀ w, wf w → NoDup (tracked_list w) →
                   wf (run E ops w) ∧ NoDup (tracked_list (run E ops w))).
  { induction ops as [|op ops IH]; intros w Hwf Hnd; [done|].
    change (run E (op :: ops) w) with (run E ops (step E op w)).
    destruct (step_NoDup E op w Hwf Hnd) as [Hwf1 Hnd1]. by apply IH. }
  apply H; [apply wf_New|]. change (tracked_list New) with (@nil string).
  apply NoDup_nil_2.
Qed.

(** ** [DeleteUser] *)

(** X3. A username that does not start with [user_] (the empty username
    included) is refused with status 400 before anything is sent: the
    world is left exactly as it was. *)
Theorem DeleteUser_refuses_foreign_names (E : Env) (u : string) (w : World) :
  String.prefix testPrefix u = false →
  DeleteUser E u w = ((false, 400%Z), w).
Proof.
  intros Hp. unfold DeleteUser. rewrite Hp. cbn. by rewrite orb_true_r.
Qed.

Lemma DeleteUser_refuses_foreign_names_witness :
  String.prefix testPrefix "bob" = false
  ∧ DeleteUser (demoEnv (answering 200)) "bob" twoUsers = ((false, 400%Z), twoUsers)
  ∧ DeleteUser (demoEnv (answering 200)) EmptyString twoUsers
    = ((false, 400%Z), twoUsers).
Proof.
  assert (H1 : String.prefix testPrefix "bob" = false) by reflexivity.
  assert (H2 : String.prefix testPrefix EmptyString = false) by reflexivity.
  split_and!; [exact H1 | |].
  - exact (DeleteUser_refuses_foreign_names (demoEnv (answering 200)) "bob" twoUsers H1).
  - exact (DeleteUser_refuses_foreign_names (demoEnv (answering 200)) EmptyString
             twoUsers H2).
Defined.

Lemma prefixed_nonempty u : String.prefix testPrefix u = true → String.eqb u "" = false.
Proof. by destruct u. Qed.

Lemma cleanupUsers_single E u w :
  cleanupUsers E [u] w
  = (match env_srv E (length (wire w)) (mkRequest DELETE (userURL E u)) with
     | TransportError => ([], <[u := 0%Z]> ∅)
     | Reply code _ => if acknowledged code then ([u], ∅) else ([], <[u := code]> ∅)
     end,
     set_wire (wire w ++ [mkRequest DELETE (userURL E u)]) w).
Proof.
  unfold cleanupUsers. cbn. unfold bind. cbn.
  destruct (env_srv E (length (wire w)) (mkRequest DELETE (userURL E u)))
    as [|code body]; [done|]. by destruct (acknowledged code).
Qed.

Lemma DeleteUser_run E u w :
  String.prefix testPrefix u = true →
  DeleteUser E u w
  = let w1 := set_wire (wire w ++ [mkRequest DELETE (userURL E u)]) w in
    match env_srv E (length (wire w)) (mkRequest DELETE (userURL E u)) with
    | TransportError => ((false, 0%Z), w1)
    | Reply code _ =>
        if acknowledged code
        then ((true, 200%Z), exec (retain E (fun v => negb (String.eqb v u))) w1)
        else ((false, code), w1)
    end.
Proof.
  intros Hp. unfold DeleteUser. rewrite Hp, (prefixed_nonempty u Hp). cbn [orb negb].
  unfold bind at 1. rewrite cleanupUsers_single. cbn zeta.
  destruct (env_srv E (length (wire w)) (mkRequest DELETE (userURL E u)))
    as [|code body]; [|destruct (acknowledged code)]; cbn -[retain].
  - by rewrite lookup_insert_eq.
  - unfold bind, exec. destruct (decide (1 = 1)); [|done].
    by destruct (retain E _ _) as [[] w2].
  - by rewrite lookup_insert_eq.
Qed.

(** The run of [DeleteUser] in which the request is built, for a username
    with the prefix: one DELETE, and an answer by its reply. *)
Lemma DeleteUser_built_outcome (E : Env) (u : string) (w : World) :
  wf w → String.prefix testPrefix u = true →
  let reply := env_srv E (length (wire w)) (mkRequest DELETE (userURL E u)) in
  let w' := exec (DeleteUser E u) w in
  wire w' = wire w ++ [mkRequest DELETE (userURL E u)]
  ∧ match reply with
    | TransportError =>
        eval (DeleteUser E u) w = (false, 0%Z) ∧ tracked_list w' = tracked_list w
    | Reply code _ =>
        if acknowledged code then
          eval (DeleteUser E u) w = (true, 200%Z)
          ∧ tracked_list w'
            = List.filter (fun v => negb (String.eqb v u)) (tracked_list w)
          ∧ u ∉ tracked_list w'
        else
          eval (DeleteUser E u) w = (false, code) ∧ tracked_list w' = tracked_list w
    end.
Proof.
  intros Hwf Hp. cbn zeta. unfold exec, eval. rewrite (DeleteUser_run E u w Hp).
  set (w1 := set_wire (wire w ++ [mkRequest DELETE (userURL E u)]) w).
  assert (Hwf1 : wf w1) by done.
  destruct (env_srv E (length (wire w)) (mkRequest DELETE (userURL E u)))
    as [|code body]; [|destruct (acknowledged code)]; cbn [fst snd]; [done| |done].
  destruct (retain_spec E (fun v => negb (String.eqb v u)) w1 Hwf1)
    as (_ & Hl & Hwire & _).
  rewrite Hwire, Hl. split_and!; try done.
  rewrite elem_of_List_filter, String.eqb_refl. by intros [_ ?].
Qed.


(** X4. For a username with the prefix, [DeleteUser] builds one DELETE.
    When [http.NewRequestWithContext] accepts its URL the request is
    handed to the client and the call answers by the reply: 200 or 204
    gives [(true, 200)] and takes every occurrence of the username off the
    tracked list, keeping the others in order; a transport error gives
    [(false, 0)] and any other status [(false, status)], both leaving the
    tracked list as it was.  When the URL is rejected the call panics
    before anything is handed to the client or changed. *)
Theorem DeleteUser_outcome (E : Env) (parses : string → bool) (u : string)
    (w : World) :
  wf w → String.prefix testPrefix u = true →
  let req := mkRequest DELETE (userURL E u) in
  let reply := env_srv E (length (wire w)) req in
  if parses (userURL E u) then
    ∃ out w',
      Panicking.DeleteUser E parses u w = Returns out w'
      ∧ wire w' = wire w ++ [req]
      ∧ match reply with
        | TransportError => out = (false, 0%Z) ∧ tracked_list w' = tracked_list w
        | Reply code _ =>
            if acknowledged code then
              out = (true, 200%Z)
              ∧ tracked_list w'
                = List.filter (fun v => negb (String.eqb v u)) (tracked_list w)
              ∧ (u ∉ tracked_list w')
            else out = (false, code) ∧ tracked_list w' = tracked_list w
        end
  else Panicking.DeleteUser E parses u w = PanicsIn w.
Proof.
  intros Hwf Hp. cbn zeta.
  destruct (parses (userURL E u)) eqn:Hurl.
  - pose proof (refines_DeleteUser E parses u) as Href.
    destruct (DeleteUser_built_outcome E u w Hwf Hp) as [Hwire Hcase].
    cbn zeta in Hwire, Hcase.
    destruct (proj1 (refines_returns_iff parses _ _ w Href)) as (out & w' & Hrun).
    { unfold handed. rewrite Hwire, drop_app_length. by apply Forall_singleton. }
    pose proof (refines_returns parses _ _ w out w' Href Hrun) as Hm.
    unfold exec, eval in Hwire, Hcase. rewrite Hm in Hwire, Hcase.
    exists out, w'. by split_and!.
  - unfold Panicking.DeleteUser. rewrite Hp, (prefixed_nonempty u Hp). cbn [orb negb].
    unfold Panicking.cleanupUsers. cbn [Panicking.cleanupUsers_loop].
    unfold bindP, Panicking.NewRequestWithContext. by rewrite Hurl.
Qed.

Lemma DeleteUser_outcome_witness :
  let E := demoEnv (answering 204) in
  wf twoUsers ∧ String.prefix testPrefix "user_1" = true
  ∧ String.prefix testPrefix "user_%zz" = true
  ∧ (∃ w', Panicking.DeleteUser E validEscapes "user_1" twoUsers
           = Returns (true, 200%Z) w'
           ∧ tracked_list w' = ["user_2"])
  ∧ Panicking.DeleteUser E validEscapes "user_%zz" twoUsers = PanicsIn twoUsers.
Proof.
  cbn zeta.
  assert (H : wf twoUsers)
    by (unfold wf, valid; split_and!; vm_compute; first [reflexivity | lia]).
  assert (Hp : String.prefix testPrefix "user_1" = true) by reflexivity.
  assert (Hq : String.prefix testPrefix "user_%zz" = true) by reflexivity.
  pose proof (DeleteUser_outcome (demoEnv (answering 204)) validEscapes "user_1"
                twoUsers H Hp) as H1.
  pose proof (DeleteUser_outcome (demoEnv (answering 204)) validEscapes "user_%zz"
                twoUsers H Hq) as H2.
  split_and!; [exact H | exact Hp | exact Hq | | exact H2].
  destruct H1 as (out & w' & Hrun & _ & -> & Hl & _).
  exists w'. split; [exact Hrun | exact Hl].
Defined.

(** ** How many users [ReduceLoad] leaves *)

Lemma filter_split_length (f : string → bool) l :
  length (List.filter f l) + length (List.filter (fun x => negb (f x)) l) = length l.
Proof.
  induction l as [|x l IH]; cbn; [done|]. destruct (f x); cbn; lia.
Qed.

(** Taking a duplicate-free selection out of a duplicate-free list that
    contains it shortens the list by the size of the selection. *)
Lemma filter_out_length sel us :
  NoDup us → NoDup sel → (∀ u, u ∈ sel → u ∈ us) →
  length (List.filter (fun u => negb (contains u sel)) us) = length us - length sel.
Proof.
  intros Hus Hsel Hsub.
  pose proof (filter_split_length (fun u => contains u sel) us) as Hlen.
  assert (Hperm : List.filter (fun u => contains u sel) us ≡ₚ sel).
  { apply NoDup_Permutation; [|done|].
    - apply NoDup_ListNoDup, List.NoDup_filter. by apply NoDup_ListNoDup.
    - intros x. rewrite elem_of_List_filter, contains_spec.
      split; [by intros [_ ?] | intros Hx; split; [by apply Hsub | done]]. }
  rewrite (Permutation_length Hperm) in Hlen. lia.
Qed.

Lemma reduceSelection_facts E n w :
  NoDup (tracked_list w) →
  NoDup (reduceSelection E n w)
  ∧ (∀ u, u ∈ reduceSelection E n w → u ∈ tracked_list w)
  ∧ length (reduceSelection E n w)
    = Nat.min (clampCount n (length (tracked_list w))) (length (tracked_list w)).
Proof.
  intros Hnd. unfold reduceSelection. cbn zeta.
  pose proof (Shuffle_perm E (tracked_list w) w) as Hp.
  pose proof (Permutation_length Hp) as Hlen.
  assert (Hall : NoDup (Shuffle E (tracked_list w) w).1) by by rewrite Hp.
  destruct (decide _) as [Hlt|Hge].
  - split_and!.
    + eapply sublist_NoDup; [exact Hall | apply sublist_take].
    + intros u Hu. rewrite <-Hp. eapply elem_of_sublist; [exact Hu | apply sublist_take].
    + rewrite length_take. lia.
  - split_and!; [done | by intros u; rewrite Hp | lia].
Qed.

(** The run of [ReduceLoad] in which every request is built: the selection
    never names a user twice, so the count is met exactly. *)
Lemma ReduceLoad_built_remaining_count (E : Env) (n : Z) (w : World) :
  wf w → NoDup (tracked_list w) →
  let len := length (tracked_list w) in
  let w' := exec (ReduceLoad E n) w in
  ((0 < n ≤ Z.of_nat len)%Z → length (tracked_list w') = len - Z.to_nat n)
  ∧ ((Z.of_nat len < n)%Z → tracked_list w' = []).
Proof.
  intros Hwf Hnd. cbn zeta.
  destruct (ReduceLoad_spec E n w Hwf) as (_ & Hl & _).
  destruct (reduceSelection_facts E n w Hnd) as (Hsnd & Hsub & Hslen).
  split; intros Hn.
  - rewrite Hl, filter_out_length, Hslen by done. unfold clampCount.
    rewrite (proj2 (Z.leb_gt _ _)) by lia. cbn.
    destruct (n >? _)%Z eqn:Hgt; lia.
  - apply length_zero_iff_nil. rewrite Hl, filter_out_length, Hslen by done.
    unfold clampCount.
    assert (Hc : ((n <=? 0) || (n >? Z.of_nat (length (tracked_list w))))%Z = true).
    { apply orb_true_iff. right. lia. }
    rewrite Hc. lia.
Qed.


(** X5. On a tracked list of [len] users, [ReduceLoad] returns exactly when
    every request it builds is accepted by [http.NewRequestWithContext].
    When it returns, a count [0 < n <= len] has left exactly [len - n]
    users tracked and a count above [len] none.  When it panics, it does
    so before the tracked list is rebuilt: all [len] users are still
    tracked. *)
Theorem ReduceLoad_remaining_count (E : Env) (parses : string → bool) (n : Z)
    (w : World) :
  wf w → NoDup (tracked_list w) →
  let len := length (tracked_list w) in
  (Forall (buildable parses) (handed (ReduceLoad E n) w)
   ↔ ∃ k w', Panicking.ReduceLoad E parses n w = Returns k w')
  ∧ match Panicking.ReduceLoad E parses n w with
    | Returns _ w' =>
        ((0 < n ≤ Z.of_nat len)%Z → length (tracked_list w') = len - Z.to_nat n)
        ∧ ((Z.of_nat len < n)%Z → tracked_list w' = [])
    | PanicsIn w' => tracked_list w' = tracked_list w
    end.
Proof.
  intros Hwf Hnd. cbn zeta.
  pose proof (refines_ReduceLoad E parses n) as Href.
  split; [by apply refines_returns_iff|].
  destruct (Panicking.ReduceLoad E parses n w) as [k w'|w'] eqn:Hrun.
  - pose proof (refines_returns parses _ _ w k w' Href Hrun) as Hm.
    pose proof (ReduceLoad_built_remaining_count E n w Hwf Hnd) as Hold.
    cbn zeta in Hold. unfold exec in Hold. by rewrite Hm in Hold.
  - by destruct (refines_panics parses _ _ w w' Href Hrun) as (? & _).
Qed.

Lemma ReduceLoad_remaining_count_witness :
  wf twoUsers ∧ NoDup (tracked_list twoUsers)
  ∧ (∃ k w', Panicking.ReduceLoad (demoEnv (answering 500)) validEscapes 1 twoUsers
             = Returns k w'
             ∧ length (tracked_list w') = 1)
  ∧ (∃ w', Panicking.ReduceLoad badChatEnv validEscapes 1 twoUsers = PanicsIn w'
           ∧ tracked_list w' = ["user_1"; "user_2"]).
Proof.
  assert (H : wf twoUsers)
    by (unfold wf, valid; split_and!; vm_compute; first [reflexivity | lia]).
  assert (Hnd : NoDup (tracked_list twoUsers)).
  { change (tracked_list twoUsers) with ["user_1"; "user_2"].
    apply NoDup_cons. split; [|apply NoDup_singleton].
    intros Hin%list_elem_of_singleton. discriminate. }
  destruct (ReduceLoad_remaining_count (demoEnv (answering 500)) validEscapes 1
              twoUsers H Hnd) as [Hiff Hrun].
  destruct (ReduceLoad_remaining_count badChatEnv validEscapes 1 twoUsers H Hnd)
    as [_ Hbad].
  split_and!; [exact H | exact Hnd | |].
  - destruct (proj1 Hiff) as (k & w' & Hk).
    { vm_compute. repeat constructor. }
    rewrite Hk in Hrun. exists k, w'. split; [exact Hk|].
    apply (proj1 Hrun). change (length (tracked_list twoUsers)) with 2. lia.
  - destruct (Panicking.ReduceLoad badChatEnv validEscapes 1 twoUsers) as [k w'|w'] eqn:Hk.
    + exfalso. vm_compute in Hk. discriminate.
    + exists w'. split; [reflexivity | exact Hbad].
Defined.

(** ** What [cleanupUsers] returns *)

Lemma cleanupUsers_loop_result E us : ∀ deleted failed w,
  let out := fst (cleanupUsers_loop E us deleted failed w) in
  (∃ d2, fst out = deleted ++ d2 ∧ d2 `sublist_of` us
         ∧ (∀ u, u ∈ us → u ∈ d2 ∨ is_Some (snd out !! u))
         ∧ (NoDup us → ∀ u, u ∈ d2 → snd out !! u = failed !! u))
  ∧ (∀ u, u ∉ us → snd out !! u = failed !! u)
  ∧ (∀ u code, snd out !! u = Some code →
               failed !! u = Some code ∨ (u ∈ us ∧ acknowledged code = false)).
Proof.
  induction us as [|v us IH]; intros deleted failed w; cbn zeta.
  - cbn. split_and!; [|done|by left].
    exists []. rewrite app_nil_r. split_and!; [done | constructor | |done].
    by intros u ?%elem_of_nil.
  - cbn [cleanupUsers_loop]. unfold bind. cbn [Do fst snd].
    set (w1 := set_wire _ w).
    assert (Hcase : ∃ deleted1 failed1 d1,
      fst (match env_srv E (length (wire w)) (mkRequest DELETE (userURL E v)) with
           | TransportError => cleanupUsers_loop E us deleted (<[v := 0%Z]> failed)
           | Reply code _ =>
               if acknowledged code
               then cleanupUsers_loop E us (deleted ++ [v]) failed
               else cleanupUsers_loop E us deleted (<[v := code]> failed)
           end w1) = fst (cleanupUsers_loop E us deleted1 failed1 w1)
      ∧ deleted1 = deleted ++ d1
      ∧ ((d1 = [v] ∧ failed1 = failed)
         ∨ (d1 = [] ∧ ∃ code, failed1 = <[v := code]> failed
                              ∧ acknowledged code = false))).
    { destruct (env_srv E (length (wire w)) (mkRequest DELETE (userURL E v)))
        as [|code body]; [|destruct (acknowledged code) eqn:Hack].
      - exists deleted, (<[v := 0%Z]> failed), []. rewrite app_nil_r.
        split_and!; [done | done | right; split; [done|]; by exists 0%Z].
      - exists (deleted ++ [v]), failed, [v]. split_and!; [done | done | by left].
      - exists deleted, (<[v := code]> failed), []. rewrite app_nil_r.
        split_and!; [done | done | right; split; [done|]; by exists code]. }
    destruct Hcase as (deleted1 & failed1 & d1 & -> & -> & Hd1).
    destruct (IH (deleted ++ d1) failed1 w1) as ((d2 & Hd & Hsub & Hcov & Hdis) & Hout & Hcode).
    destruct Hd1 as [[-> ->]|(-> & code & -> & Hack)].
    + split_and!.
      * exists (v :: d2). rewrite Hd, <-app_assoc. split_and!; [done | by constructor | |].
        -- intros u [->|Hu]%elem_of_cons; [left; left | ].
           destruct (Hcov u Hu) as [?|?]; [left; by right | by right].
        -- intros [Hv Hnd]%NoDup_cons u [->|Hu]%elem_of_cons; [by apply Hout|].
           by apply Hdis.
      * intros u Hu. apply Hout. intros ?. apply Hu. by right.
      * intros u code Hc. destruct (Hcode u code Hc) as [?|[? ?]]; [by left|].
        right. split; [by right | done].
    + rewrite app_nil_r in *. split_and!.
      * exists d2. split_and!; [done | by constructor | |].
        -- intros u [->|Hu]%elem_of_cons.
           ++ destruct (decide (v ∈ us)) as [Hin|Hnin]; [by apply Hcov|].
              right. rewrite (Hout v Hnin), lookup_insert_eq. eauto.
           ++ by apply Hcov.
        -- intros [Hv Hnd]%NoDup_cons u Hu. rewrite (Hdis Hnd u Hu).
           apply lookup_insert_ne. intros ->. apply Hv.
           eapply elem_of_sublist; [exact Hu | exact Hsub].
      * intros u Hu. rewrite Hout by (intros ?; apply Hu; by right).
        apply lookup_insert_ne. intros ->. apply Hu. by left.
      * intros u c Hc. destruct (Hcode u c Hc) as [Hf|[? ?]].
        -- destruct (decide (v = u)) as [->|Hne].
           ++ rewrite lookup_insert_eq in Hf. injection Hf as ->.
              right. split; [by left | done].
           ++ rewrite lookup_insert_ne in Hf by done. by left.
        -- right. split; [by right | done].
Qed.

(** X6. [cleanupUsers] sorts the usernames it is given into two bins.
    The deleted list keeps the order of the input; every input username
    is in the deleted list or a key of the failed map, and nothing else
    is; a failed entry never carries status 200 or 204; and when no
    username is given twice, none is in both bins. *)
Theorem cleanupUsers_partition (E : Env) (us : list string) (w : World) :
  let deleted := fst (eval (cleanupUsers E us) w) in
  let failed := snd (eval (cleanupUsers E us) w) in
  deleted `sublist_of` us
  ∧ (∀ u, u ∈ us ↔ u ∈ deleted ∨ is_Some (failed !! u))
  ∧ (∀ u code, failed !! u = Some code → acknowledged code = false)
  ∧ (NoDup us → ∀ u, u ∈ deleted → failed !! u = None).
Proof.
  cbn zeta. unfold eval, cleanupUsers.
  destruct (cleanupUsers_loop_result E us [] ∅ w)
    as ((d2 & Hd & Hsub & Hcov & Hdis) & Hout & Hcode).
  cbn zeta in *. rewrite Hd. cbn [app]. split_and!.
  - done.
  - intros u. split; [apply Hcov|].
    intros [Hu|[code Hc]]; [by eapply elem_of_sublist|].
    destruct (Hcode u code Hc) as [Hf|[? _]]; [|done].
    by rewrite lookup_empty in Hf.
  - intros u code Hc. destruct (Hcode u code Hc) as [Hf|[_ ?]]; [|done].
    by rewrite lookup_empty in Hf.
  - intros Hnd u Hu. rewrite (Hdis Hnd u Hu). apply lookup_empty.
Qed.

(** ** Candidate selection *)

(** The dedupe loop against the reference function. *)
Lemma uniq_loop_dedupe (candidates : list string) :
  uniq_loop candidates ∅ [] = first_seen candidates.
Proof.
  assert (H : ∀ l seen uniq,
    uniq_loop l seen uniq
    = uniq ++ List.filter (fun v => negb (flag seen v)) (first_seen l)).
  { induction l as [|s l IH]; intros seen uniq; cbn; [by rewrite app_nil_r|].
    destruct (flag seen s) eqn:Hs; cbn; rewrite IH.
    - f_equal. rewrite filter_filter_and. apply filter_ext_elem. intros v _.
      destruct (String.eqb v s) eqn:Hvs; cbn; [|done].
      apply String.eqb_eq in Hvs as ->. by rewrite Hs.
    - rewrite <-app_assoc. cbn. do 2 f_equal.
      rewrite filter_filter_and. apply filter_ext_elem. intros v _.
      unfold flag. destruct (String.eqb v s) eqn:Hvs; cbn.
      + apply String.eqb_eq in Hvs as ->. by rewrite lookup_insert_eq.
      + apply String.eqb_neq in Hvs. by rewrite lookup_insert_ne. }
  rewrite H. cbn. apply filter_everything. intros u _. unfold flag.
  by rewrite lookup_empty.
Qed.

(** X7. The dedupe loop of [DeleteTestUsers] keeps the first occurrence
    of every candidate, in order: its result names every candidate, names
    none twice, and is the list of first occurrences. *)
Theorem uniq_loop_first_seen (candidates : list string) :
  uniq_loop candidates ∅ [] = first_seen candidates
  ∧ NoDup (uniq_loop candidates ∅ [])
  ∧ ∀ u, u ∈ uniq_loop candidates ∅ [] ↔ u ∈ candidates.
Proof.
  rewrite uniq_loop_dedupe. split_and!; [done | apply first_seen_NoDup |].
  apply first_seen_elem.
Qed.

Lemma dashboardCandidates_prefixed data :
  Forall (fun u => String.prefix testPrefix u = true) (dashboardCandidates data).
Proof.
  unfold dashboardCandidates.
  destruct (obj_get "users" data) as [[| | | |arr|]|]; try by constructor.
  induction arr as [|v arr IH]; cbn; [constructor|].
  apply Forall_app. split; [|done].
  destruct v as [| | |it| |it]; try by constructor.
  - destruct (String.prefix testPrefix it) eqn:Hp; by repeat constructor.
  - destruct (obj_get "username" it) as [[| | |uname| |]|]; try by constructor.
    destruct (String.prefix testPrefix uname) eqn:Hp; by repeat constructor.
Qed.

Lemma trackedCandidates_prefixed us :
  Forall (fun u => String.prefix testPrefix u = true) (trackedCandidates us).
Proof.
  apply Forall_forall. intros u Hu. by apply elem_of_List_filter in Hu as [_ ?].
Qed.

Lemma pickCandidates_facts E candidates count w toDelete :
  (0 < count)%Z →
  fst (pickCandidates E candidates count w) = Some toDelete →
  NoDup toDelete
  ∧ (∀ u, u ∈ toDelete → u ∈ candidates)
  ∧ (Z.of_nat (length toDelete) ≤ count)%Z
  ∧ toDelete ≠ [].
Proof.
  intros Hc. unfold pickCandidates.
  destruct candidates as [|c cs]; [done|]. unfold bind.
  pose proof (Shuffle_perm E (uniq_loop (c :: cs) ∅ []) w) as Hp.
  destruct (Shuffle E (uniq_loop (c :: cs) ∅ []) w) as [uniq w1]. cbn [fst snd] in *.
  rewrite uniq_loop_dedupe in Hp.
  assert (Hnd : NoDup uniq) by (rewrite Hp; apply first_seen_NoDup).
  assert (Hin : ∀ u, u ∈ uniq → u ∈ c :: cs)
    by (intros u; rewrite Hp; apply first_seen_elem).
  assert (Hne : uniq ≠ []).
  { intros ->. apply Permutation_nil_l in Hp. cbn in Hp. discriminate. }
  intros [= <-]. destruct (decide _) as [Hlt|Hge].
  - split_and!.
    + eapply sublist_NoDup; [exact Hnd | apply sublist_take].
    + intros u Hu. apply Hin. eapply elem_of_sublist; [exact Hu | apply sublist_take].
    + rewrite length_take. lia.
    + destruct uniq; [done|]. destruct (Z.to_nat count) eqn:Hz; [lia | done].
  - split_and!; [done | done | lia | done].
Qed.


(** X8. The network footprint of [DeleteTestUsers] with a positive
    count: one dashboard request, then one DELETE for each user of a
    selection that names no user twice, holds at most [count] users, and
    holds only usernames that start with [user_]. *)
Theorem DeleteTestUsers_footprint (E : Env) (count : Z) (w : World) :
  (0 < count)%Z →
  ∃ toDelete,
    wire (exec (DeleteTestUsers E count) w)
    = wire w ++ dashboardRequest E
               :: map (fun u => mkRequest DELETE (userURL E u)) toDelete
    ∧ NoDup toDelete
    ∧ (Z.of_nat (length toDelete) ≤ count)%Z
    ∧ Forall (fun u => String.prefix testPrefix u = true) toDelete.
Proof.
  intros Hc. unfold exec, DeleteTestUsers.
  rewrite (proj2 (Z.leb_gt count 0) Hc).
  unfold bind at 1. unfold selectTestUsers, bind at 1. cbn [Do].
  set (w1 := set_wire (wire w ++ [dashboardRequest E]) w).
  assert (Hnone : ∃ toDelete : list string,
    wire w1 = wire w ++ dashboardRequest E
                     :: map (fun u => mkRequest DELETE (userURL E u)) toDelete
    ∧ NoDup toDelete ∧ (Z.of_nat (length toDelete) ≤ count)%Z
    ∧ Forall (fun u => String.prefix testPrefix u = true) toDelete).
  { exists []. cbn. split_and!; [done | constructor | lia | constructor]. }
  destruct (env_srv E (length (wire w)) (dashboardRequest E)) as [|code body];
    [exact Hnone|].
  destruct (decodeObject body) as [data|]; [|exact Hnone].
  unfold bind. cbn [rangeUsers].
  set (candidates := match dashboardCandidates data with
                     | [] => trackedCandidates (read (store w1) (users w1))
                     | _ => dashboardCandidates data
                     end).
  assert (Hpre : Forall (fun u => String.prefix testPrefix u = true) candidates).
  { unfold candidates. pose proof (dashboardCandidates_prefixed data) as Hd.
    destruct (dashboardCandidates data); [apply trackedCandidates_prefixed | done]. }
  assert (Heq : match dashboardCandidates data with
                | [] => trackedCandidates (read (store w1) (users w1))
                | s :: l => s :: l
                end = candidates).
  { unfold candidates. by destruct (dashboardCandidates data). }
  rewrite Heq.
  pose proof (pickCandidates_facts E candidates count w1) as Hpick.
  destruct (pickCandidates_net_only E candidates count w1) as (_ & _ & Hpfx).
  pose proof (pickCandidates_wire E candidates count w1) as Hw2.
  destruct (pickCandidates E candidates count w1) as [[toDelete|] w2];
    cbn [fst snd deleteSelected] in *; [|unfold ret; cbn [snd]; rewrite Hw2; exact Hnone].
  destruct (Hpick toDelete Hc eq_refl) as (Hnd & Hin & Hlen & _).
  exists toDelete. unfold bind.
  pose proof (cleanupUsers_loop_wire E toDelete [] ∅ w2) as Hwire.
  fold (cleanupUsers E toDelete) in Hwire.
  destruct (cleanupUsers E toDelete w2) as [[deleted failed] w3]. cbn [fst snd] in *.
  pose proof (retain_net_wire E (fun u => negb (flag (delSet deleted) u)) w3) as Hw4.
  destruct (retain E (fun u => negb (flag (delSet deleted) u)) w3) as [[] w4].
  cbn [fst snd] in *. unfold ret. cbn [snd].
  rewrite Hw4, Hwire, Hw2. subst w1. cbn [wire set_wire]. rewrite <-app_assoc.
  split_and!; [done | done | done |].
  apply Forall_forall. intros u Hu. rewrite Forall_forall in Hpre.
  apply Hpre, Hin, Hu.
Qed.

Lemma DeleteTestUsers_footprint_witness :
  (0 < 1)%Z
  ∧ ∃ toDelete,
      wire (exec (DeleteTestUsers (demoEnv (answering 500)) 1) twoUsers)
      = wire twoUsers ++ dashboardRequest (demoEnv (answering 500))
          :: map (fun u => mkRequest DELETE (userURL (demoEnv (answering 500)) u))
               toDelete
      ∧ NoDup toDelete
      ∧ (Z.of_nat (length toDelete) ≤ 1)%Z
      ∧ Forall (fun u => String.prefix testPrefix u = true) toDelete.
Proof.
  assert (H : (0 < 1)%Z) by lia.
  split; [exact H|].
  exact (DeleteTestUsers_footprint (demoEnv (answering 500)) 1 twoUsers H).
Defined.

(** ** The cascade to the chat and posts services *)

(** When an item of the listing causes a DELETE. *)
Definition cascadeTarget (E : Env) (base : string) (targets : list string)
    (item : list (string * JSON)) (r : Request) : Prop :=
  ∃ username id,
    obj_get "username" item = Some (JString username)
    ∧ username ∈ targets
    ∧ obj_get "id" item = Some id
    ∧ r = mkRequest DELETE (base +:+ "/" +:+ env_fmtv E id).

Lemma cascade_loop_footprint E base targets items : ∀ n0 w,
  ∃ dels,
    wire (snd (cascade_loop E base targets items n0 w)) = wire w ++ dels
    ∧ (n0 ≤ fst (cascade_loop E base targets items n0 w)
          ≤ n0 + Z.of_nat (length dels))%Z
    ∧ length dels ≤ length items
    ∧ ∀ r, r ∈ dels → ∃ item, item ∈ items ∧ cascadeTarget E base targets item r.
Proof.
  induction items as [|item items IH]; intros n0 w.
  - exists []. cbn. rewrite app_nil_r. split; [done|]. split; [lia|]. split; [lia|].
    by intros r ?%elem_of_nil.
  - assert (Hskip : ∃ dels,
      wire (snd (cascade_loop E base targets items n0 w)) = wire w ++ dels
      ∧ (n0 ≤ fst (cascade_loop E base targets items n0 w)
            ≤ n0 + Z.of_nat (length dels))%Z
      ∧ length dels ≤ length (item :: items)
      ∧ ∀ r, r ∈ dels →
             ∃ it, it ∈ item :: items ∧ cascadeTarget E base targets it r).
    { destruct (IH n0 w) as (dels & Hw & Hn & Hl & Hr). exists dels.
      split; [done|]. split; [done|]. split; [cbn; lia|].
      intros r Hin. destruct (Hr r Hin) as (it & ? & ?). exists it.
      split; [by right | done]. }
    cbn [cascade_loop].
    destruct (obj_get "username" item) as [[| | |username| |]|] eqn:Hu;
      try exact Hskip.
    destruct (contains username targets) eqn:Hc; [|exact Hskip].
    destruct (obj_get "id" item) as [id|] eqn:Hid; [|exact Hskip].
    unfold bind. cbn [Do].
    set (req := mkRequest DELETE (base +:+ "/" +:+ env_fmtv E id)).
    set (w1 := set_wire (wire w ++ [req]) w).
    assert (Hreq : cascadeTarget E base targets item req).
    { exists username, id. split_and!; try done. by apply contains_spec. }
    destruct (env_srv E (length (wire w)) req) as [|code body].
    + destruct (IH n0 w1) as (dels & Hw & Hn & Hl & Hr). exists (req :: dels).
      rewrite Hw. subst w1. cbn [wire set_wire length]. rewrite <-app_assoc.
      split; [done|]. split; [lia|]. split; [lia|].
      intros r [->|Hin]%elem_of_cons; [exists item; split; [by left | done]|].
      destruct (Hr r Hin) as (it & ? & ?). exists it. split; [by right | done].
    + destruct (IH (n0 + 1)%Z w1) as (dels & Hw & Hn & Hl & Hr). exists (req :: dels).
      rewrite Hw. subst w1. cbn [wire set_wire length]. rewrite <-app_assoc.
      split; [done|]. split; [lia|]. split; [lia|].
      intros r [->|Hin]%elem_of_cons; [exists item; split; [by left | done]|].
      destruct (Hr r Hin) as (it & ? & ?). exists it. split; [by right | done].
Qed.

(** X9. The cascade behind [cleanupChatMessagesFromUsers] and
    [cleanupPostsFromUsers] sends the listing request and then only
    DELETEs for listed items that carry an id and whose username is one
    of the targets, at most one per item; the count it returns is at
    most the number of DELETEs sent; and when the listing fails in
    transport it sends nothing more and returns 0. *)
Theorem cascade_only_deletes_targets (E : Env) (base : string)
    (targets : list string) (w : World) :
  let reply := env_srv E (length (wire w)) (mkRequest GET base) in
  let n := eval (cascade E base targets) w in
  ∃ dels,
    wire (exec (cascade E base targets) w) = wire w ++ mkRequest GET base :: dels
    ∧ (0 ≤ n ≤ Z.of_nat (length dels))%Z
    ∧ match reply with
      | TransportError => dels = [] ∧ n = 0%Z
      | Reply _ body =>
          length dels ≤ length (decodeObjects body)
          ∧ ∀ r, r ∈ dels →
                 ∃ item, item ∈ decodeObjects body
                         ∧ cascadeTarget E base targets item r
      end.
Proof.
  cbn zeta. unfold eval, exec, cascade, bind. cbn [Do].
  destruct (env_srv E (length (wire w)) (mkRequest GET base)) as [|code body].
  - exists []. cbn. split; [done|]. split; [lia|]. done.
  - destruct (cascade_loop_footprint E base targets (decodeObjects body) 0
                (set_wire (wire w ++ [mkRequest GET base]) w))
      as (dels & Hw & Hn & Hl & Hr).
    exists dels. rewrite Hw. cbn [wire set_wire]. rewrite <-app_assoc.
    split; [done|]. split; [lia|]. done.
Qed.

(** ** The size of the deletion pool *)

(** X10. With at least one candidate, the pool of
    [DeleteRandomTestUsersConcurrent] has at least one slot and never
    more slots than candidates; a concurrency that is not positive
    counts as 5. *)
Theorem poolSize_bounds (concurrency : Z) (n : nat) :
  0 < n →
  (1 ≤ poolSize concurrency n ≤ Z.of_nat n)%Z
  ∧ poolSize concurrency n
    = Z.min (if (concurrency <=? 0)%Z then 5 else concurrency) (Z.of_nat n).
Proof.
  intros Hn. unfold poolSize.
  destruct (concurrency <=? 0)%Z eqn:Hc;
    [|apply Z.leb_gt in Hc];
    match goal with |- context [(?a >? ?b)%Z] => destruct (a >? b)%Z eqn:Hg end;
    lia.
Qed.

Lemma poolSize_bounds_witness :
  0 < 3 ∧ poolSize 10 3 = 3%Z ∧ poolSize 0 20 = 5%Z ∧ poolSize 2 20 = 2%Z.
Proof.
  assert (H : 0 < 3) by lia.
  split_and!; [exact H | | reflexivity | reflexivity].
  rewrite (proj2 (poolSize_bounds 10 3 H)). reflexivity.
Defined.

(** * Further properties of the control plane *)

(** What happens to the server: a start request, a stop request, or a
    [runTest] goroutine reaching the critical section that ends it. *)
Inductive WebEvent :=
| EvStart (method : string) (body : option TestRun) (now : Z)
| EvStop (method : string) (now : Z) (metrics : list (string * JSON)) (w : World)
| EvRunTestEnds (ctx : nat) (req : TestRun) (t0 t1 : Z)
    (metrics : list (string * JSON)) (w : World).

Definition web_step (ParseDuration : string → option Z) (ev : WebEvent)
    (ws : WebServer) : WebServer :=
  match ev with
  | EvStart method body now => snd (handleStart method body now ws)
  | EvStop method now metrics w => snd (handleStop method now metrics w ws)
  | EvRunTestEnds ctx req t0 t1 metrics w =>
      runTest ParseDuration ctx req t0 t1 metrics w ws
  end.

Definition web_run (ParseDuration : string → option Z) (evs : list WebEvent)
    (ws : WebServer) : WebServer :=
  fold_left (fun ws ev => web_step ParseDuration ev ws) evs ws.

(** Report ids count up from 1, and a current run is never left in the
    state [stopped]. *)
Definition web_inv (ws : WebServer) : Prop :=
  map ID (reports ws) = map Z.of_nat (seq 1 (length (reports ws)))
  ∧ ∀ r, currentTest ws = Some r → Status r = "running" ∨ Status r = "error".

Lemma ids_snoc (l : list TestReport) (rep : TestReport) :
  map ID l = map Z.of_nat (seq 1 (length l)) →
  ID rep = (Z.of_nat (length l) + 1)%Z →
  map ID (l ++ [rep]) = map Z.of_nat (seq 1 (length (l ++ [rep]))).
Proof.
  intros Hl Hr. rewrite length_app, map_app. cbn [length map].
  rewrite seq_app, map_app, <-Hl. cbn. rewrite Hr. do 3 f_equal. lia.
Qed.

Lemma web_step_inv P ev ws : web_inv ws → web_inv (web_step P ev ws).
Proof.
  intros Hinv. pose proof Hinv as [Hid Hst].
  destruct ev as [method body now|method now metrics w|ctx req t0 t1 metrics w];
    cbn [web_step].
  - unfold handleStart. destruct (negb _); [exact Hinv|].
    destruct body as [req|]; [|exact Hinv]. split; [exact Hid|].
    intros r [= <-]. by left.
  - unfold handleStop. destruct (negb _); [exact Hinv|].
    destruct (currentTest ws) as [r|] eqn:Hr; [|exact Hinv].
    destruct (String.eqb (Status r) "running"); [|exact Hinv].
    split; [by apply ids_snoc | done].
  - unfold runTest. destruct (P (Duration req)).
    + split; [by apply ids_snoc | done].
    + split; [exact Hid|]. cbn. destruct (currentTest ws) as [r|]; [|done].
      intros r' [= <-]. by right.
Qed.

Lemma web_run_inv P evs : ∀ ws, web_inv ws → web_inv (web_run P evs ws).
Proof.
  induction evs as [|ev evs IH]; intros ws Hinv; [done|].
  apply (IH (web_step P ev ws)). by apply web_step_inv.
Qed.

Lemma web_inv_New : web_inv NewWebServer.
Proof. split; [done | by intros r]. Qed.

(** X11. However start requests, stop requests and finishing runs are
    interleaved, the reports carry the ids 1, 2, 3, ... in the order in
    which they were appended. *)
Theorem report_ids_count_up (ParseDuration : string → option Z)
    (evs : list WebEvent) :
  let ws := web_run ParseDuration evs NewWebServer in
  map ID (reports ws) = map Z.of_nat (seq 1 (length (reports ws))).
Proof. apply (web_run_inv ParseDuration evs NewWebServer web_inv_New). Qed.

(** X12. In every state the server can reach, a [runTest] that ends
    after a duration that parsed writes the status [completed] into its
    report: the branch that would write [stopped] is never taken, since
    [handleStop] sets the current run to nil in the same critical section
    in which it marks it stopped. *)
Theorem runTest_always_reports_completed (ParseDuration : string → option Z)
    (evs : list WebEvent) (ctx : nat) (req : TestRun) (t0 t1 d : Z)
    (metrics : list (string * JSON)) (w : World) :
  ParseDuration (Duration req) = Some d →
  let ws := web_run ParseDuration evs NewWebServer in
  ∃ rep,
    reports (runTest ParseDuration ctx req t0 t1 metrics w ws) = reports ws ++ [rep]
    ∧ rStatus rep = "completed".
Proof.
  intros Hd. cbn zeta.
  destruct (web_run_inv ParseDuration evs NewWebServer web_inv_New) as [_ Hst].
  unfold runTest. rewrite Hd. cbn. eexists. split; [reflexivity|]. cbn.
  destruct (currentTest (web_run ParseDuration evs NewWebServer)) as [r|]; [|done].
  by destruct (Hst r eq_refl) as [-> | ->].
Qed.

Lemma runTest_always_reports_completed_witness :
  let evs := [EvStart "POST" (Some demoRequest) 0; EvStop "POST" 50 [] New] in
  demoParseDuration (Duration demoRequest) = Some 120000000000%Z
  ∧ ∃ rep,
      reports (runTest demoParseDuration 0 demoRequest 1 51 [] New
                 (web_run demoParseDuration evs NewWebServer))
      = reports (web_run demoParseDuration evs NewWebServer) ++ [rep]
      ∧ rStatus rep = "completed".
Proof.
  cbn zeta.
  assert (Hd : demoParseDuration (Duration demoRequest) = Some 120000000000%Z)
    by reflexivity.
  split; [exact Hd|].
  exact (runTest_always_reports_completed demoParseDuration
           [EvStart "POST" (Some demoRequest) 0; EvStop "POST" 50 [] New]
           0 demoRequest 1 51 _ [] New Hd).
Defined.

(** X13. A run that is stopped is reported twice: [handleStop] appends a
    report with status [stopped], cancels the run's context and clears
    the current run; when the run's [runTest] then ends it appends a
    second report, with the next id and status [completed]. *)
Theorem stopped_run_is_reported_twice (ParseDuration : string → option Z)
    (ws : WebServer) (r req : TestRun) (now t0 t1 d : Z)
    (m1 m2 : list (string * JSON)) (w1 w2 : World) (ctx : nat) :
  currentTest ws = Some r → Status r = "running" →
  ParseDuration (Duration req) = Some d →
  let ws1 := snd (handleStop "POST" now m1 w1 ws) in
  let ws2 := runTest ParseDuration ctx req t0 t1 m2 w2 ws1 in
  let n := Z.of_nat (length (reports ws)) in
  cancel r ∈ cancelled ws1
  ∧ currentTest ws1 = None
  ∧ map rStatus (reports ws2) = map rStatus (reports ws) ++ ["stopped"; "completed"]
  ∧ map ID (reports ws2) = map ID (reports ws) ++ [(n + 1)%Z; (n + 2)%Z]
  ∧ currentTest ws2 = None.
Proof.
  intros Hr Hs Hd. cbn zeta. unfold runTest, handleStop. cbn.
  rewrite Hr, Hs. cbn. rewrite Hd. cbn.
  rewrite !map_app, <-!app_assoc, length_app. cbn.
  split_and!; try done.
  - apply elem_of_app. right. by left.
  - do 3 f_equal. lia.
Qed.

Lemma stopped_run_is_reported_twice_witness :
  let ws := snd (handleStart "POST" (Some demoRequest) 0 NewWebServer) in
  let ws1 := snd (handleStop "POST" 50 [] New ws) in
  let ws2 := runTest demoParseDuration 0 demoRequest 1 51 [] New ws1 in
  currentTest ws = Some (mkTestRun 10 "2m" "5/s" "running" 0 0)
  ∧ demoParseDuration (Duration demoRequest) = Some 120000000000%Z
  ∧ map rStatus (reports ws2) = ["stopped"; "completed"]
  ∧ map ID (reports ws2) = [1%Z; 2%Z].
Proof.
  cbn zeta.
  assert (Hc : currentTest (snd (handleStart "POST" (Some demoRequest) 0 NewWebServer))
               = Some (mkTestRun 10 "2m" "5/s" "running" 0 0)) by reflexivity.
  assert (Hd : demoParseDuration (Duration demoRequest) = Some 120000000000%Z)
    by reflexivity.
  destruct (stopped_run_is_reported_twice demoParseDuration _ _ demoRequest 50 1 51 _
              [] [] New New 0 Hc eq_refl Hd) as (_ & _ & H1 & H2 & _).
  split_and!; [exact Hc | exact Hd | exact H1 | exact H2].
Defined.

(** X14. Stopping is idempotent, and stopping when no run is running
    changes nothing: a second stop request, whatever its arguments,
    leaves the server as the first one left it. *)
Theorem handleStop_idempotent (ws : WebServer) (method1 method2 : string)
    (now1 now2 : Z) (m1 m2 : list (string * JSON)) (w1 w2 : World) :
  (currentTest (snd (handleStop "POST" now1 m1 w1 ws)) = None
   ∨ snd (handleStop "POST" now1 m1 w1 ws) = ws)
  ∧ snd (handleStop method2 now2 m2 w2 (snd (handleStop "POST" now1 m1 w1 ws)))
    = snd (handleStop "POST" now1 m1 w1 ws)
  ∧ ((∀ r, currentTest ws = Some r → Status r ≠ "running") →
     handleStop method1 now1 m1 w1 ws
     = ((if String.eqb method1 "POST" then 200 else 405)%Z, ws)).
Proof.
  assert (Hnoop : ∀ method now m w s,
    (∀ r, currentTest s = Some r → Status r ≠ "running") →
    handleStop method now m w s
    = ((if String.eqb method "POST" then 200 else 405)%Z, s)).
  { intros method now m w s Hnr. unfold handleStop.
    destruct (String.eqb method "POST"); cbn; [|done].
    destruct (currentTest s) as [r|]; [|done].
    destruct (String.eqb (Status r) "running") eqn:Hs; [|done].
    apply String.eqb_eq in Hs. by destruct (Hnr r eq_refl). }
  assert (Hafter : ∀ r, currentTest (snd (handleStop "POST" now1 m1 w1 ws)) = Some r →
                        Status r ≠ "running").
  { unfold handleStop. cbn. destruct (currentTest ws) as [r0|] eqn:Hr0;
      [|cbn; intros r Hr; congruence].
    destruct (String.eqb (Status r0) "running") eqn:Hs; cbn; [done|].
    intros r Hr. assert (r = r0) as -> by congruence. by apply String.eqb_neq. }
  split_and!.
  - unfold handleStop. cbn. destruct (currentTest ws) as [r|]; [|by right].
    destruct (String.eqb (Status r) "running"); [by left | by right].
  - by rewrite (Hnoop method2 now2 m2 w2 _ Hafter).
  - apply Hnoop.
Qed.

(** X15. A start request that is not a POST is answered 405 and one
    whose body does not decode 400, both without touching the server.
    An accepted request cancels the context of a run that was running,
    installs a run in state [running] under a context that has never been
    cancelled, and leaves the reports alone. *)
Theorem handleStart_replaces_run (ws : WebServer) (method : string)
    (req : TestRun) (now : Z) :
  contexts_fresh ws →
  (method ≠ "POST" → ∀ body, handleStart method body now ws = (405%Z, ws))
  ∧ handleStart "POST" None now ws = (400%Z, ws)
  ∧ (let ws' := snd (handleStart "POST" (Some req) now ws) in
     fst (handleStart "POST" (Some req) now ws) = 200%Z
     ∧ currentTest ws'
       = Some (mkTestRun (Users req) (Duration req) (Ramp req) "running" now
                 (nextCtx ws))
     ∧ (nextCtx ws ∉ cancelled ws')
     ∧ (∀ r, currentTest ws = Some r → Status r = "running" →
             cancel r ∈ cancelled ws')
     ∧ reports ws' = reports ws).
Proof.
  intros [Hc Hr]. rewrite Forall_forall in Hc. split_and!.
  - intros Hm body. unfold handleStart.
    by rewrite (proj2 (String.eqb_neq method "POST") Hm).
  - done.
  - cbn. split_and!; try done.
    + destruct (currentTest ws) as [r0|] eqn:Hr0;
        [destruct (String.eqb (Status r0) "running")|].
      * intros [Hin|Hin%list_elem_of_singleton]%elem_of_app.
        -- specialize (Hc _ Hin). lia.
        -- specialize (Hr r0 eq_refl). lia.
      * intros Hin. specialize (Hc _ Hin). lia.
      * intros Hin. specialize (Hc _ Hin). lia.
    + intros r -> Hs. rewrite Hs. cbn. apply elem_of_app. right. by left.
Qed.

Lemma handleStart_replaces_run_witness :
  let ws := snd (handleStart "POST" (Some demoRequest) 0 NewWebServer) in
  let ws' := snd (handleStart "POST" (Some demoRequest) 9 ws) in
  contexts_fresh ws
  ∧ handleStart "GET" (Some demoRequest) 9 ws = (405%Z, ws)
  ∧ currentTest ws' = Some (mkTestRun 10 "2m" "5/s" "running" 9 1)
  ∧ (1 ∉ cancelled ws')
  ∧ 0 ∈ cancelled ws'.
Proof.
  cbn zeta.
  assert (Hf : contexts_fresh (snd (handleStart "POST" (Some demoRequest) 0
                                      NewWebServer))).
  { split; [apply Forall_nil_2 | intros r [= <-]; cbn; lia]. }
  destruct (handleStart_replaces_run _ "GET" demoRequest 9 Hf)
    as (H1 & _ & _ & H2 & H3 & H4 & _).
  split_and!; [exact Hf | | exact H2 | exact H3 |].
  - apply H1. discriminate.
  - exact (H4 _ eq_refl eq_refl).
Defined.

(** X16. When the duration of a run does not parse, [runTest] appends no
    report and marks whatever run is current as [error]; that run stays
    current, and a later stop request neither cancels its context nor
    appends a report. *)
Theorem runTest_parse_error_sticks (ParseDuration : string → option Z)
    (ws : WebServer) (ctx : nat) (req r : TestRun) (t0 t1 now : Z)
    (m1 m2 : list (string * JSON)) (w1 w2 : World) :
  ParseDuration (Duration req) = None →
  currentTest ws = Some r →
  let ws1 := runTest ParseDuration ctx req t0 t1 m1 w1 ws in
  reports ws1 = reports ws
  ∧ cancelled ws1 = cancelled ws
  ∧ currentTest ws1
    = Some (mkTestRun (Users r) (Duration r) (Ramp r) "error" (StartTime r) (cancel r))
  ∧ handleStop "POST" now m2 w2 ws1 = (200%Z, ws1).
Proof.
  intros Hd Hr. cbn zeta. unfold runTest, handleStop. rewrite Hd, Hr. cbn. done.
Qed.

Lemma runTest_parse_error_sticks_witness :
  let bad := mkTestRun 10 "soon" "5/s" EmptyString 0 0 in
  let ws := snd (handleStart "POST" (Some bad) 0 NewWebServer) in
  let ws1 := runTest demoParseDuration 0 bad 1 1 [] New ws in
  demoParseDuration (Duration bad) = None
  ∧ currentTest ws = Some (mkTestRun 10 "soon" "5/s" "running" 0 0)
  ∧ reports ws1 = []
  ∧ currentTest ws1 = Some (mkTestRun 10 "soon" "5/s" "error" 0 0)
  ∧ handleStop "POST" 5 [] New ws1 = (200%Z, ws1).
Proof.
  cbn zeta.
  assert (Hd : demoParseDuration (Duration (mkTestRun 10 "soon" "5/s" EmptyString 0 0))
               = None) by reflexivity.
  assert (Hc : currentTest (snd (handleStart "POST"
                 (Some (mkTestRun 10 "soon" "5/s" EmptyString 0 0)) 0 NewWebServer))
               = Some (mkTestRun 10 "soon" "5/s" "running" 0 0)) by reflexivity.
  destruct (runTest_parse_error_sticks demoParseDuration _ 0 _ _ 1 1 5 [] [] New New
              Hd Hc) as (H1 & _ & H2 & H3).
  split_and!; [exact Hd | exact Hc | exact H1 | exact H2 | exact H3].
Defined.

(** ** The reduce endpoint *)

(** [handleReduceLoad]; [body] is the [count] decoded from the request,
    [None] when the body does not decode.  Returns the HTTP status and,
    when the request is served, the reply. *)
Definition handleReduceLoad (E : Env) (method : string) (body : option Z)
  : M (Z * option ReduceReply) :=
  if negb (String.eqb method "POST") then ret (405%Z, None)
  else
    match body with
    | None => ret (400%Z, None)
    | Some count =>
        do '(deletedUsers, failed) <~ DeleteTestUsers E count;
        do tracked <~ GetTrackedUsers;
        ret (200%Z,
             Some (mkReduceReply (Z.of_nat (length deletedUsers)) deletedUsers failed
                     (Z.of_nat (s_len tracked)) "completed"))
    end.

Lemma wf_len w : wf w → s_len (users w) = length (tracked_list w).
Proof.
  intros (_ & Hlen & Hcap). unfold tracked_list, read. rewrite length_take. lia.
Qed.

Lemma contains_nil_filter l :
  List.filter (fun u => negb (contains u [])) l = l.
Proof. by apply filter_everything. Qed.

Lemma deleteSelected_spec E sel w :
  wf w →
  let out := deleteSelected E sel w in
  wf (snd out)
  ∧ tracked_list (snd out)
    = List.filter (fun u => negb (contains u (fst (fst out)))) (tracked_list w)
  ∧ match sel with
    | Some toDelete => fst (fst out) `sublist_of` toDelete
    | None => out = (([], ∅), w)
    end.
Proof.
  intros Hwf. cbn zeta. destruct sel as [toDelete|]; cbn [deleteSelected].
  - unfold bind.
    destruct (net_only_tracked_list (cleanupUsers E toDelete) w
                (cleanupUsers_net_only E toDelete) Hwf) as [Hwf1 Hl1].
    destruct (cleanupUsers_loop_result E toDelete [] ∅ w)
      as ((d2 & Hd2 & Hsub & _) & _).
    fold (cleanupUsers E toDelete) in Hd2. cbn [app] in Hd2.
    destruct (cleanupUsers E toDelete w) as [[deleted failed] w1]. cbn [fst snd] in *.
    subst d2.
    destruct (retain_spec E (fun u => negb (flag (delSet deleted) u)) w1 Hwf1)
      as (Hwf2 & Hl2 & _).
    unfold exec in *.
    destruct (retain E (fun u => negb (flag (delSet deleted) u)) w1) as [[] w2].
    cbn [fst snd] in *. unfold ret. cbn [fst snd].
    split_and!; [done | | done].
    rewrite Hl2, Hl1. apply filter_ext_elem. intros u _. by rewrite flag_delSet.
  - unfold ret. cbn. by rewrite contains_nil_filter.
Qed.

Lemma selectTestUsers_facts E count w toDelete :
  (0 < count)%Z →
  fst (selectTestUsers E count w) = Some toDelete →
  NoDup toDelete ∧ (Z.of_nat (length toDelete) ≤ count)%Z.
Proof.
  intros Hc. unfold selectTestUsers, bind. cbn [Do].
  destruct (env_srv E (length (wire w)) (dashboardRequest E)) as [|code body];
    [done|].
  destruct (decodeObject body) as [data|]; [|done]. cbn [rangeUsers].
  intros Hsel. by destruct (pickCandidates_facts E _ count _ toDelete Hc Hsel)
    as (? & _ & ? & _).
Qed.

Lemma DeleteTestUsers_spec E count w :
  wf w →
  let out := DeleteTestUsers E count w in
  wf (snd out)
  ∧ tracked_list (snd out)
    = List.filter (fun u => negb (contains u (fst (fst out)))) (tracked_list w)
  ∧ ((0 < count)%Z → (Z.of_nat (length (fst (fst out))) ≤ count)%Z)
  ∧ ((count ≤ 0)%Z → out = (([], ∅), w)).
Proof.
  intros Hwf. cbn zeta. unfold DeleteTestUsers.
  destruct (count <=? 0)%Z eqn:Hc.
  - apply Z.leb_le in Hc. unfold ret. cbn. rewrite contains_nil_filter.
    split_and!; [done | done | lia | done].
  - apply Z.leb_gt in Hc. unfold bind.
    destruct (net_only_tracked_list (selectTestUsers E count) w
                (selectTestUsers_net_only E count) Hwf) as [Hwf1 Hl1].
    pose proof (selectTestUsers_facts E count w) as Hsel.
    destruct (selectTestUsers E count w) as [sel w1]. cbn [fst snd] in *.
    destruct (deleteSelected_spec E sel w1 Hwf1) as (Hwf2 & Hl2 & Hd).
    split_and!; [done | by rewrite Hl2, Hl1 | | lia].
    intros _. destruct sel as [toDelete|]; [|rewrite Hd; cbn; lia].
    destruct (Hsel toDelete Hc eq_refl) as [_ Hlen].
    apply sublist_length in Hd. lia.
Qed.

(** Removing the members of [deleted] from a duplicate-free list drops
    at most [length deleted] entries. *)
Lemma filter_out_at_most deleted us :
  NoDup us →
  length us ≤ length (List.filter (fun u => negb (contains u deleted)) us)
              + length deleted.
Proof.
  intros Hnd.
  pose proof (filter_split_length (fun u => contains u deleted) us) as Hlen.
  assert (Hle : length (List.filter (fun u => contains u deleted) us) ≤ length deleted).
  { apply submseteq_length, NoDup_submseteq.
    - apply NoDup_ListNoDup, List.NoDup_filter. by apply NoDup_ListNoDup.
    - intros x [_ Hx]%elem_of_List_filter. by apply contains_spec. }
  lia.
Qed.

(** The reply of the handler in the run in which every request is
    built. *)
Lemma handleReduceLoad_built_reply (E : Env) (method : string) (count : Z) (w : World) :
  wf w → NoDup (tracked_list w) →
  (method ≠ "POST" → ∀ body, handleReduceLoad E method body w = ((405%Z, None), w))
  ∧ handleReduceLoad E "POST" None w = ((400%Z, None), w)
  ∧ ∃ reply,
      eval (handleReduceLoad E "POST" (Some count)) w = (200%Z, Some reply)
      ∧ let w' := exec (handleReduceLoad E "POST" (Some count)) w in
        deleted_count reply = Z.of_nat (length (deleted_users reply))
        ∧ remaining reply = Z.of_nat (length (tracked_list w'))
        ∧ (remaining reply ≤ Z.of_nat (length (tracked_list w))
             ≤ remaining reply + deleted_count reply)%Z
        ∧ ((0 < count)%Z → (deleted_count reply ≤ count)%Z)
        ∧ ((count ≤ 0)%Z → deleted_count reply = 0%Z ∧ w' = w)
        ∧ reply_status reply = "completed".
Proof.
  intros Hwf Hnd. split_and!.
  - intros Hm body. unfold handleReduceLoad.
    by rewrite (proj2 (String.eqb_neq method "POST") Hm).
  - done.
  - unfold eval, exec, handleReduceLoad. rewrite String.eqb_refl. cbn [negb].
    unfold bind.
    destruct (DeleteTestUsers_spec E count w Hwf) as (Hwf1 & Hl & Hpos & Hzero).
    destruct (DeleteTestUsers E count w) as [[deleted failed] w1]. cbn [fst snd] in *.
    unfold GetTrackedUsers, ret. cbn [fst snd]. eexists. split; [reflexivity|].
    cbn. rewrite (wf_len w1 Hwf1).
    pose proof (filter_out_at_most deleted (tracked_list w) Hnd) as Hmost.
    pose proof (sublist_length _ _ (List_filter_sublist
                  (fun u => negb (contains u deleted)) (tracked_list w))) as Hle.
    rewrite <-Hl in Hmost, Hle.
    split; [done|]. split; [done|]. split; [lia|]. split; [done|]. split; [|done].
    intros Hc. specialize (Hzero Hc). by injection Hzero as -> _ ->.
Qed.


Lemma refines_handleReduceLoad E parses method body :
  refines parses (Panicking.handleReduceLoad E parses method body)
    (handleReduceLoad E method body).
Proof.
  unfold Panicking.handleReduceLoad, handleReduceLoad.
  destruct (negb (String.eqb method "POST")); [apply refines_ret|].
  destruct body as [count|]; [|apply refines_ret].
  apply refines_bind_total; [apply refines_DeleteTestUsers | |].
  - intros [deletedUsers failed]. intros w. unfold exec, handed, exec. cbn.
    split; [done|]. split; [done|]. by rewrite drop_all.
  - intros [deletedUsers failed] w. by eexists _, _.
Qed.


(** X17. [POST /api/reduce] is answered exactly when every request that
    [DeleteTestUsers] builds is accepted by [http.NewRequestWithContext];
    otherwise the handler panics, which can only happen for a positive
    count, and the tracked list is as it was.  In the reply
    [deleted_count] is the length of [deleted_users] and, for a positive
    count, at most the count; [remaining] is the number of users tracked
    afterwards; and the tracked list has shrunk by at most
    [deleted_count].  With a count that is not positive nothing is sent and
    nothing changes.  Requests that are not a POST get 405, bodies that do
    not decode 400, both without any effect. *)
Theorem handleReduceLoad_reply (E : Env) (parses : string → bool)
    (method : string) (count : Z) (w : World) :
  wf w → NoDup (tracked_list w) →
  (method ≠ "POST" →
   ∀ body, Panicking.handleReduceLoad E parses method body w = Returns (405%Z, None) w)
  ∧ Panicking.handleReduceLoad E parses "POST" None w = Returns (400%Z, None) w
  ∧ (Forall (buildable parses) (handed (DeleteTestUsers E count) w)
     ↔ ∃ out w',
         Panicking.handleReduceLoad E parses "POST" (Some count) w = Returns out w')
  ∧ match Panicking.handleReduceLoad E parses "POST" (Some count) w with
    | Returns out w' =>
        ∃ reply,
          out = (200%Z, Some reply)
          ∧ deleted_count reply = Z.of_nat (length (deleted_users reply))
          ∧ remaining reply = Z.of_nat (length (tracked_list w'))
          ∧ (remaining reply ≤ Z.of_nat (length (tracked_list w))
               ≤ remaining reply + deleted_count reply)%Z
          ∧ ((0 < count)%Z → (deleted_count reply ≤ count)%Z)
          ∧ ((count ≤ 0)%Z → deleted_count reply = 0%Z ∧ w' = w)
          ∧ reply_status reply = "completed"
    | PanicsIn w' => (0 < count)%Z ∧ tracked_list w' = tracked_list w
    end.
Proof.
  intros Hwf Hnd.
  pose proof (refines_handleReduceLoad E parses "POST" (Some count)) as Href.
  assert (Hh : handed (handleReduceLoad E "POST" (Some count)) w
               = handed (DeleteTestUsers E count) w).
  { unfold handed, exec, handleReduceLoad, bind. cbn.
    by destruct (DeleteTestUsers E count w) as [[d f] w1]. }
  split_and!.
  - intros Hm body. unfold Panicking.handleReduceLoad.
    by rewrite (proj2 (String.eqb_neq method "POST") Hm).
  - done.
  - rewrite <-Hh. by apply refines_returns_iff.
  - destruct (Panicking.handleReduceLoad E parses "POST" (Some count) w)
      as [out w'|w'] eqn:Hrun.
    + pose proof (refines_returns parses _ _ w out w' Href Hrun) as Hm.
      destruct (handleReduceLoad_built_reply E "POST" count w Hwf Hnd)
        as (_ & _ & reply & Hev & Hrest).
      unfold eval, exec in Hev, Hrest. rewrite Hm in Hev, Hrest. cbn [fst snd] in *.
      exists reply. by subst out.
    + destruct (refines_panics parses _ _ w w' Href Hrun) as (Hl & _ & _ & r & Hin & _).
      split; [|done]. destruct (decide (0 < count)%Z) as [|Hle]; [done|].
      exfalso. rewrite Hh in Hin.
      destruct (DeleteTestUsers_spec E count w Hwf) as (_ & _ & _ & Hz).
      unfold handed, exec in Hin. rewrite Hz in Hin by lia. cbn in Hin.
      rewrite drop_all in Hin. by apply elem_of_nil in Hin.
Qed.

Lemma handleReduceLoad_reply_witness :
  let E := demoEnv (answering 200) in
  wf twoUsers ∧ NoDup (tracked_list twoUsers)
  ∧ Panicking.handleReduceLoad E validEscapes "GET" (Some 1%Z) twoUsers
    = Returns (405%Z, None) twoUsers
  ∧ (∃ reply w',
       Panicking.handleReduceLoad E validEscapes "POST" (Some 1%Z) twoUsers
       = Returns (200%Z, Some reply) w'
       ∧ deleted_count reply = Z.of_nat (length (deleted_users reply))
       ∧ (deleted_count reply ≤ 1)%Z)
  ∧ (∃ w',
       Panicking.handleReduceLoad (demoEnv saleDashboard) validEscapes "POST"
         (Some 1%Z) twoUsers = PanicsIn w'
       ∧ tracked_list w' = tracked_list twoUsers).
Proof.
  cbn zeta.
  assert (H : wf twoUsers)
    by (unfold wf, valid; split_and!; vm_compute; first [reflexivity | lia]).
  assert (Hnd : NoDup (tracked_list twoUsers)).
  { change (tracked_list twoUsers) with ["user_1"; "user_2"].
    apply NoDup_cons. split; [|apply NoDup_singleton].
    intros Hin%list_elem_of_singleton. discriminate. }
  destruct (handleReduceLoad_reply (demoEnv (answering 200)) validEscapes "GET" 1
              twoUsers H Hnd) as (H1 & _ & Hiff & Hrun).
  destruct (handleReduceLoad_reply (demoEnv saleDashboard) validEscapes "GET" 1
              twoUsers H Hnd) as (_ & _ & _ & Hbad).
  split_and!; [exact H | exact Hnd | | |].
  - apply H1. discriminate.
  - destruct (proj1 Hiff) as (out & w' & Hk).
    { vm_compute. repeat constructor. }
    rewrite Hk in Hrun. destruct Hrun as (reply & -> & Hc & _ & _ & Hle & _).
    exists reply, w'. split_and!; [exact Hk | exact Hc | apply Hle; lia].
  - destruct (Panicking.handleReduceLoad (demoEnv saleDashboard) validEscapes "POST"
                (Some 1%Z) twoUsers) as [out w'|w'] eqn:Hk.
    + exfalso. vm_compute in Hk. discriminate.
    + exists w'. split; [reflexivity | exact (proj2 Hbad)].
Defined.

(** * Further properties of the chaos transport *)

(** X18. Whatever is drawn, a response that [RoundTrip] returns is the
    one the wrapped transport returned, with the same headers and body,
    and either untouched or with its status rewritten to 500; an error of
    the wrapped transport is passed on as an error. *)
Theorem RoundTrip_keeps_headers_and_body (c : Chaos) (u1 : Q) (raw : Z)
    (cancelAfter : option Z) (tie : bool) (base : option HttpResponse) (u2 : Q)
    (slept : option Z) (resp : option HttpResponse) :
  RoundTrip c u1 raw cancelAfter tie base u2 = Finishes (slept, FromBase resp) →
  match resp with
  | None => base = None
  | Some r =>
      ∃ r0, base = Some r0
            ∧ Header r = Header r0 ∧ Body r = Body r0
            ∧ (r = r0
               ∨ (StatusCode r = 500%Z ∧ StatusLine r = "500 Internal Server Error"))
  end.
Proof.
  assert (Hinj : inject c base u2 = FromBase resp →
    match resp with
    | None => base = None
    | Some r =>
        ∃ r0, base = Some r0
              ∧ Header r = Header r0 ∧ Body r = Body r0
              ∧ (r = r0
                 ∨ (StatusCode r = 500%Z
                    ∧ StatusLine r = "500 Internal Server Error"))
    end).
  { unfold inject. destruct base as [r0|]; [|by intros [= <-]].
    destruct (below u2 (ErrorRate c)); intros [= <-]; exists r0; cbn; eauto 6. }
  unfold RoundTrip. destruct (below u1 (DelayRate c)).
  - destruct (Intn raw (MaxDelayMs c)) as [|k]; [done|].
    destruct (selectDelay _ _ _) as [[] t]; [|done].
    intros [= _ H]. by apply Hinj.
  - intros [= _ H]. by apply Hinj.
Qed.

Lemma RoundTrip_keeps_headers_and_body_witness :
  let c := Build_Chaos 1 0 0 in
  let r0 := mkHttpResponse 200 "200 OK" [("Content-Type", "application/json")] "{}" in
  RoundTrip c 0 0 None true (Some r0) (1 # 2)
  = Finishes (None, FromBase (Some (mkHttpResponse 500 "500 Internal Server Error"
                                      [("Content-Type", "application/json")] "{}")))
  ∧ ∃ r1, Some r0 = Some r1
          ∧ [("Content-Type", "application/json")] = Header r1 ∧ "{}" = Body r1.
Proof.
  cbn zeta.
  assert (H : RoundTrip (Build_Chaos 1 0 0) 0 0 None true
                (Some (mkHttpResponse 200 "200 OK"
                         [("Content-Type", "application/json")] "{}")) (1 # 2)
              = Finishes (None, FromBase (Some (mkHttpResponse 500
                   "500 Internal Server Error"
                   [("Content-Type", "application/json")] "{}")))) by reflexivity.
  split; [exact H|].
  destruct (RoundTrip_keeps_headers_and_body _ _ _ _ _ _ _ _ _ H)
    as (r1 & H0 & H1 & H2 & _).
  exists r1. split_and!; [exact H0 | exact H1 | exact H2].
Defined.

Lemma below_ge u rate : (rate <= u)%Q → below u rate = false.
Proof. intros H. unfold below. by rewrite (proj2 (Qle_bool_iff rate u) H). Qed.

Lemma below_lt u rate : (u < rate)%Q → below u rate = true.
Proof.
  intros H. unfold below. destruct (Qle_bool rate u) eqn:Hle; [|done].
  apply Qle_bool_iff in Hle. by destruct (Qlt_not_le _ _ H).
Qed.

(** X19. The two ends of the error rate, for a draw in [0, 1): with
    [error_rate >= 1] every response of the wrapped transport is rewritten
    to status 500; with [error_rate <= 0] every response is returned
    untouched.  Errors of the wrapped transport pass through at any rate. *)
Theorem inject_extremes (c : Chaos) (u2 : Q) (r : HttpResponse) :
  (0 <= u2)%Q → (u2 < 1)%Q →
  ((1 <= ErrorRate c)%Q →
   inject c (Some r) u2
   = FromBase (Some (mkHttpResponse 500 "500 Internal Server Error"
                       (Header r) (Body r))))
  ∧ ((ErrorRate c <= 0)%Q → inject c (Some r) u2 = FromBase (Some r))
  ∧ inject c None u2 = FromBase None.
Proof.
  intros H0 H1. unfold inject. split_and!; [| |done].
  - intros Hr. rewrite below_lt; [done|]. by eapply Qlt_le_trans.
  - intros Hr. rewrite below_ge; [done|]. by eapply Qle_trans.
Qed.

Lemma inject_extremes_witness :
  let r := mkHttpResponse 201 "201 Created" [] "ok" in
  (0 <= 1 # 2)%Q ∧ (1 # 2 < 1)%Q
  ∧ inject (Build_Chaos 1 0 0) (Some r) (1 # 2)
    = FromBase (Some (mkHttpResponse 500 "500 Internal Server Error" [] "ok"))
  ∧ inject (Build_Chaos 0 0 0) (Some r) (1 # 2) = FromBase (Some r).
Proof.
  cbn zeta.
  assert (H0 : (0 <= 1 # 2)%Q) by (vm_compute; discriminate).
  assert (H1 : (1 # 2 < 1)%Q) by reflexivity.
  assert (Hhi : (1 <= ErrorRate (Build_Chaos 1 0 0))%Q) by (vm_compute; discriminate).
  assert (Hlo : (ErrorRate (Build_Chaos 0 0 0) <= 0)%Q) by (vm_compute; discriminate).
  split_and!; [exact H0 | exact H1 | |].
  - exact (proj1 (inject_extremes (Build_Chaos 1 0 0) (1 # 2)
                    (mkHttpResponse 201 "201 Created" [] "ok") H0 H1) Hhi).
  - exact (proj1 (proj2 (inject_extremes (Build_Chaos 0 0 0) (1 # 2)
                           (mkHttpResponse 201 "201 Created" [] "ok") H0 H1)) Hlo).
Defined.

(** X20. With [delay_rate <= 0] the delay branch is never entered: no
    wait is injected, the context is not consulted and [rand.Intn] is
    not called, so the call finishes even when [max_delay_ms] is 0. *)
Theorem RoundTrip_without_delay (c : Chaos) (u1 : Q) (raw : Z)
    (cancelAfter : option Z) (tie : bool) (base : option HttpResponse) (u2 : Q) :
  (DelayRate c <= 0)%Q → (0 <= u1)%Q →
  RoundTrip c u1 raw cancelAfter tie base u2 = Finishes (None, inject c base u2).
Proof.
  intros Hr Hu. unfold RoundTrip. rewrite below_ge; [done|]. by eapply Qle_trans.
Qed.

Lemma RoundTrip_without_delay_witness :
  (DelayRate (Build_Chaos 0 0 0) <= 0)%Q ∧ (0 <= 1 # 3)%Q
  ∧ RoundTrip (Build_Chaos 0 0 0) (1 # 3) 7 (Some 0%Z) false None 0
    = Finishes (None, FromBase None).
Proof.
  assert (Hr : (DelayRate (Build_Chaos 0 0 0) <= 0)%Q) by (vm_compute; discriminate).
  assert (Hu : (0 <= 1 # 3)%Q) by (vm_compute; discriminate).
  split_and!; [exact Hr | exact Hu |].
  exact (RoundTrip_without_delay (Build_Chaos 0 0 0) (1 # 3) 7 (Some 0%Z) false None 0
           Hr Hu).
Defined.

(** * Further properties of chat send *)

(** X21. Every call of [SendMessage] increments [requests_total] exactly
    once, for one of the statuses [no_connection], [error] and [200],
    observes the duration once, dials nothing and hands at most one frame
    to the socket; the status tells what happened: [no_connection] when
    the connection is nil, [error] when the write failed, in which case
    the connection is set to nil, and [200] otherwise. *)
Theorem SendMessage_counts_once (message : string) (writeFails : bool)
    (c : ChatBehavior) (e : Registry) :
  let c' := fst (SendMessage message writeFails c e) in
  let e' := snd (SendMessage message writeFails c e) in
  let status := match conn c with
                | None => "no_connection"
                | Some _ => if writeFails then "error" else "200"
                end in
  let labels := ("chat", "send_message", status) in
  RequestsTotal e'
  = <[labels := S (default 0 (RequestsTotal e !! labels))]> (RequestsTotal e)
  ∧ RequestDuration e' = RequestDuration e ++ [("chat", "send_message")]
  ∧ dialed e' = dialed e
  ∧ written e' = match conn c with
                 | None => written e
                 | Some k => written e ++ [(k, socketIOMsg message)]
                 end
  ∧ conn c' = (if writeFails then None else conn c).
Proof.
  cbn zeta. unfold SendMessage. destruct (conn c) as [k|] eqn:Hc; cbn.
  - destruct writeFails; cbn; by rewrite ?Hc.
  - rewrite Hc. by destruct writeFails.
Qed.

(** X22. A failed write drops the connection for good: the next
    [SendMessage] finds it nil, counts [no_connection] and hands nothing
    to the socket. *)
Theorem SendMessage_after_failed_write (m1 m2 : string) (fails2 : bool)
    (c : ChatBehavior) (e : Registry) (k : nat) :
  conn c = Some k →
  let c1 := fst (SendMessage m1 true c e) in
  let e1 := snd (SendMessage m1 true c e) in
  let c2 := fst (SendMessage m2 fails2 c1 e1) in
  let e2 := snd (SendMessage m2 fails2 c1 e1) in
  conn c1 = None ∧ conn c2 = None
  ∧ written e2 = written e ++ [(k, socketIOMsg m1)]
  ∧ dialed e2 = dialed e
  ∧ RequestsTotal e2 !! ("chat", "send_message", "no_connection")
    = Some (S (default 0 (RequestsTotal e !! ("chat", "send_message", "no_connection"))))
  ∧ RequestsTotal e2 !! ("chat", "send_message", "error")
    = Some (S (default 0 (RequestsTotal e !! ("chat", "send_message", "error")))).
Proof.
  intros Hc. cbn zeta. unfold SendMessage. rewrite Hc. cbn.
  split_and!; try done.
  - rewrite lookup_insert_eq, lookup_insert_ne by done. done.
  - rewrite lookup_insert_ne by done. by rewrite lookup_insert_eq.
Qed.

Lemma SendMessage_after_failed_write_witness :
  let c := mkChatBehavior "http://chat" (Some 4) "token" "loadtest_user_7" in
  let e := mkRegistry ∅ [] [] 0 in
  conn c = Some 4
  ∧ conn (fst (SendMessage "a" true c e)) = None
  ∧ written (snd (SendMessage "b" false (fst (SendMessage "a" true c e))
                    (snd (SendMessage "a" true c e))))
    = [(4, socketIOMsg "a")].
Proof.
  cbn zeta.
  assert (H : conn (mkChatBehavior "http://chat" (Some 4) "token" "loadtest_user_7")
              = Some 4) by reflexivity.
  destruct (SendMessage_after_failed_write "a" "b" false _ (mkRegistry ∅ [] [] 0) 4 H)
    as (H1 & _ & H2 & _).
  split_and!; [exact H | exact H1 | exact H2].
Defined.

(** * The virtual user (internal/user) and its authentication *)

Module VirtualUser.

(** A request handed to the HTTP client of [AuthBehavior]: method, URL and
    the fields of the JSON body. *)
Record Call := mkCall {
  c_method : string;
  c_url : string;
  c_body : list (string * string)
}.

(** The calls made so far, oldest first, and the metrics registry. *)
Record Net := mkNet { calls : list Call; registry : Chat.Registry }.

Record User := mkUser { ID : Z; Username : string; Token : string; UserID : string }.

Section Auth.

(** The base URL of the user service. *)
Variable baseURL : string.

(** The reply to a call when it is the k-th one. *)
Variable srv : nat → Call → Response.

(** [json.NewDecoder(body).Decode(&authResp)] followed by
    [authResp.Token]; [None] is a decoding error. *)
Variable decodeToken : option JSON → option string.

(** [fmt.Sprintf] with the verb [%d]. *)
Variable itoa : Z → string.

Definition count (labels : string * string * string) (n : Net) : Net :=
  mkNet (calls n) (Chat.Inc labels (registry n)).


(** [a.client.Do(httpReq)] *)
Definition Do (c : Call) (n : Net) : Response * Net :=
  (srv (length (calls n)) c, mkNet (calls n ++ [c]) (registry n)).



(** [url.Parse(rawURL)] returns no error. *)
Variable parses : string → bool.

(** [http.NewRequestWithContext(ctx, "POST", url, body)]; [None] is the
    nil request that comes with an error. *)
Definition NewRequestWithContext (c : Call) : option Call :=
  if parses (c_url c) then Some c else None.



(** [user.New] *)
Definition New (id : Z) : User :=
  mkUser id ("user_" +:+ itoa id) EmptyString EmptyString.



End Auth.



(** [User.idle]: the time slept, in nanoseconds. *)
Definition idle (raw : Z) : ChaosTransport.Go Z :=
  match ChaosTransport.Intn raw 6 with
  | ChaosTransport.Panics => ChaosTransport.Panics
  | ChaosTransport.Finishes k =>
      ChaosTransport.Finishes (ChaosTransport.wrap64 ((k + 2) * 1000000000))
  end.

End VirtualUser.

(** X23. Every username [user.New] builds starts with [user_], so
    [DeleteUser] never refuses a user the generator created: it always
    hands the DELETE for it to the client. *)
Theorem generated_usernames_pass_the_guard (E : Env) (itoa : Z → string) (id : Z)
    (w : World) :
  let name := VirtualUser.Username (VirtualUser.New itoa id) in
  String.prefix testPrefix name = true
  ∧ wire (exec (DeleteUser E name) w) = wire w ++ [mkRequest DELETE (userURL E name)].
Proof.
  cbn zeta.
  assert (Hp : String.prefix testPrefix
                 (VirtualUser.Username (VirtualUser.New itoa id)) = true).
  { unfold VirtualUser.New, VirtualUser.Username, testPrefix.
    cbn [String.append]. generalize (itoa id). intros s.
    cbn. by destruct s. }
  split; [exact Hp|]. unfold exec. rewrite (DeleteUser_run E _ w Hp). cbn zeta.
  destruct (env_srv E _ _) as [|code body]; [done|].
  destruct (acknowledged code); [|done]. cbn [snd]. apply retain_net_wire.
Qed.


(** X25. [idle] never panics and sleeps a whole number of seconds
    between 2 and 7. *)
Theorem idle_between_2_and_7_seconds (raw : Z) :
  ∃ s, VirtualUser.idle raw = ChaosTransport.Finishes (s * 1000000000)%Z
       ∧ (2 ≤ s ≤ 7)%Z.
Proof.
  unfold VirtualUser.idle.
  destruct (Intn_in_range raw 6 ltac:(lia)) as (k & -> & Hk).
  exists (k + 2)%Z. split; [|lia]. f_equal. unfold ChaosTransport.wrap64.
  rewrite Z.mod_small by lia. lia.
Qed.

(** * The generator (internal/generator) *)

From Stdlib Require Import Ascii.

Module Generator.

(** [strings.Split(ramp, "/")[0]]: what stands before the first slash,
    the whole string when there is none. *)
Fixpoint beforeSlash (s : string) : string :=
  match s with
  | EmptyString => EmptyString
  | String c rest => if Ascii.eqb c "/" then EmptyString else String c (beforeSlash rest)
  end.

Definition maxInt : Z := (2 ^ 63 - 1)%Z.
Definition minInt : Z := (- 2 ^ 63)%Z.

(** [strconv.Atoi]: the value and whether an error is returned.  An
    optional sign, then at least one decimal digit and nothing else;
    a syntax error gives 0, a value out of the range of [int] gives the
    nearest bound. *)
Definition Atoi (s : string) : Z * bool :=
  let '(neg, digits) :=
    match s with
    | String c rest =>
        if Ascii.eqb c "-" then (true, rest)
        else if Ascii.eqb c "+" then (false, rest)
        else (false, s)
    | EmptyString => (false, s)
    end in
  match digits with
  | EmptyString => (0%Z, true)
  | _ =>
      match DecimalString.NilEmpty.uint_of_string digits with
      | None => (0%Z, true)
      | Some d =>
          let v := Z.of_uint d in
          if neg then (if (- minInt <? v)%Z then (minInt, true) else ((- v)%Z, false))
          else (if (maxInt <? v)%Z then (maxInt, true) else (v, false))
      end
  end.

(** The [rampRate] field [generator.New] computes; the error of [Atoi]
    is dropped. *)
Definition rampRate (ramp : string) : Z := fst (Atoi (beforeSlash ramp)).

(** [time.NewTicker(d)] panics unless [d] is positive. *)
Definition NewTicker (d : Z) : ChaosTransport.Go unit :=
  if (d <=? 0)%Z then ChaosTransport.Panics else ChaosTransport.Finishes tt.

(** The loop of [rampUp], in either of its two forms: each iteration is a
    [select] that either sends the next slot on [userChan] (and then
    calls [ActiveUsers.Inc]) or finds the context done and returns.
    [ctxDone i] tells whether iteration [i] takes the second case.  The
    channel has room for every slot, so a send never blocks. *)
Fixpoint ramp_loop (ctxDone : nat → bool) (left : nat) (i : nat) : list Z :=
  match left with
  | 0 => []
  | S left' =>
      if ctxDone i then [] else Z.of_nat i :: ramp_loop ctxDone left' (S i)
  end.

(** [Generator.rampUp]: the slots sent, in order. *)
Definition rampUp (rate users : Z) (ctxDone : nat → bool)
  : ChaosTransport.Go (list Z) :=
  if (rate <=? 0)%Z then ChaosTransport.Finishes (ramp_loop ctxDone (Z.to_nat users) 0)
  else
    match NewTicker (Z.quot 1000000000 rate) with
    | ChaosTransport.Panics => ChaosTransport.Panics
    | ChaosTransport.Finishes _ =>
        ChaosTransport.Finishes (ramp_loop ctxDone (Z.to_nat users) 0)
    end.

(** The decimal numeral of a natural number. *)
Definition decimal (n : N) : string :=
  DecimalString.NilEmpty.string_of_uint (N.to_uint n).

End Generator.

Lemma beforeSlash_numeral d rest :
  Generator.beforeSlash
    (DecimalString.NilEmpty.string_of_uint d +:+ String "/" rest)
  = DecimalString.NilEmpty.string_of_uint d.
Proof.
  assert (Hc : ∀ c s t, String c s +:+ t = String c (s +:+ t)) by reflexivity.
  assert (Hn : ∀ t, EmptyString +:+ t = t) by reflexivity.
  induction d; cbn [DecimalString.NilEmpty.string_of_uint];
    rewrite ?Hc, ?Hn; cbn [Generator.beforeSlash]; rewrite ?IHd; reflexivity.
Qed.

Lemma numeral_unsigned (n : N) :
  ∃ c rest, Generator.decimal n = String c rest
            ∧ Ascii.eqb c "-" = false ∧ Ascii.eqb c "+" = false.
Proof.
  unfold Generator.decimal, N.to_uint.
  destruct n as [|p]; [by eexists _, _|].
  unfold Pos.to_uint.
  assert (H : ∀ d, d ≠ Decimal.Nil →
    ∃ c rest, DecimalString.NilEmpty.string_of_uint d = String c rest
              ∧ Ascii.eqb c "-" = false ∧ Ascii.eqb c "+" = false).
  { intros d Hd. destruct d; try done; by eexists _, _. }
  apply H. intros Hnil.
  pose proof (DecimalPos.Unsigned.of_to p) as Hof. unfold Pos.to_uint in Hof.
  rewrite Hnil in Hof. discriminate.
Qed.

(** X26. [generator.New] reads the rate back from a ramp written as a
    decimal numeral followed by a slash: for every [n] in the range of
    [int], the ramp [<n>/<anything>] gives the rate [n].  A ramp with
    nothing before the slash gives the rate 0. *)
Theorem rampRate_of_numeral (n : N) (rest : string) :
  (Z.of_N n ≤ Generator.maxInt)%Z →
  Generator.rampRate (Generator.decimal n +:+ String "/" rest) = Z.of_N n
  ∧ Generator.rampRate (String "/" rest) = 0%Z
  ∧ Generator.rampRate EmptyString = 0%Z.
Proof.
  intros Hn. split; [|done].
  unfold Generator.rampRate, Generator.decimal. rewrite beforeSlash_numeral.
  destruct (numeral_unsigned n) as (c & r & Hs & Hm & Hp).
  unfold Generator.decimal in Hs. unfold Generator.Atoi. rewrite Hs, Hm, Hp.
  rewrite <-Hs, DecimalString.NilEmpty.usu.
  unfold Z.of_uint. change (Pos.of_uint (N.to_uint n)) with (N.of_uint (N.to_uint n)).
  rewrite DecimalN.Unsigned.of_to.
  by rewrite (proj2 (Z.ltb_ge _ _) Hn).
Qed.

Lemma rampRate_of_numeral_witness :
  (Z.of_N 25 ≤ Generator.maxInt)%Z
  ∧ Generator.decimal 25 +:+ String "/" "s" = "25/s"
  ∧ Generator.rampRate (Generator.decimal 25 +:+ String "/" "s") = 25%Z.
Proof.
  assert (H : (Z.of_N 25 ≤ Generator.maxInt)%Z) by (vm_compute; discriminate).
  split_and!; [exact H | reflexivity |].
  exact (proj1 (rampRate_of_numeral 25 "s" H)).
Defined.

Lemma ramp_loop_prefix ctxDone : ∀ left i,
  ∃ k, k ≤ left
       ∧ Generator.ramp_loop ctxDone left i = map Z.of_nat (seq i k)
       ∧ ((∀ j, ctxDone j = false) → k = left).
Proof.
  induction left as [|left IH]; intros i; cbn.
  - by exists 0.
  - destruct (ctxDone i) eqn:Hd.
    + exists 0. split_and!; [lia | done |]. intros Hall. by rewrite Hall in Hd.
    + destruct (IH (S i)) as (k & Hk & -> & Hall). exists (S k).
      split_and!; [lia | done |]. intros H. by rewrite (Hall H).
Qed.

(** X27. [rampUp] with a rate of at most 10^9 users per second never
    panics and sends the slots 0, 1, 2, ... in order, stopping only when
    the context is done or all [users] slots are out; an undisturbed ramp
    sends every slot.  With a rate above 10^9 the tick interval
    [time.Second / rate] is 0 and [time.NewTicker] panics. *)
Theorem rampUp_slots (rate users : Z) (ctxDone : nat → bool) :
  ((rate ≤ 1000000000)%Z →
   ∃ k, k ≤ Z.to_nat users
        ∧ Generator.rampUp rate users ctxDone
          = ChaosTransport.Finishes (map Z.of_nat (seq 0 k))
        ∧ ((∀ j, ctxDone j = false) → k = Z.to_nat users))
  ∧ ((1000000000 < rate)%Z →
     Generator.rampUp rate users ctxDone = ChaosTransport.Panics).
Proof.
  unfold Generator.rampUp, Generator.NewTicker. split; intros Hr.
  - destruct (ramp_loop_prefix ctxDone (Z.to_nat users) 0) as (k & Hk & Hl & Hall).
    exists k. rewrite Hl. split; [done|]. split; [|done].
    destruct (rate <=? 0)%Z eqn:H0; [done|]. apply Z.leb_gt in H0.
    assert (H1 : (1 ≤ Z.quot 1000000000 rate)%Z).
    { rewrite Z.quot_div_nonneg by lia. apply Z.div_le_lower_bound; lia. }
    by rewrite (proj2 (Z.leb_gt _ _)) by lia.
  - rewrite (proj2 (Z.leb_gt rate 0)) by lia.
    assert (H1 : Z.quot 1000000000 rate = 0%Z) by (apply Z.quot_small; lia).
    by rewrite H1.
Qed.

Lemma rampUp_slots_witness :
  (5 ≤ 1000000000)%Z ∧ (1000000000 < 2000000000)%Z
  ∧ Generator.rampUp 5 3 (fun _ => false) = ChaosTransport.Finishes [0%Z; 1%Z; 2%Z]
  ∧ Generator.rampUp 2000000000 3 (fun _ => false) = ChaosTransport.Panics.
Proof.
  assert (H1 : (5 ≤ 1000000000)%Z) by lia.
  assert (H2 : (1000000000 < 2000000000)%Z) by lia.
  split_and!; [exact H1 | exact H2 | |].
  - destruct (proj1 (rampUp_slots 5 3 (fun _ => false)) H1) as (k & _ & Hk & Hall).
    rewrite Hk, (Hall (fun _ => eq_refl)). reflexivity.
  - exact (proj2 (rampUp_slots 2000000000 3 (fun _ => false)) H2).
Defined.

(** * The configuration loader (internal/config) *)

Module ConfigLoader.

Record Tracing := mkTracing { Endpoint : string; Enabled : bool }.

(** [config.Config] is the pair of the record used so far and its
    [Tracing] field. *)
Definition Loaded : Type := Config * Tracing.

Section Load.

(** The [float64] values of the literals [0.1] and [0.15]. *)
Variables defaultErrorRate defaultDelayRate : Q.

(** What [yaml.Unmarshal(data, cfg)] does to the defaults; [None] when
    the file is absent or cannot be read. *)
Variable yaml : option (Loaded → Loaded).

(** [os.Getenv]; a variable that is not set reads as the empty string. *)
Variable getenv : string → string.

(** [strconv.ParseFloat(s, 64)]; [None] is an error. *)
Variable ParseFloat : string → option Q.

Definition defaults : Loaded :=
  (Build_Config
     (Build_Services
        (Build_Service "http://localhost:8080" "10s")
        (Build_Service "http://localhost:3001" "10s")
        (Build_Service "http://localhost:8083" "10s")
        (Build_Service "http://localhost:8081" "10s"))
     (Build_Chaos defaultErrorRate defaultDelayRate 1000) "3002" "9090",
   mkTracing EmptyString false).

(** The configuration after the file has been read. *)
Definition fromFile : Loaded :=
  match yaml with
  | Some unmarshal => unmarshal defaults
  | None => defaults
  end.

(** [if v := os.Getenv(name); v != "" { field = v }] *)
Definition orEnv (name : string) (field : string) : string :=
  if String.eqb (getenv name) EmptyString then field else getenv name.

Definition withURL (name : string) (s : Service) : Service :=
  Build_Service (orEnv name (BaseURL s)) (Timeout s).

Definition floatOrEnv (name : string) (field : Q) : Q :=
  if String.eqb (getenv name) EmptyString then field
  else match ParseFloat (getenv name) with
       | Some f => f
       | None => field
       end.

Definition intOrEnv (name : string) (field : Z) : Z :=
  if String.eqb (getenv name) EmptyString then field
  else match Generator.Atoi (getenv name) with
       | (i, false) => i
       | (_, true) => field
       end.

(** [config.Load] *)
Definition Load : Loaded :=
  let (c, t) := fromFile in
  let sv := services c in
  (Build_Config
     (Build_Services
        (withURL "USER_SERVICE_URL" (UserService sv))
        (withURL "CHAT_SERVICE_URL" (ChatService sv))
        (withURL "POSTS_SERVICE_URL" (PostsService sv))
        (withURL "PROFILE_SERVICE_URL" (ProfileService sv)))
     (Build_Chaos
        (floatOrEnv "CHAOS_ERROR_RATE" (ErrorRate (chaos c)))
        (floatOrEnv "CHAOS_DELAY_RATE" (DelayRate (chaos c)))
        (intOrEnv "CHAOS_MAX_DELAY_MS" (MaxDelayMs (chaos c))))
     (orEnv "WEB_PORT" (WebPort c))
     (orEnv "METRICS_PORT" (MetricsPort c)),
   mkTracing
     (orEnv "JAEGER_ENDPOINT" (Endpoint t))
     (if String.eqb (getenv "TRACING_ENABLED") "false" then false else Enabled t)).

End Load.

End ConfigLoader.

Lemma Load_max_delay e d yaml getenv ParseFloat v :
  getenv "CHAOS_MAX_DELAY_MS" ≠ EmptyString →
  Generator.Atoi (getenv "CHAOS_MAX_DELAY_MS") = (v, false) →
  MaxDelayMs (chaos (fst (ConfigLoader.Load e d yaml getenv ParseFloat))) = v.
Proof.
  intros Hne Hv. unfold ConfigLoader.Load.
  destruct (ConfigLoader.fromFile e d yaml) as [c t]. cbn.
  unfold ConfigLoader.intOrEnv. rewrite (proj2 (String.eqb_neq _ _) Hne). by rewrite Hv.
Qed.

(** X28. The environment wins over the file: a service URL or port
    variable that is set and not empty is what [Load] returns, whatever
    the file says; one that is empty or unset leaves the value the file
    (or the default) gave.  A [CHAOS_MAX_DELAY_MS] that [Atoi] accepts is
    taken as it is, without any check of its sign, and one it rejects is
    ignored. *)
Theorem Load_environment_wins (e d : Q) (yaml : option (ConfigLoader.Loaded →
                                                        ConfigLoader.Loaded))
    (getenv : string → string) (ParseFloat : string → option Q) :
  let file := fst (ConfigLoader.fromFile e d yaml) in
  let cfg := fst (ConfigLoader.Load e d yaml getenv ParseFloat) in
  let pick name field :=
    if String.eqb (getenv name) EmptyString then field else getenv name in
  BaseURL (UserService (services cfg))
  = pick "USER_SERVICE_URL" (BaseURL (UserService (services file)))
  ∧ BaseURL (ChatService (services cfg))
    = pick "CHAT_SERVICE_URL" (BaseURL (ChatService (services file)))
  ∧ BaseURL (PostsService (services cfg))
    = pick "POSTS_SERVICE_URL" (BaseURL (PostsService (services file)))
  ∧ BaseURL (ProfileService (services cfg))
    = pick "PROFILE_SERVICE_URL" (BaseURL (ProfileService (services file)))
  ∧ WebPort cfg = pick "WEB_PORT" (WebPort file)
  ∧ MetricsPort cfg = pick "METRICS_PORT" (MetricsPort file)
  ∧ (getenv "CHAOS_MAX_DELAY_MS" ≠ EmptyString →
     ∀ v, Generator.Atoi (getenv "CHAOS_MAX_DELAY_MS") = (v, false) →
          MaxDelayMs (chaos cfg) = v)
  ∧ (snd (Generator.Atoi (getenv "CHAOS_MAX_DELAY_MS")) = true →
     MaxDelayMs (chaos cfg) = MaxDelayMs (chaos file)).
Proof.
  cbn zeta. unfold ConfigLoader.Load.
  destruct (ConfigLoader.fromFile e d yaml) as [c t]. cbn.
  unfold ConfigLoader.orEnv, ConfigLoader.intOrEnv. split_and!; try done.
  - intros Hne v Hv. rewrite (proj2 (String.eqb_neq _ _) Hne). by rewrite Hv.
  - intros Herr. destruct (String.eqb _ _); [done|].
    destruct (Generator.Atoi _) as [i []]; [done | discriminate].
Qed.

(** X29. [Load] and the chaos transport together: when
    [CHAOS_MAX_DELAY_MS] is set to an integer that is not positive, the
    loaded configuration carries it, and every request that enters the
    delay branch of [RoundTrip] panics. *)
Theorem Load_unchecked_delay_panics (e d : Q)
    (yaml : option (ConfigLoader.Loaded → ConfigLoader.Loaded))
    (getenv : string → string) (ParseFloat : string → option Q) (v : Z)
    (u1 : Q) (raw : Z) (cancelAfter : option Z) (tie : bool)
    (base : option HttpResponse) (u2 : Q) :
  getenv "CHAOS_MAX_DELAY_MS" ≠ EmptyString →
  Generator.Atoi (getenv "CHAOS_MAX_DELAY_MS") = (v, false) →
  (v ≤ 0)%Z →
  let c := chaos (fst (ConfigLoader.Load e d yaml getenv ParseFloat)) in
  below u1 (DelayRate c) = true →
  RoundTrip c u1 raw cancelAfter tie base u2 = Panics.
Proof.
  intros Hne Hv Hle. cbn zeta. intros Hu. apply RoundTrip_panics; [|done].
  by rewrite (Load_max_delay e d yaml getenv ParseFloat v Hne Hv).
Qed.

(** The environment of a process started with
    [CHAOS_MAX_DELAY_MS=0 CHAOS_DELAY_RATE=1]. *)
Definition zeroDelayEnv (name : string) : string :=
  if String.eqb name "CHAOS_MAX_DELAY_MS" then "0"
  else if String.eqb name "CHAOS_DELAY_RATE" then "1"
  else EmptyString.

Definition demoParseFloat (s : string) : option Q :=
  if String.eqb s "1" then Some 1%Q else if String.eqb s "0" then Some 0%Q else None.

Lemma Load_unchecked_delay_panics_witness :
  zeroDelayEnv "CHAOS_MAX_DELAY_MS" ≠ EmptyString
  ∧ Generator.Atoi (zeroDelayEnv "CHAOS_MAX_DELAY_MS") = (0%Z, false)
  ∧ (0 ≤ 0)%Z
  ∧ RoundTrip (chaos (fst (ConfigLoader.Load (1 # 10) (15 # 100) None zeroDelayEnv
                             demoParseFloat)))
      (1 # 2) 7 None true None 0
    = Panics.
Proof.
  assert (H1 : zeroDelayEnv "CHAOS_MAX_DELAY_MS" ≠ EmptyString) by discriminate.
  assert (H2 : Generator.Atoi (zeroDelayEnv "CHAOS_MAX_DELAY_MS") = (0%Z, false))
    by reflexivity.
  assert (H3 : (0 ≤ 0)%Z) by lia.
  split_and!; [exact H1 | exact H2 | exact H3 |].
  exact (Load_unchecked_delay_panics (1 # 10) (15 # 100) None zeroDelayEnv
           demoParseFloat 0 (1 # 2) 7 None true None 0 H1 H2 H3 eq_refl).
Defined.

(** X30. The environment can switch tracing off but never on: tracing
    is enabled after [Load] only if the file enabled it and
    [TRACING_ENABLED] is not the string [false]. *)
Theorem Load_tracing_only_disabled (e d : Q)
    (yaml : option (ConfigLoader.Loaded → ConfigLoader.Loaded))
    (getenv : string → string) (ParseFloat : string → option Q) :
  ConfigLoader.Enabled (snd (ConfigLoader.Load e d yaml getenv ParseFloat)) = true
  ↔ ConfigLoader.Enabled (snd (ConfigLoader.fromFile e d yaml)) = true
    ∧ getenv "TRACING_ENABLED" ≠ "false".
Proof.
  unfold ConfigLoader.Load. destruct (ConfigLoader.fromFile e d yaml) as [c t]. cbn.
  destruct (String.eqb (getenv "TRACING_ENABLED") "false") eqn:Hf.
  - apply String.eqb_eq in Hf. split; [done | by intros [_ ?]].
  - apply String.eqb_neq in Hf. split; [done | by intros [? _]].
Qed.
